(** * Document-intelligence API: OCR + LLM orchestration

    A shallow embedding of the TypeScript services and controllers
    (dual-ocr.service.ts, hybrid.service.ts, llm.service.ts, the vision,
    magic-OCR and OCR services, and the document-vl / magic-ocr
    controllers), followed by the properties of the orchestration,
    merge policy, error classification and scratch-directory cleanup. *)

From Stdlib Require Import NArith ZArith Ascii String Lia.
From stdpp Require Import base option list strings gmap.

Local Open Scope N_scope.

(** ** JavaScript values used by the services *)

(** A JavaScript string is a sequence of UTF-16 code units. *)
Definition jsstring : Type := list N.

(** A source-code string literal (all literals of the services that are
    modelled here are ASCII). *)
Definition lit (s : string) : jsstring :=
  N_of_ascii <$> list_ascii_of_string s.

(** The line feed of the template literals. *)
Definition nl : jsstring := [10].

(** ECMAScript WhiteSpace and LineTerminator code points, the characters
    that [String.prototype.trim] strips. *)
Definition is_white_space (c : N) : bool :=
  (c =? 0x0009) || (c =? 0x000A) || (c =? 0x000B) || (c =? 0x000C) ||
  (c =? 0x000D) || (c =? 0x0020) || (c =? 0x00A0) || (c =? 0x1680) ||
  ((0x2000 <=? c) && (c <=? 0x200A)) ||
  (c =? 0x2028) || (c =? 0x2029) || (c =? 0x202F) || (c =? 0x205F) ||
  (c =? 0x3000) || (c =? 0xFEFF).

Fixpoint dropWhile {A} (p : A → bool) (l : list A) : list A :=
  match l with
  | [] => []
  | x :: l' => if p x then dropWhile p l' else l
  end.

Definition trimStart (s : jsstring) : jsstring := dropWhile is_white_space s.
Definition trimEnd (s : jsstring) : jsstring :=
  rev (dropWhile is_white_space (rev s)).

(** [s.trim()] *)
Definition trim (s : jsstring) : jsstring := trimEnd (trimStart s).

(** Truthiness of a string: [!s] holds exactly for the empty string. *)
Definition truthy (s : jsstring) : bool :=
  match s with [] => false | _ => true end.

(** [a || b] where [a] is an optional string (undefined and the empty
    string are both falsy). *)
Definition or_default (a : option jsstring) (b : jsstring) : jsstring :=
  match a with
  | Some s => if truthy s then s else b
  | None => b
  end.

(** [hay.startsWith(needle)] *)
Fixpoint startsWith (needle hay : jsstring) : bool :=
  match needle, hay with
  | [], _ => true
  | _ :: _, [] => false
  | a :: needle', b :: hay' => (a =? b) && startsWith needle' hay'
  end.

(** [hay.includes(needle)] *)
Fixpoint includes (needle hay : jsstring) : bool :=
  startsWith needle hay ||
  match hay with
  | [] => false
  | _ :: hay' => includes needle hay'
  end.

(** Values that the services throw and catch. *)
Inductive thrown : Type :=
| AxiosError (code : option jsstring) (status : option N) (message : jsstring)
| Error (message : jsstring)
| NotAnError.

Definition isAxiosError (e : thrown) : bool :=
  match e with AxiosError _ _ _ => true | _ => false end.

(** [error.code === c] *)
Definition code_is (e : thrown) (c : jsstring) : bool :=
  match e with
  | AxiosError (Some c') _ _ => bool_decide (c' = c)
  | _ => false
  end.

(** [error.response?.status === n] *)
Definition status_is (e : thrown) (n : N) : bool :=
  match e with
  | AxiosError _ (Some n') _ => n' =? n
  | _ => false
  end.

(** [error instanceof Error ? error.message : 'Unknown error'] *)
Definition message_or_unknown (e : thrown) : jsstring :=
  match e with
  | AxiosError _ _ m => m
  | Error m => m
  | NotAnError => lit "Unknown error"
  end.

Definition ECONNABORTED : jsstring := lit "ECONNABORTED".

(** ** The world the services act on *)

(** A Node.js [Buffer]: a sequence of bytes. *)
Definition Buffer : Type := list N.

(** The body of a request to Ollama's /api/generate ([stream] is always
    false); [post_images] holds the base64 text of each image. *)
Record Post := mkPost {
  post_model : jsstring;
  post_prompt : jsstring;
  post_images : list jsstring;
}.

(** Whether a request is a text-model request (no image attached). *)
Definition is_text_request (p : Post) : bool :=
  match post_images p with [] => true | _ => false end.

(** JSON bodies the controllers send. *)
Inductive Body : Type :=
| ErrorBody (message code : jsstring)
| AnalysisBody (analysis : jsstring) (textLength : nat)
    (model fileType : jsstring).

(** Observable state: the directories under [os.tmpdir()] with their
    files, the files handed to the debug sink, the requests posted to
    Ollama (latest first), the HTTP responses sent and the errors passed
    to [next] (latest first). *)
Record World := mkWorld {
  tmpfs : gmap string (gmap string Buffer);
  debug_sink : list (string * Buffer);
  posts : list Post;
  responses : list (N * Body);
  forwarded : list thrown;
}.

Definition set_tmpfs (f : gmap string (gmap string Buffer) →
    gmap string (gmap string Buffer)) (w : World) : World :=
  mkWorld (f (tmpfs w)) (debug_sink w) (posts w) (responses w) (forwarded w).
Definition add_debug (name : string) (b : Buffer) (w : World) : World :=
  mkWorld (tmpfs w) ((name, b) :: debug_sink w) (posts w) (responses w)
    (forwarded w).
Definition add_post (p : Post) (w : World) : World :=
  mkWorld (tmpfs w) (debug_sink w) (p :: posts w) (responses w) (forwarded w).
Definition add_response (r : N * Body) (w : World) : World :=
  mkWorld (tmpfs w) (debug_sink w) (posts w) (r :: responses w) (forwarded w).
Definition add_forwarded (e : thrown) (w : World) : World :=
  mkWorld (tmpfs w) (debug_sink w) (posts w) (responses w) (e :: forwarded w).

(** How a statement completes. *)
Inductive completion (A : Type) : Type :=
| Normal (a : A)
| Throw (e : thrown).
Arguments Normal {A} a.
Arguments Throw {A} e.

(** An operation on a state [S]: a state transformer that returns or
    throws.  Asynchronous operations of the services act on the [World];
    a function body with a mutable local variable acts on the variable
    and the world. *)
Definition Op (S A : Type) : Type := S → completion A * S.
Abbreviation M := (Op World).

#[export] Instance Op_ret {S} : MRet (Op S) := λ A a s, (Normal a, s).
#[export] Instance Op_bind {S} : MBind (Op S) := λ A B f m s,
  match m s with
  | (Normal a, s') => f a s'
  | (Throw e, s') => (Throw e, s')
  end.

Definition throw {S A} (e : thrown) : Op S A := λ s, (Throw e, s).

(** [try { m } catch (error) { h error }] *)
Definition try_catch {S A} (m : Op S A) (h : thrown → Op S A) : Op S A := λ s,
  match m s with
  | (Normal a, s') => (Normal a, s')
  | (Throw e, s') => h e s'
  end.

(** [try { m } finally { f }]: [f] runs on every completion of [m]; the
    completion of [m] stands unless [f] itself throws. *)
Definition try_finally {S A} (m : Op S A) (f : Op S unit) : Op S A := λ s,
  match m s with
  | (c, s') =>
      match f s' with
      | (Normal _, s'') => (c, s'')
      | (Throw e, s'') => (Throw e, s'')
      end
  end.

(** [if (c) { m }] *)
Definition when {S} (c : bool) (m : Op S unit) : Op S unit :=
  if c then m else mret ().

Definition modify {S} (f : S → S) : Op S unit := λ s, (Normal (), f s).

(** A function body with a local variable of type [L]
    ([let x = init; ...]): the world operations are lifted, the variable
    is read and assigned, and the body is run from the initial value. *)
Definition lift {L A} (m : M A) : Op (L * World) A := λ s,
  match m s.2 with (c, w') => (c, (s.1, w')) end.
Definition get_var {L} : Op (L * World) L := λ s, (Normal s.1, s).
Definition set_var {L} (v : L) : Op (L * World) unit := λ s, (Normal (), (v, s.2)).
Definition with_var {L A} (init : L) (m : Op (L * World) A) : M A := λ w,
  match m (init, w) with (c, s') => (c, s'.2) end.

(** The elements [Promise.allSettled] resolves to. *)
Inductive PromiseSettledResult (A : Type) : Type :=
| fulfilled (value : A)
| rejected (reason : thrown).
Arguments fulfilled {A} value.
Arguments rejected {A} reason.

Definition settle {A} (m : M A) : M (PromiseSettledResult A) := λ w,
  match m w with
  | (Normal a, w') => (Normal (fulfilled a), w')
  | (Throw e, w') => (Normal (rejected e), w')
  end.

(** [await Promise.allSettled([m1, m2])]: both operations run to their
    own completion and neither completion affects the other.  The two
    operations of the services touch disjoint parts of the world, so
    their effects are recorded in array order. *)
Definition allSettled2 {A B} (m1 : M A) (m2 : M B)
  : M (PromiseSettledResult A * PromiseSettledResult B) :=
  r1 ← settle m1; r2 ← settle m2; mret (r1, r2).

(** ** The sharp image pipeline *)

Module Sharp.
Inductive Fit : Type := cover | contain | fill | inside | outside.

(** The arguments of [.resize(width, height, { fit, withoutEnlargement })];
    [None] is a [null] dimension. *)
Record ResizeOptions := mkResize {
  width : option Z;
  height : option Z;
  fit : Fit;
  withoutEnlargement : bool;
}.

(** The argument of [.jpeg({ quality })]. *)
Record JpegOptions := mkJpeg { quality : Z }.

(** Nearest integer to [a / b], for positive [b]. *)
Definition round_div (a b : Z) : Z := ((2 * a + b) / (2 * b))%Z.

(** Pixel size of the output of a resize to a fixed width with a [null]
    height, for an input of [w] by [h] pixels: both axes shrink by the
    factor [w / target], which [withoutEnlargement] clamps to at
    least 1, and no axis is sent below one pixel. *)
Definition fixed_width_size (target : Z) (noEnlarge : bool)
    (size : Z * Z) : Z * Z :=
  let '(w, h) := size in
  if noEnlarge && (w <=? target)%Z then (w, h)
  else (target, Z.max 1 (round_div (h * target) w)).

(** Output size for the resize options the services use (a width and
    no height); other shapes of options leave the size to the
    [sharp_toBuffer] collaborator. *)
Definition output_size (o : ResizeOptions) (size : Z * Z) : option (Z * Z) :=
  match width o, height o, fit o with
  | Some target, None, inside =>
      Some (fixed_width_size target (withoutEnlargement o) size)
  | _, _, _ => None
  end.
End Sharp.

(** ** Configuration and external collaborators *)

(** [config] of the application (the fields the services read). *)
Record Config := mkConfig {
  ollama_model : jsstring;
  ollama_timeout : N;
  ollama_visionTimeout : N;
  debug_saveFiles : bool;
}.

(** The file-system and process calls that can fail on their own. *)
Inductive Syscall : Type :=
| MkdirDebug | Mkdtemp | WritePdf | Pdftocairo | ReadPng
| CopyDebug | WriteDebug | RmTemp.

(** Everything outside the services: the OCR engine, the Ollama backend
    (for each request: the time in milliseconds it takes to answer, and
    the answer, whose payload is [response.data.response]), Node's
    base64 encoder, sharp's encoder, injected failures of system calls,
    the suffix [mkdtemp] picks, the PDF renderer (the PNG of page 1, if
    it writes one), the timestamp of debug file names and the elapsed
    time a stopwatch reports (hundredths of a second). *)
Record Env := mkEnv {
  config : Config;
  recognize : Buffer → jsstring → completion jsstring;
  ollama : Post → N * completion (option jsstring);
  timeout_message : jsstring;
  base64 : Buffer → jsstring;
  sharp_toBuffer :
    Buffer → Sharp.ResizeOptions → Sharp.JpegOptions → completion Buffer;
  fault : Syscall → option thrown;
  mkdtemp_suffix : string;
  pdftocairo : Buffer → option Buffer;
  timestamp : string;
  elapsed : N;
}.

(** [LLMResult] and [OCRResult] of types/index.ts. *)
Record LLMResult := mkLLMResult { summary : jsstring; timeSeconds : N }.
Record OCRResult := mkOCRResult { text : jsstring; ocr_timeSeconds : N }.

Section Collaborators.
Context (env : Env).

(** Lift a completion of a collaborator into an operation. *)
Definition complete {A} (c : completion A) : M A := λ w, (c, w).

(** A system call that fails when the environment says so. *)
Definition syscall (s : Syscall) : M unit :=
  match fault env s with
  | Some e => throw e
  | None => mret ()
  end.

(** [axios.post(`${apiUrl}/api/generate`, req, { timeout })]: the
    request is sent; when a positive [timeout] elapses before the
    answer, axios rejects with code ECONNABORTED.  The result is
    [response.data.response]. *)
Definition axios_post (req : Post) (timeout : N) : M (option jsstring) :=
  modify (add_post req);;
  let '(latency, answer) := ollama env req in
  if (0 <? timeout) && (timeout <? latency)
  then throw (AxiosError (Some ECONNABORTED) None (timeout_message env))
  else complete answer.

(** [response.data.response ? response.data.response.trim() : ''] *)
Definition response_text (r : option jsstring) : jsstring :=
  match r with
  | Some s => if truthy s then trim s else []
  | None => []
  end.

(** [fs.mkdtemp(path.join(os.tmpdir(), prefix))]: creates a new, empty
    directory and returns its name. *)
Definition mkdtemp (prefix : string) : M string :=
  syscall Mkdtemp;;
  let dir := (prefix +:+ mkdtemp_suffix env)%string in
  ((λ w, match tmpfs w !! dir with
         | Some _ => (Throw (Error (lit "EEXIST: file already exists")), w)
         | None => (Normal dir, set_tmpfs (insert dir ∅) w)
         end) : M string).

(** [fs.writeFile(path.join(dir, name), data)] *)
Definition writeFile (s : Syscall) (dir name : string) (data : Buffer)
  : M unit :=
  syscall s;;
  ((λ w, match tmpfs w !! dir with
         | Some files =>
             (Normal (), set_tmpfs (insert dir (<[name := data]> files)) w)
         | None =>
             (Throw (Error (lit "ENOENT: no such file or directory")), w)
         end) : M unit).

(** [fs.readFile(path.join(dir, name))] *)
Definition readFile (s : Syscall) (dir name : string) : M Buffer :=
  syscall s;;
  ((λ w, match tmpfs w !! dir ≫= (λ files, files !! name) with
         | Some data => (Normal data, w)
         | None =>
             (Throw (Error (lit "ENOENT: no such file or directory")), w)
         end) : M Buffer).

(** [execAsync(`pdftocairo -png -f 1 -l 1 -singlefile "dir/input.pdf"
    "dir/page"`)]: a failing exit status throws; otherwise the
    renderer writes [page.png] when it produces a page. *)
Definition exec_pdftocairo (dir : string) : M unit :=
  syscall Pdftocairo;;
  ((λ w, match tmpfs w !! dir with
         | Some files =>
             match files !! "input.pdf"%string ≫= pdftocairo env with
             | Some png =>
                 (Normal (),
                  set_tmpfs
                    (insert dir (<["page.png"%string := png]> files)) w)
             | None => (Normal (), w)
             end
         | None => (Normal (), w)
         end) : M unit).

(** [fs.rm(dir, { recursive: true, force: true })] *)
Definition rm (dir : string) : M unit :=
  syscall RmTemp;; modify (set_tmpfs (delete dir)).

(** The [finally] block of the rasterizing operations:
    [if (tempDir) { try { await fs.rm(tempDir, ...) } catch { log } }]. *)
Definition cleanup (tempDir : option string) : M unit :=
  match tempDir with
  | Some dir => try_catch (rm dir) (λ _, mret ())
  | None => mret ()
  end.
End Collaborators.

(** ** dual-ocr.service.ts *)

Module DualOCRService.
Section WithEnv.
Context (env : Env).

(** [runTesseractOCR(imageBuffer, language, sessionId)] *)
Definition runTesseractOCR (imageBuffer : Buffer) (language : jsstring)
  : M jsstring :=
  text ← complete (recognize env imageBuffer language);
  mret (trim text).

(** [runVisionOCR(imageBuffer, model, sessionId, timeout)] *)
Definition runVisionOCR (imageBuffer : Buffer) (model : jsstring)
    (timeout : N) : M jsstring :=
  let imageBase64 := base64 env imageBuffer in
  response ← axios_post env
    (mkPost model
       (lit "Extract all text from this image. Return only the raw text without any formatting or additional comments.")
       [imageBase64])
    timeout;
  let extractedText := response_text response in
  mret extractedText.

(** [combineOCRResults(tesseractText, visionText, sessionId)] *)
Definition combineOCRResults (tesseractText visionText : jsstring)
  : jsstring :=
  if negb (truthy tesseractText) && truthy visionText then visionText
  else if truthy tesseractText && negb (truthy visionText) then tesseractText
  else lit "=== PRIMARY OCR (Tesseract) ===" ++ nl ++ tesseractText
         ++ nl ++ nl ++ lit "=== SUPPLEMENTARY OCR (Vision Model) ===" ++ nl
         ++ visionText.

(** The text a settled branch contributes: its value when fulfilled,
    the initial [''] when rejected. *)
Definition settled_text (r : PromiseSettledResult jsstring) : jsstring :=
  match r with
  | fulfilled value => value
  | rejected _ => []
  end.

(** [analyzeImage(imageBuffer, analysisPrompt, language, visionModel,
    textModel)] *)
Definition analyzeImage (imageBuffer : Buffer)
    (analysisPrompt : option jsstring) (language : jsstring)
    (visionModel textModel : option jsstring) : M LLMResult :=
  let useVisionModel := or_default visionModel (lit "gemma3:4b") in
  let useTextModel := or_default textModel (ollama_model (config env)) in
  let visionTimeout := 80000 in
  try_catch
    ('(tesseractResult, visionResult) ← allSettled2
        (runTesseractOCR imageBuffer language)
        (runVisionOCR imageBuffer useVisionModel visionTimeout);
     let tesseractText := settled_text tesseractResult in
     let visionText := settled_text visionResult in
     let combinedText := combineOCRResults tesseractText visionText in
     (if negb (truthy combinedText)
      then throw (Error (lit "Both OCR methods failed to extract any text"))
      else mret ());;
     let finalPrompt := or_default analysisPrompt
       (lit "Analyze the following document text and extract key information as structured JSON. Return only valid JSON without markdown formatting.") in
     let contextualPrompt :=
       finalPrompt ++ nl ++ nl
       ++ lit "IMPORTANT: The text below comes from TWO different OCR methods applied to the SAME document:" ++ nl
       ++ lit "1. Tesseract OCR (fast, may have typos/formatting issues)" ++ nl
       ++ lit "2. Vision Model OCR (slower, better structured)" ++ nl
       ++ nl
       ++ lit "Both are reading the SAME document. Cross-reference both outputs to extract the most accurate information." ++ nl
       ++ lit "When there are discrepancies, prefer the cleaner, more structured output." ++ nl
       ++ nl
       ++ combinedText in
     analysisResponse ← axios_post env
       (mkPost useTextModel contextualPrompt [])
       (ollama_timeout (config env));
     let analysis := response_text analysisResponse in
     (if negb (truthy analysis)
      then throw (Error (lit "Text model returned empty analysis"))
      else mret ());;
     mret (mkLLMResult analysis (elapsed env)))
    (λ error,
       if isAxiosError error && code_is error ECONNABORTED
       then throw (Error (lit "Dual OCR processing request timed out"))
       else if isAxiosError error && status_is error 404
       then throw (Error (lit "Model not found - ensure both vision and text models are available"))
       else throw (Error (lit "Failed to process with dual OCR: "
                            ++ message_or_unknown error))).
End WithEnv.
End DualOCRService.

(** ** hybrid.service.ts *)

Module HybridService.
Section WithEnv.
Context (env : Env).

(** The arguments of [.resize(1024, null, { fit: 'inside',
    withoutEnlargement: true })] and [.jpeg({ quality: 75 })]. *)
Definition resizeOptions : Sharp.ResizeOptions :=
  Sharp.mkResize (Some 1024%Z) None Sharp.inside true.
Definition jpegOptions : Sharp.JpegOptions := Sharp.mkJpeg 75.

(** [analyzeImage(imageBuffer, analysisPrompt, visionModel, textModel)] *)
Definition analyzeImage (imageBuffer : Buffer)
    (analysisPrompt visionModel textModel : option jsstring) : M LLMResult :=
  let useVisionModel := or_default visionModel (lit "gemma3:4b") in
  let useTextModel := or_default textModel (ollama_model (config env)) in
  try_catch
    (optimizedImage ← complete
        (sharp_toBuffer env imageBuffer resizeOptions jpegOptions);
     let imageBase64 := base64 env optimizedImage in
     ocrResponse ← axios_post env
       (mkPost useVisionModel
          (lit "Extract all text from this image. Return only the raw text without any formatting or additional comments.")
          [imageBase64])
       (ollama_visionTimeout (config env));
     let extractedText := response_text ocrResponse in
     (if negb (truthy extractedText)
      then throw (Error (lit "Vision model returned empty text - image may be blank, corrupted, or model failed"))
      else mret ());;
     let finalPrompt := or_default analysisPrompt
       (lit "Analyze the following document text and extract key information as structured JSON. Return only valid JSON without markdown formatting.") in
     analysisResponse ← axios_post env
       (mkPost useTextModel
          (finalPrompt ++ nl ++ nl ++ lit "Document text:" ++ nl
             ++ extractedText)
          [])
       (ollama_timeout (config env));
     let analysis := response_text analysisResponse in
     (if negb (truthy analysis)
      then throw (Error (lit "Text model returned empty analysis"))
      else mret ());;
     mret (mkLLMResult analysis (elapsed env)))
    (λ error,
       if isAxiosError error && code_is error ECONNABORTED
       then throw (Error (lit "Hybrid processing request timed out"))
       else if isAxiosError error && status_is error 404
       then throw (Error (lit "Model not found - ensure both vision and text models are available"))
       else throw (Error (lit "Failed to process with hybrid approach: "
                            ++ message_or_unknown error))).
End WithEnv.
End HybridService.

(** ** llm.service.ts *)

Module LLMService.
Section WithEnv.
Context (env : Env).

(** [analyzeText(text, prompt, model)] *)
Definition analyzeText (text prompt : jsstring) (model : option jsstring)
  : M LLMResult :=
  let llmModel := or_default model (ollama_model (config env)) in
  try_catch
    (let fullPrompt := prompt ++ nl ++ nl ++ text in
     response ← axios_post env (mkPost llmModel fullPrompt [])
       (ollama_timeout (config env));
     let summary := response_text response in
     (if negb (truthy summary)
      then throw (Error (lit "Empty analysis received from Ollama"))
      else mret ());;
     mret (mkLLMResult summary (elapsed env)))
    (λ error,
       if isAxiosError error && code_is error ECONNABORTED
       then throw (Error (lit "LLM request timed out - try a shorter document or increase timeout"))
       else if isAxiosError error && status_is error 404
       then throw (Error (lit "Model '" ++ llmModel
                            ++ lit "' not found - please pull it with 'ollama pull "
                            ++ llmModel ++ lit "'"))
       else throw (Error (lit "Failed to analyze text with Ollama: "
                            ++ message_or_unknown error))).
End WithEnv.
End LLMService.

(** ** The vision service ([VisionService]) *)

Module VisionService.
Section WithEnv.
Context (env : Env).

(** [analyzeImage(imageBuffer, prompt, model)] *)
Definition analyzeImage (imageBuffer : Buffer) (prompt : jsstring)
    (model : option jsstring) : M LLMResult :=
  let visionModel := or_default model (lit "gemma3:4b") in
  try_catch
    (let imageBase64 := base64 env imageBuffer in
     response ← axios_post env (mkPost visionModel prompt [imageBase64])
       (ollama_visionTimeout (config env));
     let result := response_text response in
     (if negb (truthy result)
      then throw (Error (lit "Empty analysis received from vision model"))
      else mret ());;
     mret (mkLLMResult result (elapsed env)))
    (λ error,
       if isAxiosError error && code_is error ECONNABORTED
       then throw (Error (lit "Vision model request timed out - try a smaller image or increase timeout"))
       else if isAxiosError error && status_is error 404
       then throw (Error (lit "Vision model '" ++ visionModel
                            ++ lit "' not found - please pull it with 'ollama pull "
                            ++ visionModel ++ lit "'"))
       else throw (Error (lit "Failed to analyze image with vision model: "
                            ++ message_or_unknown error))).
End WithEnv.
End VisionService.

(** ** The magic-OCR service ([MagicOCRService]) *)

Module MagicOCRService.
Section WithEnv.
Context (env : Env).

Definition resizeOptions : Sharp.ResizeOptions :=
  Sharp.mkResize (Some 1024%Z) None Sharp.inside true.
Definition jpegOptions : Sharp.JpegOptions := Sharp.mkJpeg 75.

(** [analyzeImage(imageBuffer, _prompt, model)] *)
Definition analyzeImage (imageBuffer : Buffer) (_prompt : option jsstring)
    (model : option jsstring) : M LLMResult :=
  let ocrModel := or_default model (lit "gemma3:4b") in
  let ocrPrompt := lit "Extract the text in the image." in
  try_catch
    (optimizedBuffer ← complete
        (sharp_toBuffer env imageBuffer resizeOptions jpegOptions);
     let imageBase64 := base64 env optimizedBuffer in
     response ← axios_post env (mkPost ocrModel ocrPrompt [imageBase64])
       (ollama_visionTimeout (config env));
     let result := response_text response in
     (if negb (truthy result)
      then throw (Error (lit "Empty text extracted from Magic OCR model"))
      else mret ());;
     mret (mkLLMResult result (elapsed env)))
    (λ error,
       if isAxiosError error && code_is error ECONNABORTED
       then throw (Error (lit "Magic OCR request timed out - try a smaller image or increase timeout"))
       else if isAxiosError error && status_is error 404
       then throw (Error (lit "Magic OCR model '" ++ ocrModel
                            ++ lit "' not found - please pull it with 'ollama pull "
                            ++ ocrModel ++ lit "'"))
       else throw (Error (lit "Failed to extract text with Magic OCR model: "
                            ++ message_or_unknown error))).
End WithEnv.
End MagicOCRService.

(** ** The OCR service ([OCRService]) *)

Module OCRService.
Section WithEnv.
Context (env : Env).

(** [extractTextFromPDF(pdfBuffer, language)] *)
Definition extractTextFromPDF (pdfBuffer : Buffer) (language : jsstring)
  : M OCRResult :=
  with_var (None : option string)
    (try_finally
       (try_catch
          (lift (when (debug_saveFiles (config env))
                   (syscall env MkdirDebug));;
           dir ← lift (mkdtemp env "doc-intel-");
           set_var (Some dir);;
           lift (writeFile env WritePdf dir "input.pdf" pdfBuffer);;
           lift (exec_pdftocairo env dir);;
           pngBuffer ← lift (readFile env ReadPng dir "page.png");
           lift (when (debug_saveFiles (config env))
                   (syscall env CopyDebug;;
                    modify (add_debug
                      ("pdf-" +:+ timestamp env +:+ ".png") pngBuffer)));;
           text ← lift (complete (recognize env pngBuffer language));
           (if negb (truthy text) || negb (truthy (trim text))
            then throw (Error (lit "No text extracted from PDF image"))
            else mret ());;
           lift (when (debug_saveFiles (config env))
                   (syscall env WriteDebug;;
                    modify (add_debug
                      ("ocr-" +:+ timestamp env +:+ ".txt") text)));;
           mret (mkOCRResult (trim text) (elapsed env)))
          (λ error,
             throw (Error (lit "Failed to extract text from PDF: "
                             ++ message_or_unknown error))))
       (tempDir ← get_var; lift (cleanup env tempDir))).

(** [extractTextFromImage(imageBuffer, language)] *)
Definition extractTextFromImage (imageBuffer : Buffer) (language : jsstring)
  : M OCRResult :=
  try_catch
    (text ← complete (recognize env imageBuffer language);
     (if negb (truthy text) || negb (truthy (trim text))
      then throw (Error (lit "No text extracted from image"))
      else mret ());;
     when (debug_saveFiles (config env))
       (syscall env MkdirDebug;;
        syscall env WriteDebug;;
        modify (add_debug ("ocr-" +:+ timestamp env +:+ ".txt") text));;
     mret (mkOCRResult (trim text) (elapsed env)))
    (λ error,
       throw (Error (lit "Failed to extract text from image: "
                       ++ message_or_unknown error))).
End WithEnv.
End OCRService.

(** ** Controllers *)

(** The parts of an Express request the controllers read: the uploaded
    file (MIME type and bytes) and the x-prompt, x-model and x-language
    headers. *)
Record Request := mkRequest {
  file : option (jsstring * Buffer);
  x_prompt : option jsstring;
  x_model : option jsstring;
  x_language : option jsstring;
}.

(** [res.status(code).json(body)] and [next(error)]. *)
Definition res_json (code : N) (body : Body) : M unit :=
  modify (add_response (code, body)).
Definition next (error : thrown) : M unit := modify (add_forwarded error).

Module DocumentVLController.
Section WithEnv.
Context (env : Env).

(** [analyzeDocument(req, res, next)] *)
Definition analyzeDocument (req : Request) : M unit :=
  with_var (None : option string)
    (try_finally
       (try_catch
          match file req with
          | None =>
              lift (res_json 400
                      (ErrorBody (lit "No file uploaded") (lit "MISSING_FILE")))
          | Some (fileType, buffer) =>
              let prompt := or_default (x_prompt req)
                (lit "Extract all text and data from this document and return as structured JSON.") in
              let model := x_model req in
              let analyze (imageBuffer : Buffer) : Op (option string * World) unit :=
                let language := or_default (x_language req) (lit "eng") in
                dualOCRResult ← lift
                  (DualOCRService.analyzeImage env imageBuffer (Some prompt)
                     language model None);
                lift (res_json 200
                  (AnalysisBody (summary dualOCRResult)
                     (length (summary dualOCRResult))
                     (lit "Tesseract + " ++ or_default model (lit "gemma3:4b")
                        ++ lit " + llama3.2:3b")
                     fileType)) in
              if bool_decide (fileType = lit "application/pdf") then
                dir ← lift (mkdtemp env "doc-intel-vl-");
                set_var (Some dir);;
                lift (writeFile env WritePdf dir "input.pdf" buffer);;
                lift (exec_pdftocairo env dir);;
                imageBuffer ← lift (readFile env ReadPng dir "page.png");
                lift (syscall env MkdirDebug);;
                lift (syscall env WriteDebug);;
                lift (modify (add_debug
                  ("converted-" +:+ timestamp env +:+ ".png") imageBuffer));;
                analyze imageBuffer
              else if startsWith (lit "image/") fileType then
                analyze buffer
              else
                lift (res_json 400
                  (ErrorBody (lit "Unsupported file type: " ++ fileType)
                     (lit "UNSUPPORTED_FILE_TYPE")))
          end
          (λ error, lift (next error)))
       (tempDir ← get_var; lift (cleanup env tempDir))).
End WithEnv.
End DocumentVLController.

Module MagicOCRController.
Section WithEnv.
Context (env : Env).

(** [analyzeDocument(req, res, next)] *)
Definition analyzeDocument (req : Request) : M unit :=
  with_var (None : option string)
    (try_finally
       (try_catch
          match file req with
          | None =>
              lift (res_json 400
                      (ErrorBody (lit "No file uploaded") (lit "MISSING_FILE")))
          | Some (fileType, buffer) =>
              let prompt := or_default (x_prompt req)
                (lit "Extract all text and data from this document and return as structured JSON.") in
              let model := x_model req in
              let analyze (imageBuffer : Buffer) : Op (option string * World) unit :=
                ocrResult ← lift
                  (MagicOCRService.analyzeImage env imageBuffer (Some prompt)
                     model);
                lift (res_json 200
                  (AnalysisBody (summary ocrResult)
                     (length (summary ocrResult))
                     (or_default model (lit "gemma3:4b"))
                     fileType)) in
              if bool_decide (fileType = lit "application/pdf") then
                dir ← lift (mkdtemp env "doc-intel-magic-");
                set_var (Some dir);;
                lift (writeFile env WritePdf dir "input.pdf" buffer);;
                lift (exec_pdftocairo env dir);;
                imageBuffer ← lift (readFile env ReadPng dir "page.png");
                analyze imageBuffer
              else if startsWith (lit "image/") fileType then
                analyze buffer
              else
                lift (res_json 400
                  (ErrorBody (lit "Unsupported file type: " ++ fileType)
                     (lit "UNSUPPORTED_FILE_TYPE")))
          end
          (λ error, lift (next error)))
       (tempDir ← get_var; lift (cleanup env tempDir))).
End WithEnv.
End MagicOCRController.

(** ** document.controller.ts *)

Module DocumentController.
Section WithEnv.
(** [defaultPrompt] is [config.ollama.defaultPrompt]. *)
Context (env : Env) (defaultPrompt : jsstring).

(** [analyzeDocument(req, res, next)] *)
Definition analyzeDocument (req : Request) : M unit :=
  try_catch
    match file req with
    | None =>
        res_json 400 (ErrorBody (lit "No file uploaded") (lit "MISSING_FILE"))
    | Some (fileType, buffer) =>
        let prompt := or_default (x_prompt req) defaultPrompt in
        let model := x_model req in
        let language := or_default (x_language req) (lit "eng") in
        let analyze (ocrResult : OCRResult) : M unit :=
          llmResult ← LLMService.analyzeText env (text ocrResult) prompt model;
          res_json 200
            (AnalysisBody (summary llmResult) (length (text ocrResult))
               (or_default model (lit "llama3.2:3b")) fileType) in
        if bool_decide (fileType = lit "application/pdf") then
          ocrResult ← OCRService.extractTextFromPDF env buffer language;
          analyze ocrResult
        else if startsWith (lit "image/") fileType then
          ocrResult ← OCRService.extractTextFromImage env buffer language;
          analyze ocrResult
        else
          res_json 400
            (ErrorBody (lit "Unsupported file type: " ++ fileType)
               (lit "UNSUPPORTED_FILE_TYPE"))
    end
    (λ error, next error).
End WithEnv.
End DocumentController.

(** ** auth.middleware.ts *)

(** [config.apiKeys]. *)
Record ApiKeys := mkApiKeys { cardoc : jsstring; mortgage : jsstring }.

(** What a middleware did with a request: it answered, or it called
    [next()]; [client] is the value of [req.client] at that point
    ([None] is [undefined]). *)
Inductive Passage : Type :=
| Answered
| Next (client : option jsstring).

Module AuthMiddleware.
Section WithKeys.
Context (keys : ApiKeys).

(** [new Set([config.apiKeys.cardoc, config.apiKeys.mortgage])] *)
Definition VALID_API_KEYS : gset jsstring := {[cardoc keys; mortgage keys]}.

(** [authenticate(req, res, next)]; [apiKey] is [req.header('X-API-Key')]. *)
Definition authenticate (apiKey : option jsstring) : M Passage :=
  if negb (truthy (default [] apiKey)) then
    res_json 401
      (ErrorBody (lit "API key is required") (lit "MISSING_API_KEY"));;
    mret Answered
  else if negb (bool_decide (default [] apiKey ∈ VALID_API_KEYS)) then
    res_json 401 (ErrorBody (lit "Invalid API key") (lit "INVALID_API_KEY"));;
    mret Answered
  else
    let client :=
      if bool_decide (default [] apiKey = cardoc keys)
      then Some (lit "cardoc")
      else if bool_decide (default [] apiKey = mortgage keys)
      then Some (lit "mortgage")
      else None in
    mret (Next client).
End WithKeys.
End AuthMiddleware.

(** ** errorHandler.middleware.ts *)

(** [ApiError] of types/index.ts, without the constant [success: false]. *)
Record ApiError := mkApiError {
  error_message : jsstring;
  error_code : jsstring;
  error_details : option jsstring;
}.

(** [err.message] ([None] when the value has none). *)
Definition thrown_message (err : thrown) : option jsstring :=
  match err with
  | AxiosError _ _ m => Some m
  | Error m => Some m
  | NotAnError => None
  end.

(** [errorHandler(err, req, res, _next)]: the status and body it sends.
    [NODE_ENV] is [process.env.NODE_ENV] and [stack] is [err.stack]. *)
Definition errorHandler (NODE_ENV stack : option jsstring) (err : thrown)
  : N * ApiError :=
  (500,
   mkApiError
     (or_default (thrown_message err) (lit "Internal server error"))
     (lit "INTERNAL_ERROR")
     (if bool_decide (NODE_ENV = Some (lit "development")) then stack
      else None)).

(** ** Upload filter of the routes *)

(** [s.split(sep)] for a separator of one character. *)
Fixpoint split (sep : N) (s : jsstring) : list jsstring :=
  match s with
  | [] => [[]]
  | c :: s' =>
      if c =? sep then [] :: split sep s'
      else match split sep s' with
           | [] => [[c]]
           | item :: items => (c :: item) :: items
           end
  end.

(** [config.upload.allowedMimeTypes]; the argument is
    [process.env.ALLOWED_MIME_TYPES]. *)
Definition allowedMimeTypes (ALLOWED_MIME_TYPES : option jsstring)
  : list jsstring :=
  split 44
    (or_default ALLOWED_MIME_TYPES
       (lit "application/pdf,image/png,image/jpeg")).

(** The [fileFilter] of the multer configuration: [cb(null, true)]
    accepts the file, [cb(new Error(...))] rejects the upload. *)
Definition fileFilter (allowed : list jsstring) (mimetype : jsstring)
  : completion bool :=
  if bool_decide (mimetype ∈ allowed) then Normal true
  else Throw (Error (lit "File type " ++ mimetype ++ lit " is not allowed")).

(** ** Vocabulary of the properties *)

(** The text a branch of the dual run hands to the merge from a given
    world: its value when it resolves, [''] when it rejects. *)
Definition branch_text (m : M jsstring) (w : World) : jsstring :=
  match (m w).1 with
  | Normal value => value
  | Throw _ => []
  end.

(** The text-model requests among the posted requests. *)
Definition text_model_calls (w : World) : list Post :=
  filter (λ p, is_text_request p = true) (posts w).

(** A backend call takes longer than the configured, positive timeout. *)
Definition exceeds_timeout (env : Env) (req : Post) (timeout : N) : Prop :=
  0 < timeout ∧ timeout < (ollama env req).1.

(** The remainder of [DualOCRService.analyzeImage] once both branches
    have settled and handed [tesseractText] and [visionText] to the
    merge: the merge, the guard, the framed request to the text model
    and the [catch] block. *)
Definition merged_analysis (env : Env)
    (analysisPrompt textModel : option jsstring)
    (tesseractText visionText : jsstring) : M LLMResult :=
  try_catch
    (let combinedText :=
       DualOCRService.combineOCRResults tesseractText visionText in
     (if negb (truthy combinedText)
      then throw (Error (lit "Both OCR methods failed to extract any text"))
      else mret ());;
     let finalPrompt := or_default analysisPrompt
       (lit "Analyze the following document text and extract key information as structured JSON. Return only valid JSON without markdown formatting.") in
     let contextualPrompt :=
       finalPrompt ++ nl ++ nl
       ++ lit "IMPORTANT: The text below comes from TWO different OCR methods applied to the SAME document:" ++ nl
       ++ lit "1. Tesseract OCR (fast, may have typos/formatting issues)" ++ nl
       ++ lit "2. Vision Model OCR (slower, better structured)" ++ nl
       ++ nl
       ++ lit "Both are reading the SAME document. Cross-reference both outputs to extract the most accurate information." ++ nl
       ++ lit "When there are discrepancies, prefer the cleaner, more structured output." ++ nl
       ++ nl
       ++ combinedText in
     analysisResponse ← axios_post env
       (mkPost (or_default textModel (ollama_model (config env)))
          contextualPrompt [])
       (ollama_timeout (config env));
     let analysis := response_text analysisResponse in
     (if negb (truthy analysis)
      then throw (Error (lit "Text model returned empty analysis"))
      else mret ());;
     mret (mkLLMResult analysis (elapsed env)))
    (λ error,
       if isAxiosError error && code_is error ECONNABORTED
       then throw (Error (lit "Dual OCR processing request timed out"))
       else if isAxiosError error && status_is error 404
       then throw (Error (lit "Model not found - ensure both vision and text models are available"))
       else throw (Error (lit "Failed to process with dual OCR: "
                            ++ message_or_unknown error))).

(** The request the vision branch of the dual run posts. *)
Definition dual_vision_request (env : Env) (imageBuffer : Buffer)
    (visionModel : option jsstring) : Post :=
  mkPost (or_default visionModel (lit "gemma3:4b"))
    (lit "Extract all text from this image. Return only the raw text without any formatting or additional comments.")
    [base64 env imageBuffer].

(** Two completions that agree except for the reason of a rejection. *)
Definition same_but_reason {A} (c c' : completion A) : Prop :=
  match c, c' with
  | Normal a, Normal a' => a = a'
  | Throw _, Throw _ => True
  | _, _ => False
  end.

(** Two environments that agree on everything a dual run of
    [imageBuffer] consults, except for the reasons with which the OCR
    engine and the vision backend reject. *)
Record same_but_branch_reasons (env env' : Env) (imageBuffer : Buffer)
    (language : jsstring) (visionModel : option jsstring) : Prop := {
  sbr_config : config env' = config env;
  sbr_elapsed : elapsed env' = elapsed env;
  sbr_timeout_message : timeout_message env' = timeout_message env;
  sbr_base64 : base64 env' imageBuffer = base64 env imageBuffer;
  sbr_text_model : ∀ req,
    is_text_request req = true → ollama env' req = ollama env req;
  sbr_recognize :
    same_but_reason (recognize env imageBuffer language)
      (recognize env' imageBuffer language);
  sbr_vision_latency :
    (ollama env' (dual_vision_request env imageBuffer visionModel)).1
    = (ollama env (dual_vision_request env imageBuffer visionModel)).1;
  sbr_vision :
    same_but_reason
      (ollama env (dual_vision_request env imageBuffer visionModel)).2
      (ollama env' (dual_vision_request env imageBuffer visionModel)).2;
}.

(** The successful results of the extraction, analysis and
    orchestration operations, by the text they carry. *)
Inductive successful_text (env : Env) (w : World) : jsstring → Prop :=
| st_pdf pdfBuffer language r :
    (OCRService.extractTextFromPDF env pdfBuffer language w).1 = Normal r →
    successful_text env w (text r)
| st_image imageBuffer language r :
    (OCRService.extractTextFromImage env imageBuffer language w).1 = Normal r →
    successful_text env w (text r)
| st_llm text prompt model r :
    (LLMService.analyzeText env text prompt model w).1 = Normal r →
    successful_text env w (summary r)
| st_dual imageBuffer analysisPrompt language visionModel textModel r :
    (DualOCRService.analyzeImage env imageBuffer analysisPrompt language
       visionModel textModel w).1 = Normal r →
    successful_text env w (summary r).

(** *** Sample environments *)

Definition sample_config : Config :=
  mkConfig (lit "llama3.2:3b") 60000 1200000 false.

(** An environment in which the OCR engine completes with [ocr], the
    backend completes every request that carries an image with [vision]
    and every text request with [textm] (after the given milliseconds),
    and no system call fails. *)
Definition sample_env (ocr : completion jsstring)
    (vision textm : N * completion (option jsstring)) : Env :=
  mkEnv sample_config
    (λ _ _, ocr)
    (λ req, if is_text_request req then textm else vision)
    (lit "timeout exceeded")
    (λ b, b)
    (λ b _ _, Normal b)
    (λ _, None)
    "k3x9Qa"
    (λ pdf, Some pdf)
    "2024-01-01T00-00-00.000Z"
    150.

Definition empty_world : World := mkWorld ∅ [] [] [] [].

(** The same environment with other failures of system calls. *)
Definition with_fault (env : Env) (f : Syscall → option thrown) : Env :=
  mkEnv (config env) (recognize env) (ollama env) (timeout_message env)
    (base64 env) (sharp_toBuffer env) f (mkdtemp_suffix env)
    (pdftocairo env) (timestamp env) (elapsed env).

(** The same environment with another behaviour of sharp. *)
Definition with_sharp (env : Env)
    (f : Buffer → Sharp.ResizeOptions → Sharp.JpegOptions → completion Buffer)
  : Env :=
  mkEnv (config env) (recognize env) (ollama env) (timeout_message env)
    (base64 env) f (fault env) (mkdtemp_suffix env)
    (pdftocairo env) (timestamp env) (elapsed env).

(** The same environment with another PDF renderer. *)
Definition with_pdftocairo (env : Env) (f : Buffer → option Buffer) : Env :=
  mkEnv (config env) (recognize env) (ollama env) (timeout_message env)
    (base64 env) (sharp_toBuffer env) (fault env) (mkdtemp_suffix env)
    f (timestamp env) (elapsed env).

(** The backend is down / the engine crashes. *)
Definition engine_crash : thrown := Error (lit "Error attempting to read image.").
Definition backend_down : thrown :=
  AxiosError (Some (lit "ECONNREFUSED")) None (lit "connect ECONNREFUSED").

(** *** Vocabulary of the proofs *)

(** [c] does not occur in [needle]. *)
Definition free_of (c : N) (needle : jsstring) : bool :=
  forallb (λ x, negb (x =? c)) needle.

(** The failure [VisionService.analyzeImage] reports for a missing model. *)
Definition vision_model_not_found (visionModel : jsstring) : thrown :=
  Error (lit "Vision model '" ++ visionModel
         ++ lit "' not found - please pull it with 'ollama pull "
         ++ visionModel ++ lit "'").

(** An operation that leaves the temporary directory tree alone. *)
Definition keeps_tmpfs {A} (m : M A) : Prop :=
  ∀ w, tmpfs (m w).2 = tmpfs w.

(** [triple P m Q E]: from a state that satisfies [P], [m] ends in a
    state that satisfies [Q a] when it returns [a] and [E] when it
    throws. *)
Definition triple {S A} (P : S → Prop) (m : Op S A)
    (Q : A → S → Prop) (E : S → Prop) : Prop :=
  ∀ s, P s →
    match m s with
    | (Normal a, s') => Q a s'
    | (Throw _, s') => E s'
    end.

(** State predicates that read the local variable and the temporary
    directory tree only. *)
Definition on_fs
    (I : option string → gmap string (gmap string Buffer) → Prop)
  : option string * World → Prop :=
  λ s, I s.1 (tmpfs s.2).

(** The states of a rasterizing body relative to the tree [fs0] it
    started from: nothing created yet; a directory [d] created but not
    yet recorded in the variable; the directory recorded; and either the
    first or the last of these. *)
Definition untouched (fs0 : gmap string (gmap string Buffer))
  : option string → gmap string (gmap string Buffer) → Prop :=
  λ var fs, var = None ∧ fs = fs0.
Definition created (fs0 : gmap string (gmap string Buffer)) (d : string)
  : option string → gmap string (gmap string Buffer) → Prop :=
  λ var fs, var = None ∧ fs0 !! d = None ∧ delete d fs = fs0.
Definition recorded (fs0 : gmap string (gmap string Buffer)) (d : string)
  : option string → gmap string (gmap string Buffer) → Prop :=
  λ var fs, var = Some d ∧ fs0 !! d = None ∧ delete d fs = fs0.
Definition accounted (fs0 : gmap string (gmap string Buffer))
  : option string → gmap string (gmap string Buffer) → Prop :=
  λ var fs, untouched fs0 var fs ∨ ∃ d, recorded fs0 d var fs.

(** [yields m Φ]: whenever [m] returns, the value satisfies [Φ]. *)
Definition yields {S A} (m : Op S A) (Φ : A → Prop) : Prop :=
  triple (λ _, True) m (λ a _, Φ a) (λ _, True).

(** An operation that leaves the observation [f] of the world alone. *)
Definition frame {X A} (f : World → X) (m : M A) : Prop :=
  ∀ w, f (m w).2 = f w.

(** State predicates of a body with a local variable that read the
    world only. *)
Definition on_world {L} (I : World → Prop) : L * World → Prop :=
  λ s, I s.2.

(** [throws m Ψ]: whenever [m] throws, the thrown value satisfies [Ψ]. *)
Definition throws {S A} (m : Op S A) (Ψ : thrown → Prop) : Prop :=
  ∀ s e, (m s).1 = Throw e → Ψ e.

(** An [Error] object with a non-empty message. *)
Definition proper_error (e : thrown) : Prop :=
  ∃ m, e = Error m ∧ m ≠ [].

(** What a controller has sent: the responses and the forwarded errors. *)
Definition http (w : World) : list (N * Body) * list thrown :=
  (responses w, forwarded w).

(** The request a dual run sends to the text model. *)
Definition dual_text_request (env : Env) (imageBuffer : Buffer)
    (analysisPrompt : option jsstring) (language : jsstring)
    (visionModel textModel : option jsstring) (w : World) : Post :=
  mkPost (or_default textModel (ollama_model (config env)))
    (or_default analysisPrompt
       (lit "Analyze the following document text and extract key information as structured JSON. Return only valid JSON without markdown formatting.")
     ++ nl ++ nl
     ++ lit "IMPORTANT: The text below comes from TWO different OCR methods applied to the SAME document:" ++ nl
     ++ lit "1. Tesseract OCR (fast, may have typos/formatting issues)" ++ nl
     ++ lit "2. Vision Model OCR (slower, better structured)" ++ nl
     ++ nl
     ++ lit "Both are reading the SAME document. Cross-reference both outputs to extract the most accurate information." ++ nl
     ++ lit "When there are discrepancies, prefer the cleaner, more structured output." ++ nl
     ++ nl
     ++ DualOCRService.combineOCRResults
          (branch_text (DualOCRService.runTesseractOCR env imageBuffer language) w)
          (branch_text (DualOCRService.runVisionOCR env imageBuffer
                          (or_default visionModel (lit "gemma3:4b")) 80000) w))
    [].

(** The failures of the service operations, by the value thrown. *)
Inductive service_failure (env : Env) (w : World) : thrown → Prop :=
| sf_dual imageBuffer analysisPrompt language visionModel textModel e :
    (DualOCRService.analyzeImage env imageBuffer analysisPrompt language
       visionModel textModel w).1 = Throw e →
    service_failure env w e
| sf_hybrid imageBuffer analysisPrompt visionModel textModel e :
    (HybridService.analyzeImage env imageBuffer analysisPrompt visionModel
       textModel w).1 = Throw e →
    service_failure env w e
| sf_llm text prompt model e :
    (LLMService.analyzeText env text prompt model w).1 = Throw e →
    service_failure env w e
| sf_vision imageBuffer prompt model e :
    (VisionService.analyzeImage env imageBuffer prompt model w).1 = Throw e →
    service_failure env w e
| sf_magic imageBuffer prompt model e :
    (MagicOCRService.analyzeImage env imageBuffer prompt model w).1 = Throw e →
    service_failure env w e
| sf_pdf pdfBuffer language e :
    (OCRService.extractTextFromPDF env pdfBuffer language w).1 = Throw e →
    service_failure env w e
| sf_image imageBuffer language e :
    (OCRService.extractTextFromImage env imageBuffer language w).1 = Throw e →
    service_failure env w e.

(** What a controller may have sent since its start, when the responses
    and forwarded errors were [h0]: nothing; one response that satisfies
    [good]; one forwarded error. *)
Definition quiet (h0 : list (N * Body) * list thrown) : World → Prop :=
  λ w, http w = h0.
Definition answered (h0 : list (N * Body) * list thrown)
    (good : N → Body → Prop) : World → Prop :=
  λ w, ∃ c b, http w = ((c, b) :: h0.1, h0.2) ∧ good c b.
Definition forwarded_one (h0 : list (N * Body) * list thrown)
  : World → Prop :=
  λ w, ∃ e, http w = (h0.1, e :: h0.2).

(** The responses of the analysis controllers: a 400 for a missing file
    or an unsupported type, or a 200 whose analysis is non-empty and
    trimmed and whose text length is positive. *)
Definition well_formed_response (c : N) (b : Body) : Prop :=
  (c = 400
   ∧ ∃ message,
       b = ErrorBody message (lit "MISSING_FILE")
       ∨ b = ErrorBody message (lit "UNSUPPORTED_FILE_TYPE"))
  ∨ (c = 200
     ∧ ∃ analysis textLength model fileType,
         b = AnalysisBody analysis textLength model fileType
         ∧ analysis ≠ [] ∧ trim analysis = analysis
         ∧ (0 < textLength)%nat).

Arguments lit : simpl never.

(** ** Trimming *)

Lemma dropWhile_idem {A} (p : A → bool) (l : list A) :
  dropWhile p (dropWhile p l) = dropWhile p l.
Proof.
  induction l as [|x l IH]; simpl; [done|].
  destruct (p x) eqn:Hx; [done|]. simpl. by rewrite Hx.
Qed.

Lemma dropWhile_snoc {A} (p : A → bool) (l : list A) (c : A) :
  p c = false → dropWhile p (l ++ [c]) = dropWhile p l ++ [c].
Proof.
  intros Hc. induction l as [|x l IH]; simpl.
  - by rewrite Hc.
  - by destruct (p x).
Qed.

Lemma dropWhile_head {A} (p : A → bool) (l : list A) x l' :
  dropWhile p l = x :: l' → p x = false.
Proof.
  induction l as [|y l IH]; simpl; [done|].
  destruct (p y) eqn:Hy; [done|]. by intros [= <- _].
Qed.

Lemma trimEnd_cons c s :
  is_white_space c = false → trimEnd (c :: s) = c :: trimEnd s.
Proof.
  intros Hc. unfold trimEnd. simpl rev.
  by rewrite dropWhile_snoc, rev_app_distr.
Qed.

Lemma trimEnd_idem s : trimEnd (trimEnd s) = trimEnd s.
Proof. unfold trimEnd. by rewrite rev_involutive, dropWhile_idem. Qed.

Lemma trim_cases s :
  trim s = [] ∨ ∃ c r, is_white_space c = false ∧ trim s = c :: trimEnd r.
Proof.
  unfold trim, trimStart.
  destruct (dropWhile is_white_space s) as [|c r] eqn:E; [by left|].
  right. exists c, r. split; [by eapply dropWhile_head|].
  apply trimEnd_cons. by eapply dropWhile_head.
Qed.

Lemma trim_idem s : trim (trim s) = trim s.
Proof.
  destruct (trim_cases s) as [->|(c & r & Hc & ->)]; [done|].
  unfold trim at 1, trimStart. simpl. rewrite Hc.
  by rewrite trimEnd_cons, trimEnd_idem.
Qed.

Lemma truthy_true s : truthy s = true ↔ s ≠ [].
Proof. by destruct s. Qed.

Lemma truthy_false s : truthy s = false ↔ s = [].
Proof. by destruct s. Qed.

(** Whatever the backend answers, [response_text] is trimmed. *)
Lemma response_text_trimmed r : trim (response_text r) = response_text r.
Proof.
  destruct r as [s|]; simpl; [|done].
  destruct (truthy s); [apply trim_idem|done].
Qed.

(** ** The dual run, factored at the merge *)

Ltac run_ops :=
  unfold allSettled2, settle, try_catch, try_finally, axios_post, complete,
    modify, throw, when, syscall;
  unfold mbind, mret, Op_bind, Op_ret;
  cbn beta iota.

(** The merge never yields the empty string. *)
Lemma combineOCRResults_truthy t v :
  truthy (DualOCRService.combineOCRResults t v) = true.
Proof. by destruct t, v. Qed.

Lemma branch_text_tesseract env img lang w :
  branch_text (DualOCRService.runTesseractOCR env img lang) w =
  match recognize env img lang with
  | Normal raw => trim raw
  | Throw _ => []
  end.
Proof.
  unfold branch_text, DualOCRService.runTesseractOCR. run_ops.
  by destruct (recognize env img lang).
Qed.

Lemma branch_text_vision env img vm w :
  branch_text (DualOCRService.runVisionOCR env img
                 (or_default vm (lit "gemma3:4b")) 80000) w =
  match ollama env (dual_vision_request env img vm) with
  | (latency, answer) =>
      if 80000 <? latency then []
      else match answer with
           | Normal r => response_text r
           | Throw _ => []
           end
  end.
Proof.
  unfold branch_text, DualOCRService.runVisionOCR, dual_vision_request.
  run_ops. destruct (ollama env _) as [lat ans].
  change ((0 <? 80000) && (80000 <? lat)) with (80000 <? lat).
  destruct (80000 <? lat); [done|]. by destruct ans.
Qed.

(** A dual run is the vision request followed by [merged_analysis] of
    the two branch texts. *)
Lemma dual_run_factored env img ap lang vm tm w :
  DualOCRService.analyzeImage env img ap lang vm tm w =
  merged_analysis env ap tm
    (branch_text (DualOCRService.runTesseractOCR env img lang) w)
    (branch_text (DualOCRService.runVisionOCR env img
                    (or_default vm (lit "gemma3:4b")) 80000) w)
    (add_post (dual_vision_request env img vm) w).
Proof.
  unfold DualOCRService.analyzeImage, merged_analysis, branch_text,
    dual_vision_request.
  unfold DualOCRService.runTesseractOCR, DualOCRService.runVisionOCR.
  run_ops.
  destruct (ollama env _) as [lat ans].
  destruct (recognize env img lang) as [raw|e]; cbn [fst snd];
    destruct ((0 <? 80000) && (80000 <? lat));
    cbn [fst snd DualOCRService.settled_text];
    try destruct ans; cbn [fst snd DualOCRService.settled_text];
    reflexivity.
Qed.

(** After the merge exactly one request goes to the text model: the
    caller's instruction (or the default one), the dual-OCR explanation
    and the merged text. *)
Lemma merged_analysis_world env ap tm t v w :
  (merged_analysis env ap tm t v w).2 =
  add_post
    (mkPost (or_default tm (ollama_model (config env)))
       (or_default ap
          (lit "Analyze the following document text and extract key information as structured JSON. Return only valid JSON without markdown formatting.")
        ++ nl ++ nl
        ++ lit "IMPORTANT: The text below comes from TWO different OCR methods applied to the SAME document:" ++ nl
        ++ lit "1. Tesseract OCR (fast, may have typos/formatting issues)" ++ nl
        ++ lit "2. Vision Model OCR (slower, better structured)" ++ nl
        ++ nl
        ++ lit "Both are reading the SAME document. Cross-reference both outputs to extract the most accurate information." ++ nl
        ++ lit "When there are discrepancies, prefer the cleaner, more structured output." ++ nl
        ++ nl
        ++ DualOCRService.combineOCRResults t v)
       [])
    w.
Proof.
  unfold merged_analysis. run_ops. rewrite combineOCRResults_truthy.
  cbn [negb]. destruct (ollama env _) as [lat ans].
  destruct (_ && _); cbn.
  - reflexivity.
  - destruct ans as [r|e]; cbn.
    + destruct (truthy (response_text r)); reflexivity.
    + repeat (destruct (_ && _); try reflexivity).
Qed.

(** [merged_analysis] consults the environment only for the
    configuration, the stopwatch and the text model. *)
Lemma merged_analysis_env env env' ap tm t v w :
  config env' = config env →
  elapsed env' = elapsed env →
  timeout_message env' = timeout_message env →
  (∀ req, is_text_request req = true → ollama env' req = ollama env req) →
  merged_analysis env' ap tm t v w = merged_analysis env ap tm t v w.
Proof.
  intros Hc He Hm Ho. unfold merged_analysis. run_ops.
  rewrite Hc, He, Hm, Ho; reflexivity.
Qed.

Lemma text_model_calls_add p w :
  text_model_calls (add_post p w) =
  if is_text_request p then p :: text_model_calls w else text_model_calls w.
Proof.
  unfold text_model_calls, add_post. cbn [posts].
  rewrite filter_cons. destruct (is_text_request p); by case_decide.
Qed.

(** ** Substrings across a separator *)


Lemma startsWith_before_separator needle a c b :
  free_of c needle = true →
  startsWith needle (a ++ c :: b) = true → startsWith needle a = true.
Proof.
  revert a. induction needle as [|x needle IH]; intros a Hfree; [done|].
  cbn in Hfree. apply andb_true_iff in Hfree as [Hx Hfree].
  destruct a as [|y a]; cbn.
  - rewrite (negb_true_iff _) in Hx. by rewrite Hx.
  - intros [Hy H]%andb_true_iff. rewrite Hy. cbn. by apply IH.
Qed.

(** An occurrence of [needle] in [a ++ c :: b] lies within [a] or within
    [b] when [c] is not a character of [needle]. *)
Lemma includes_separated needle a c b :
  free_of c needle = true →
  includes needle a = false → includes needle b = false →
  includes needle (a ++ c :: b) = false.
Proof.
  intros Hfree Ha Hb. induction a as [|y a IH].
  - destruct needle as [|x needle]; [done|]. cbn in Hfree.
    apply andb_true_iff in Hfree as [Hx _]. apply negb_true_iff in Hx.
    cbn. rewrite Hx. cbn. exact Hb.
  - change ((y :: a) ++ c :: b) with (y :: (a ++ c :: b)).
    cbn [includes] in *. apply orb_false_iff in Ha as [Hs Ha].
    rewrite (IH Ha), orb_false_r.
    destruct (startsWith needle (y :: a ++ c :: b)) eqn:E; [|done].
    change (y :: a ++ c :: b) with ((y :: a) ++ c :: b) in E.
    apply startsWith_before_separator in E; [congruence|done].
Qed.

(** ** Dual-parallel orchestration: merge and framing *)

(** Changing only the reasons with which the branches reject changes
    neither the requests sent nor the outcome of a dual run. *)
Lemma dual_run_ignores_reasons env env' img ap lang vm tm w :
  same_but_branch_reasons env env' img lang vm →
  DualOCRService.analyzeImage env' img ap lang vm tm w =
  DualOCRService.analyzeImage env img ap lang vm tm w.
Proof.
  intros [Hc He Hm Hb Ht Hr Hl Hv].
  assert (dual_vision_request env' img vm = dual_vision_request env img vm)
    as Hreq by (unfold dual_vision_request; by rewrite Hb).
  rewrite !dual_run_factored, !branch_text_tesseract, !branch_text_vision.
  rewrite Hreq. rewrite (merged_analysis_env env env') by done.
  destruct (ollama env (dual_vision_request env img vm)) as [lat ans].
  destruct (ollama env' (dual_vision_request env img vm)) as [lat' ans'].
  cbn [fst snd] in Hl, Hv. subst lat'.
  destruct (recognize env img lang), (recognize env' img lang);
    cbn in Hr; try done; subst;
    destruct ans, ans'; cbn in Hv; try done; subst; reflexivity.
Qed.

(** C2. When both branches hand non-empty text to the merge, the
    combined text is the primary label, the Tesseract text, a blank
    line, the supplementary label and the vision text, in that order;
    both texts occur verbatim at fixed offsets and nothing is dropped:
    the length is the sum of the lengths of the texts and the labels. *)
Theorem dual_both_texts_concatenated (t v : jsstring) :
  t ≠ [] → v ≠ [] →
  DualOCRService.combineOCRResults t v =
    lit "=== PRIMARY OCR (Tesseract) ===" ++ nl ++ t ++ nl ++ nl
    ++ lit "=== SUPPLEMENTARY OCR (Vision Model) ===" ++ nl ++ v
  ∧ take (length t) (drop 32 (DualOCRService.combineOCRResults t v)) = t
  ∧ drop (32 + length t + 43) (DualOCRService.combineOCRResults t v) = v
  ∧ length (DualOCRService.combineOCRResults t v)
    = (32 + length t + 43 + length v)%nat.
Proof.
  intros Ht Hv. apply truthy_true in Ht, Hv.
  assert (DualOCRService.combineOCRResults t v =
    (lit "=== PRIMARY OCR (Tesseract) ===" ++ nl) ++ t
    ++ (nl ++ nl ++ lit "=== SUPPLEMENTARY OCR (Vision Model) ===" ++ nl)
    ++ v) as E.
  { unfold DualOCRService.combineOCRResults. rewrite Ht, Hv. cbn [negb andb].
    by rewrite <- !app_assoc. }
  split; [|rewrite E; clear E; split; [|split]].
  - unfold DualOCRService.combineOCRResults. by rewrite Ht, Hv.
  - rewrite drop_app_length' by reflexivity. by rewrite take_app_length.
  - rewrite !app_assoc. apply drop_app_length'.
    rewrite !length_app. unfold lit, nl. cbn. lia.
  - rewrite !length_app. unfold lit, nl. cbn. lia.
Qed.

Lemma dual_both_texts_concatenated_witness :
  DualOCRService.combineOCRResults (lit "INVOICE #123") (lit "Invoice 123") =
    lit "=== PRIMARY OCR (Tesseract) ===" ++ nl ++ lit "INVOICE #123"
    ++ nl ++ nl ++ lit "=== SUPPLEMENTARY OCR (Vision Model) ===" ++ nl
    ++ lit "Invoice 123".
Proof.
  refine (proj1 (dual_both_texts_concatenated
                   (lit "INVOICE #123") (lit "Invoice 123") _ _));
    vm_compute; discriminate.
Defined.

(** Without an instruction of the caller (none, or the empty string)
    the default instruction takes its place at the head of the prompt. *)
Lemma dual_prompt_default_instruction env img ap lang vm tm w :
  ap = None ∨ ap = Some [] →
  ∃ rest,
    text_model_calls
      (DualOCRService.analyzeImage env img ap lang vm tm w).2
    = mkPost (or_default tm (ollama_model (config env)))
        (lit "Analyze the following document text and extract key information as structured JSON. Return only valid JSON without markdown formatting."
         ++ rest) []
      :: text_model_calls w.
Proof.
  intros Hap. eexists.
  rewrite dual_run_factored, merged_analysis_world, !text_model_calls_add.
  cbn [is_text_request dual_vision_request post_images].
  by destruct Hap as [-> | ->].
Qed.

(** C7. In every dual run the one request sent to the text model
    carries, in this order, the caller's analysis instruction, the
    explanation that the text comes from two OCR methods applied to the
    same document (with the rule to prefer the cleaner, more structured
    output on discrepancies) and, at the end, the combined text. *)
Theorem dual_prompt_is_framed env img (p : jsstring) lang vm tm w :
  p ≠ [] →
  text_model_calls
    (DualOCRService.analyzeImage env img (Some p) lang vm tm w).2 =
  mkPost (or_default tm (ollama_model (config env)))
    (p ++ nl ++ nl
     ++ lit "IMPORTANT: The text below comes from TWO different OCR methods applied to the SAME document:" ++ nl
     ++ lit "1. Tesseract OCR (fast, may have typos/formatting issues)" ++ nl
     ++ lit "2. Vision Model OCR (slower, better structured)" ++ nl
     ++ nl
     ++ lit "Both are reading the SAME document. Cross-reference both outputs to extract the most accurate information." ++ nl
     ++ lit "When there are discrepancies, prefer the cleaner, more structured output." ++ nl
     ++ nl
     ++ DualOCRService.combineOCRResults
          (branch_text (DualOCRService.runTesseractOCR env img lang) w)
          (branch_text (DualOCRService.runVisionOCR env img
                          (or_default vm (lit "gemma3:4b")) 80000) w))
    []
  :: text_model_calls w.
Proof.
  intros Hp%truthy_true.
  rewrite dual_run_factored, merged_analysis_world, !text_model_calls_add.
  cbn. by rewrite Hp.
Qed.

Lemma dual_prompt_is_framed_witness :
  head (text_model_calls
    (DualOCRService.analyzeImage
       (sample_env (Normal (lit "INVOICE #123")) (0, Throw backend_down)
          (0, Normal (Some (lit "{}"))))
       [137; 80; 78; 71] (Some (lit "List the totals.")) (lit "eng")
       None None empty_world).2) =
  Some (mkPost (lit "llama3.2:3b")
    (lit "List the totals." ++ nl ++ nl
     ++ lit "IMPORTANT: The text below comes from TWO different OCR methods applied to the SAME document:" ++ nl
     ++ lit "1. Tesseract OCR (fast, may have typos/formatting issues)" ++ nl
     ++ lit "2. Vision Model OCR (slower, better structured)" ++ nl
     ++ nl
     ++ lit "Both are reading the SAME document. Cross-reference both outputs to extract the most accurate information." ++ nl
     ++ lit "When there are discrepancies, prefer the cleaner, more structured output." ++ nl
     ++ nl
     ++ lit "INVOICE #123")
    []).
Proof.
  rewrite (dual_prompt_is_framed
             (sample_env (Normal (lit "INVOICE #123")) (0, Throw backend_down)
                (0, Normal (Some (lit "{}"))))
             [137; 80; 78; 71] (lit "List the totals.") (lit "eng")
             None None empty_world);
    [reflexivity | vm_compute; discriminate].
Defined.

(** C3. When exactly one branch hands non-empty text [s] to the merge
    (the other rejected or resolved with the empty string), the combined
    text is [s] itself; the request to the text model ends with [s] and
    contains the supplementary label only if the instruction or [s]
    does; and the run is the same whatever the reasons with which
    branches reject. *)
Theorem dual_single_branch_proceeds env img ap lang vm tm w (t v s : jsstring) :
  t = branch_text (DualOCRService.runTesseractOCR env img lang) w →
  v = branch_text (DualOCRService.runVisionOCR env img
                     (or_default vm (lit "gemma3:4b")) 80000) w →
  (t = [] ∧ s = v) ∨ (v = [] ∧ s = t) →
  s ≠ [] →
  DualOCRService.combineOCRResults t v = s
  ∧ (∃ prompt,
       text_model_calls
         (DualOCRService.analyzeImage env img ap lang vm tm w).2
       = mkPost (or_default tm (ollama_model (config env))) prompt []
         :: text_model_calls w
       ∧ drop (length prompt - length s) prompt = s
       ∧ (includes (lit "=== SUPPLEMENTARY OCR (Vision Model) ===")
            (or_default ap (lit "Analyze the following document text and extract key information as structured JSON. Return only valid JSON without markdown formatting."))
          = false →
          includes (lit "=== SUPPLEMENTARY OCR (Vision Model) ===") s = false →
          includes (lit "=== SUPPLEMENTARY OCR (Vision Model) ===") prompt
          = false))
  ∧ (∀ env', same_but_branch_reasons env env' img lang vm →
       DualOCRService.analyzeImage env' img ap lang vm tm w
       = DualOCRService.analyzeImage env img ap lang vm tm w).
Proof.
  intros Ht Hv Hone Hs.
  assert (DualOCRService.combineOCRResults t v = s) as Hmerge.
  { unfold DualOCRService.combineOCRResults.
    destruct Hone as [[-> ->]|[-> ->]]; apply truthy_true in Hs;
      rewrite Hs; reflexivity. }
  split; [exact Hmerge|]. split; [|intros env'; apply dual_run_ignores_reasons].
  eexists. split.
  { rewrite dual_run_factored, merged_analysis_world, !text_model_calls_add.
    cbn [is_text_request dual_vision_request post_images].
    rewrite <- Ht, <- Hv, Hmerge. reflexivity. }
  split.
  { rewrite !app_assoc. apply drop_app_length'. rewrite length_app. lia. }
  intros Hp Hs'.
  apply includes_separated; [reflexivity | exact Hp |].
  rewrite !app_assoc. rewrite <- app_assoc.
  apply includes_separated; [reflexivity | by vm_compute | exact Hs'].
Qed.

Lemma dual_single_branch_proceeds_witness :
  DualOCRService.combineOCRResults (lit "INVOICE #123") [] = lit "INVOICE #123".
Proof.
  refine (proj1 (dual_single_branch_proceeds
    (sample_env (Normal (lit "INVOICE #123")) (0, Normal (Some []))
       (0, Normal (Some (lit "{}"))))
    [137; 80; 78; 71] None (lit "eng") None None empty_world
    (lit "INVOICE #123") [] (lit "INVOICE #123") _ _ _ _)).
  - vm_compute. reflexivity.
  - vm_compute. reflexivity.
  - right. split; reflexivity.
  - vm_compute. discriminate.
Defined.

(** C1, evaluated where both branches fail: the OCR engine crashes and
    the vision backend is unreachable.  The merge of two empty texts is
    the two labels with nothing under them, which is not empty, so the
    guard does not fire: one request goes to the text model and its
    answer becomes the result of the run. *)
Theorem dual_both_failed_still_analyzed :
  DualOCRService.combineOCRResults [] [] =
    lit "=== PRIMARY OCR (Tesseract) ===" ++ nl ++ nl ++ nl
    ++ lit "=== SUPPLEMENTARY OCR (Vision Model) ===" ++ nl
  ∧ (DualOCRService.analyzeImage
       (sample_env (Throw engine_crash) (0, Throw backend_down)
          (0, Normal (Some (lit "{}"))))
       [137; 80; 78; 71] (Some (lit "List the totals.")) (lit "eng")
       None None empty_world).1
    = Normal (mkLLMResult (lit "{}") 150)
  ∧ length (text_model_calls
      (DualOCRService.analyzeImage
         (sample_env (Throw engine_crash) (0, Throw backend_down)
            (0, Normal (Some (lit "{}"))))
         [137; 80; 78; 71] (Some (lit "List the totals.")) (lit "eng")
         None None empty_world).2) = 1%nat.
Proof. split; [reflexivity|]. split; vm_compute; reflexivity. Qed.

(** In every environment a dual run sends exactly one request to the
    text model, also when both branches hand the empty string to the
    merge. *)
Lemma dual_always_calls_text_model env img ap lang vm tm w :
  length (text_model_calls
            (DualOCRService.analyzeImage env img ap lang vm tm w).2)
  = S (length (text_model_calls w)).
Proof.
  rewrite dual_run_factored, merged_analysis_world, !text_model_calls_add.
  reflexivity.
Qed.

(** ** Empty extractions *)

Lemma exceeds_timeout_true env req timeout :
  exceeds_timeout env req timeout →
  (0 <? timeout) && (timeout <? (ollama env req).1) = true.
Proof.
  intros [H0 H1]. apply andb_true_iff. split; by apply N.ltb_lt.
Qed.

Lemma exceeds_timeout_false env req timeout :
  ¬ exceeds_timeout env req timeout →
  (0 <? timeout) && (timeout <? (ollama env req).1) = false.
Proof.
  intros H. apply not_true_is_false. intros [H0 H1]%andb_true_iff.
  apply H. split; by apply N.ltb_lt.
Qed.




(** ** Image preconditioning *)

Lemma round_div_bounds (a b : Z) :
  (0 < b)%Z →
  (2 * b * Sharp.round_div a b ≤ 2 * a + b
   < 2 * b * Sharp.round_div a b + 2 * b)%Z.
Proof.
  intros Hb. unfold Sharp.round_div.
  pose proof (Z.div_mod (2 * a + b) (2 * b) ltac:(lia)) as Hdm.
  pose proof (Z.mod_pos_bound (2 * a + b) (2 * b) ltac:(lia)) as Hm.
  lia.
Qed.

(** C5 as stated fails: only the width is bounded.  A portrait image of
    500 by 3000 pixels is narrower than 1024 pixels, so it is left at
    its size and its longer side stays at 3000 pixels. *)
Lemma portrait_image_keeps_long_side :
  Sharp.output_size HybridService.resizeOptions (500, 3000)%Z
    = Some (500, 3000)%Z
  ∧ Sharp.output_size MagicOCRService.resizeOptions (500, 3000)%Z
    = Some (500, 3000)%Z
  ∧ (1024 < Z.max 500 3000)%Z.
Proof. repeat split. Qed.

(** C5, amended.  The preconditioning of the hybrid and magic-OCR
    services bounds the width of the image by 1024 pixels (not its
    longer side): an image at most 1024 pixels wide keeps its size, a
    wider one becomes 1024 pixels wide with its height scaled by the
    same factor, to the nearest pixel and at least one pixel; no side
    grows; and the image is re-encoded as JPEG at quality 75. *)
Theorem precondition_bounds_width (w h : Z) :
  (0 < w)%Z → (0 < h)%Z →
  ∃ w' h' : Z,
    Sharp.output_size HybridService.resizeOptions (w, h) = Some (w', h')
    ∧ Sharp.output_size MagicOCRService.resizeOptions (w, h) = Some (w', h')
    ∧ (w' ≤ 1024)%Z
    ∧ (0 < w' ≤ w)%Z ∧ (0 < h' ≤ h)%Z
    ∧ ((w ≤ 1024)%Z → w' = w ∧ h' = h)
    ∧ ((1024 < w)%Z →
       w' = 1024%Z ∧ (h' = 1%Z ∨ (2 * Z.abs (h' * w - h * 1024) ≤ w)%Z))
    ∧ Sharp.quality HybridService.jpegOptions = 75%Z
    ∧ Sharp.quality MagicOCRService.jpegOptions = 75%Z.
Proof.
  intros Hw Hh.
  unfold Sharp.output_size, HybridService.resizeOptions,
    MagicOCRService.resizeOptions, Sharp.fixed_width_size.
  cbn [Sharp.width Sharp.height Sharp.fit Sharp.withoutEnlargement andb].
  destruct (Z.leb_spec w 1024) as [Hle|Hgt].
  - exists w, h. repeat split; try lia.
  - pose proof (round_div_bounds (h * 1024) w Hw) as Hq.
    exists 1024%Z, (Z.max 1 (Sharp.round_div (h * 1024) w)).
    set (q := Sharp.round_div (h * 1024) w) in *.
    assert (q ≤ h)%Z by nia.
    split; [done|]. split; [done|]. split; [lia|]. split; [lia|].
    split; [lia|]. split; [lia|]. split; [|done].
    intros _. split; [done|].
    destruct (Z.max_spec 1 q) as [[? ->]|[? ->]]; [right; lia | by left].
Qed.

Lemma precondition_bounds_width_witness :
  ∃ w' h' : Z,
    Sharp.output_size HybridService.resizeOptions (4096, 3072)%Z
      = Some (w', h')
    ∧ (w' ≤ 1024)%Z.
Proof.
  destruct (precondition_bounds_width 4096 3072) as (w' & h' & H1 & _ & H2 & _);
    [lia | lia |].
  exists w', h'. split; [exact H1 | exact H2].
Defined.

(** ** Classification of vision-model failures *)


(** Without a timeout, a 404 answer of the backend is reported as a
    missing model. *)
Lemma vision_404_is_model_not_found env img prompt model w code msg :
  ¬ exceeds_timeout env
      (mkPost (or_default model (lit "gemma3:4b")) prompt [base64 env img])
      (ollama_visionTimeout (config env)) →
  (ollama env
     (mkPost (or_default model (lit "gemma3:4b")) prompt [base64 env img])).2
  = Throw (AxiosError code (Some 404) msg) →
  code ≠ Some ECONNABORTED →
  (VisionService.analyzeImage env img prompt model w).1
  = Throw (vision_model_not_found (or_default model (lit "gemma3:4b"))).
Proof.
  intros Hto%exceeds_timeout_false Hans Hcode.
  unfold VisionService.analyzeImage, vision_model_not_found. run_ops.
  destruct (ollama env _) as [lat ans]. cbn [fst snd] in *.
  rewrite Hto, Hans. cbn.
  destruct code as [c|]; cbn; [|done].
  case_bool_decide; [congruence|done].
Qed.

(** The vision branch of the dual run rejects with axios' own timeout
    error (code ECONNABORTED) when the backend exceeds the 80 seconds. *)
Lemma dual_vision_branch_timeout env img vm w :
  exceeds_timeout env (dual_vision_request env img vm) 80000 →
  (DualOCRService.runVisionOCR env img (or_default vm (lit "gemma3:4b"))
     80000 w).1
  = Throw (AxiosError (Some ECONNABORTED) None (timeout_message env)).
Proof.
  intros Hto%exceeds_timeout_true.
  unfold DualOCRService.runVisionOCR. run_ops.
  fold (dual_vision_request env img vm).
  destruct (ollama env _) as [lat ans]. cbn [fst snd] in *.
  by rewrite Hto.
Qed.

(** The vision step of the hybrid service and the magic-OCR service
    report a time-out of the backend as a time-out too. *)
Lemma hybrid_vision_timeout env img ap vm tm w optimizedImage :
  sharp_toBuffer env img HybridService.resizeOptions HybridService.jpegOptions
  = Normal optimizedImage →
  exceeds_timeout env
    (mkPost (or_default vm (lit "gemma3:4b"))
       (lit "Extract all text from this image. Return only the raw text without any formatting or additional comments.")
       [base64 env optimizedImage])
    (ollama_visionTimeout (config env)) →
  (HybridService.analyzeImage env img ap vm tm w).1
  = Throw (Error (lit "Hybrid processing request timed out")).
Proof.
  intros Hsharp Hto%exceeds_timeout_true.
  unfold HybridService.analyzeImage. run_ops. rewrite Hsharp.
  destruct (ollama env _) as [lat ans]. cbn [fst snd] in *.
  by rewrite Hto.
Qed.

Lemma magic_vision_timeout env img p model w optimizedBuffer :
  sharp_toBuffer env img MagicOCRService.resizeOptions
    MagicOCRService.jpegOptions
  = Normal optimizedBuffer →
  exceeds_timeout env
    (mkPost (or_default model (lit "gemma3:4b"))
       (lit "Extract the text in the image.") [base64 env optimizedBuffer])
    (ollama_visionTimeout (config env)) →
  (MagicOCRService.analyzeImage env img p model w).1
  = Throw (Error (lit "Magic OCR request timed out - try a smaller image or increase timeout")).
Proof.
  intros Hsharp Hto%exceeds_timeout_true.
  unfold MagicOCRService.analyzeImage. run_ops. rewrite Hsharp.
  destruct (ollama env _) as [lat ans]. cbn [fst snd] in *.
  by rewrite Hto.
Qed.



(** ** Operations that leave the temporary directory tree alone *)


Lemma keeps_ret {A} (a : A) : keeps_tmpfs (mret a).
Proof. by intros w. Qed.

Lemma keeps_throw {A} e : keeps_tmpfs (throw e : M A).
Proof. by intros w. Qed.

Lemma keeps_complete {A} (c : completion A) : keeps_tmpfs (complete c).
Proof. by intros w. Qed.

Lemma keeps_bind {A B} (m : M A) (k : A → M B) :
  keeps_tmpfs m → (∀ a, keeps_tmpfs (k a)) → keeps_tmpfs (m ≫= k).
Proof.
  intros Hm Hk w. unfold mbind, Op_bind. specialize (Hm w).
  destruct (m w) as [[a|e] w']; cbn in *; [|done].
  by rewrite Hk.
Qed.

Lemma keeps_try_catch {A} (m : M A) (h : thrown → M A) :
  keeps_tmpfs m → (∀ e, keeps_tmpfs (h e)) → keeps_tmpfs (try_catch m h).
Proof.
  intros Hm Hh w. unfold try_catch. specialize (Hm w).
  destruct (m w) as [[a|e] w']; cbn in *; [done|].
  by rewrite Hh.
Qed.

Lemma keeps_syscall env s : keeps_tmpfs (syscall env s).
Proof. intros w. unfold syscall. by destruct (fault env s). Qed.

Lemma keeps_add_debug name b : keeps_tmpfs (modify (add_debug name b)).
Proof. by intros w. Qed.

Lemma keeps_res_json code body : keeps_tmpfs (res_json code body).
Proof. by intros w. Qed.

Lemma keeps_next e : keeps_tmpfs (next e).
Proof. by intros w. Qed.

Lemma keeps_axios_post env req timeout :
  keeps_tmpfs (axios_post env req timeout).
Proof.
  intros w. unfold axios_post. run_ops.
  destruct (ollama env req) as [lat ans]. by destruct (_ && _).
Qed.

Lemma keeps_readFile env s dir name : keeps_tmpfs (readFile env s dir name).
Proof.
  apply keeps_bind; [apply keeps_syscall|]. intros _ w.
  by destruct (_ ≫= _).
Qed.

Ltac keeps_step :=
  first
    [ apply keeps_ret | apply keeps_throw | apply keeps_complete
    | apply keeps_syscall | apply keeps_add_debug | apply keeps_res_json
    | apply keeps_next | apply keeps_axios_post | apply keeps_readFile
    | apply keeps_bind; [|intros ?]
    | apply keeps_try_catch; [|intros ?]
    | match goal with
      | |- keeps_tmpfs (if ?c then _ else _) => destruct c
      | |- keeps_tmpfs (when ?c _) => unfold when; destruct c
      end ].

Lemma keeps_dual_analyzeImage env img ap lang vm tm :
  keeps_tmpfs (DualOCRService.analyzeImage env img ap lang vm tm).
Proof.
  intros w. rewrite dual_run_factored, merged_analysis_world. reflexivity.
Qed.

Lemma keeps_magic_analyzeImage env img p model :
  keeps_tmpfs (MagicOCRService.analyzeImage env img p model).
Proof.
  unfold MagicOCRService.analyzeImage. cbv zeta. repeat keeps_step.
Qed.

(** ** A program logic for bodies with a local variable *)


Lemma triple_ret {S A} (P : S → Prop) (a : A) Q E :
  (∀ s, P s → Q a s) → triple P (mret a) Q E.
Proof. intros H s Hs. by apply H. Qed.

Lemma triple_throw {S A} (P : S → Prop) e (Q : A → S → Prop) E :
  (∀ s, P s → E s) → triple P (throw e) Q E.
Proof. intros H s Hs. by apply H. Qed.

Lemma triple_bind {S A B} (P : S → Prop) (m : Op S A) (k : A → Op S B)
    (R : A → S → Prop) Q E :
  triple P m R E → (∀ a, triple (R a) (k a) Q E) → triple P (m ≫= k) Q E.
Proof.
  intros Hm Hk s Hs. unfold mbind, Op_bind. specialize (Hm s Hs).
  destruct (m s) as [[a|e] s']; [by apply Hk|done].
Qed.

Lemma triple_catch {S A} (P : S → Prop) (m : Op S A) h
    (R : S → Prop) Q E :
  triple P m Q R → (∀ e, triple R (h e) Q E) → triple P (try_catch m h) Q E.
Proof.
  intros Hm Hh s Hs. unfold try_catch. specialize (Hm s Hs).
  destruct (m s) as [[a|e] s']; [done|by apply Hh].
Qed.

Lemma triple_weaken {S A} (P P' : S → Prop) (m : Op S A)
    (Q Q' : A → S → Prop) (E E' : S → Prop) :
  triple P' m Q' E' →
  (∀ s, P s → P' s) → (∀ a s, Q' a s → Q a s) → (∀ s, E' s → E s) →
  triple P m Q E.
Proof.
  intros Hm HP HQ HE s Hs. specialize (Hm s (HP s Hs)).
  destruct (m s) as [[a|e] s']; auto.
Qed.

(** What [try { m } finally { f }] guarantees of the final state, on
    every completion of [m]. *)
Lemma finally_ends {S A} (P R F : S → Prop) (m : Op S A) (f : Op S unit) :
  triple P m (λ _, R) R → triple R f (λ _, F) F →
  ∀ s, P s → F (try_finally m f s).2.
Proof.
  intros Hm Hf s Hs. unfold try_finally. specialize (Hm s Hs).
  destruct (m s) as [c s'].
  assert (R s') as Hs' by (by destruct c).
  specialize (Hf s' Hs'). by destruct (f s') as [[[]|e] s''].
Qed.


Lemma triple_lift_keeps {A} I (m : M A) :
  keeps_tmpfs m →
  triple (on_fs I) (lift m) (λ _, on_fs I) (on_fs I).
Proof.
  intros Hm [var w] Hs. unfold lift, on_fs in *. cbn [fst snd] in *.
  specialize (Hm w). destruct (m w) as [[a|e] w']; cbn in *; by rewrite Hm.
Qed.

(** ** The scratch directory, step by step *)

Section Scratch.
Context (fs0 : gmap string (gmap string Buffer)).

Lemma triple_mkdtemp env prefix :
  triple (on_fs (untouched fs0)) (lift (mkdtemp env prefix))
    (λ d, on_fs (created fs0 d)) (on_fs (untouched fs0)).
Proof.
  intros [var w] [Hvar Hfs]. cbn [fst snd] in *.
  unfold lift, mkdtemp, on_fs, created, untouched. run_ops.
  cbn [fst snd]. destruct (fault env Mkdtemp); cbn; [done|].
  destruct (tmpfs w !! _) eqn:E; cbn; [done|].
  rewrite <- Hfs. repeat split; [done..|].
  by rewrite delete_insert_eq, delete_id.
Qed.

Lemma triple_set_var d :
  triple (on_fs (created fs0 d)) (set_var (Some d))
    (λ _, on_fs (recorded fs0 d)) (on_fs (recorded fs0 d)).
Proof. intros [var w] (Hvar & Hd & Hfs). by repeat split. Qed.

Lemma triple_writeFile env s d name data :
  triple (on_fs (recorded fs0 d)) (lift (writeFile env s d name data))
    (λ _, on_fs (recorded fs0 d)) (on_fs (recorded fs0 d)).
Proof.
  intros [var w] (Hvar & Hd & Hfs). cbn [fst snd] in *.
  unfold lift, writeFile, on_fs, recorded. run_ops. cbn [fst snd].
  destruct (fault env s); cbn; [done|].
  destruct (tmpfs w !! d); cbn; [|done].
  repeat split; [done..|]. by rewrite delete_insert_eq.
Qed.

Lemma triple_exec_pdftocairo env d :
  triple (on_fs (recorded fs0 d)) (lift (exec_pdftocairo env d))
    (λ _, on_fs (recorded fs0 d)) (on_fs (recorded fs0 d)).
Proof.
  intros [var w] (Hvar & Hd & Hfs). cbn [fst snd] in *.
  unfold lift, exec_pdftocairo, on_fs, recorded. run_ops. cbn [fst snd].
  destruct (fault env Pdftocairo); cbn; [done|].
  destruct (tmpfs w !! d); cbn; [|done].
  destruct (option_bind _ _ _ _); cbn; [|done].
  repeat split; [done..|]. by rewrite delete_insert_eq.
Qed.

(** The [finally] block removes the recorded directory, provided
    [fs.rm] itself does not fail. *)
Lemma triple_cleanup env :
  fault env RmTemp = None →
  triple (on_fs (accounted fs0)) (tempDir ← get_var; lift (cleanup env tempDir))
    (λ _ s, tmpfs s.2 = fs0) (λ s, tmpfs s.2 = fs0).
Proof.
  intros Hrm [var w] [[Hvar Hfs]|(d & Hvar & Hd & Hfs)];
    cbn [fst snd] in *; subst var.
  - done.
  - unfold get_var, lift, cleanup, rm. run_ops. cbn [fst snd].
    rewrite Hrm. cbn. exact Hfs.
Qed.
End Scratch.

(** ** Cleanup of the scratch directory *)

Section ScratchRun.
Context (env : Env) (fs0 : gmap string (gmap string Buffer)).

Lemma untouched_accounted s :
  on_fs (untouched fs0) s → on_fs (accounted fs0) s.
Proof. by left. Qed.

Lemma recorded_accounted d s :
  on_fs (recorded fs0 d) s → on_fs (accounted fs0) s.
Proof. right. by exists d. Qed.

Lemma accounted_lift {A} (m : M A) I :
  keeps_tmpfs m → (∀ s, on_fs I s → on_fs (accounted fs0) s) →
  triple (on_fs I) (lift m) (λ _, on_fs I) (on_fs (accounted fs0)).
Proof.
  intros Hm HI.
  apply (triple_weaken _ (on_fs I) _ _ (λ _, on_fs I) _ (on_fs I));
    [by apply triple_lift_keeps | done | done | exact HI].
Qed.

Lemma accounted_mkdtemp prefix :
  triple (on_fs (untouched fs0)) (lift (mkdtemp env prefix))
    (λ d, on_fs (created fs0 d)) (on_fs (accounted fs0)).
Proof.
  apply (triple_weaken _ (on_fs (untouched fs0)) _ _
           (λ d, on_fs (created fs0 d)) _ (on_fs (untouched fs0)));
    [apply triple_mkdtemp | done | done | apply untouched_accounted].
Qed.

Lemma accounted_set_var d :
  triple (on_fs (created fs0 d)) (set_var (Some d))
    (λ _, on_fs (recorded fs0 d)) (on_fs (accounted fs0)).
Proof.
  apply (triple_weaken _ (on_fs (created fs0 d)) _ _
           (λ _, on_fs (recorded fs0 d)) _ (on_fs (recorded fs0 d)));
    [apply triple_set_var | done | done | apply recorded_accounted].
Qed.

Lemma accounted_writeFile s d name data :
  triple (on_fs (recorded fs0 d)) (lift (writeFile env s d name data))
    (λ _, on_fs (recorded fs0 d)) (on_fs (accounted fs0)).
Proof.
  apply (triple_weaken _ (on_fs (recorded fs0 d)) _ _
           (λ _, on_fs (recorded fs0 d)) _ (on_fs (recorded fs0 d)));
    [apply triple_writeFile | done | done | apply recorded_accounted].
Qed.

Lemma accounted_exec_pdftocairo d :
  triple (on_fs (recorded fs0 d)) (lift (exec_pdftocairo env d))
    (λ _, on_fs (recorded fs0 d)) (on_fs (accounted fs0)).
Proof.
  apply (triple_weaken _ (on_fs (recorded fs0 d)) _ _
           (λ _, on_fs (recorded fs0 d)) _ (on_fs (recorded fs0 d)));
    [apply triple_exec_pdftocairo | done | done | apply recorded_accounted].
Qed.

Lemma accounted_lift_last {A} (m : M A) I :
  keeps_tmpfs m → (∀ s, on_fs I s → on_fs (accounted fs0) s) →
  triple (on_fs I) (lift m)
    (λ _, on_fs (accounted fs0)) (on_fs (accounted fs0)).
Proof.
  intros Hm HI.
  apply (triple_weaken _ (on_fs I) _ _ (λ _, on_fs I) _ (on_fs I));
    [by apply triple_lift_keeps | done | intros _; exact HI | exact HI].
Qed.

Lemma accounted_guard (c : bool) e I :
  (∀ s, on_fs I s → on_fs (accounted fs0) s) →
  triple (on_fs I) (if c then throw e else mret ())
    (λ _, on_fs I) (on_fs (accounted fs0)).
Proof.
  intros HI. destruct c; [by apply triple_throw|by apply triple_ret].
Qed.
End ScratchRun.

Ltac keeps := unfold when; cbv zeta; repeat keeps_step.

Ltac scratch_step :=
  first
    [ eapply triple_bind;
      [ first
          [ apply accounted_mkdtemp | apply accounted_set_var
          | apply accounted_writeFile | apply accounted_exec_pdftocairo
          | apply accounted_guard;
            first [apply untouched_accounted | apply recorded_accounted]
          | apply accounted_lift;
            [ first [ apply keeps_dual_analyzeImage
                    | apply keeps_magic_analyzeImage | keeps ]
            | first [apply untouched_accounted | apply recorded_accounted] ] ]
      | intros ? ]
    | apply accounted_lift_last;
      [ first [apply keeps_res_json | apply keeps_next | keeps]
      | first [ apply untouched_accounted | apply recorded_accounted
              | done ] ]
    | apply triple_ret;
      first [apply untouched_accounted | apply recorded_accounted] ].

Lemma extractTextFromPDF_body_accounted env fs0 pdfBuffer language :
  triple (on_fs (untouched fs0))
    (lift (when (debug_saveFiles (config env)) (syscall env MkdirDebug));;
     dir ← lift (mkdtemp env "doc-intel-");
     set_var (Some dir);;
     lift (writeFile env WritePdf dir "input.pdf" pdfBuffer);;
     lift (exec_pdftocairo env dir);;
     pngBuffer ← lift (readFile env ReadPng dir "page.png");
     lift (when (debug_saveFiles (config env))
             (syscall env CopyDebug;;
              modify (add_debug
                ("pdf-" +:+ timestamp env +:+ ".png") pngBuffer)));;
     text ← lift (complete (recognize env pngBuffer language));
     (if negb (truthy text) || negb (truthy (trim text))
      then throw (Error (lit "No text extracted from PDF image"))
      else mret ());;
     lift (when (debug_saveFiles (config env))
             (syscall env WriteDebug;;
              modify (add_debug
                ("ocr-" +:+ timestamp env +:+ ".txt") text)));;
     mret (mkOCRResult (trim text) (elapsed env)))
    (λ _, on_fs (accounted fs0)) (on_fs (accounted fs0)).
Proof. repeat scratch_step. Qed.

(** A body that accounts for the directory it creates, run under the
    cleaning [finally] block, leaves the temporary directory tree as it
    found it. *)
Lemma with_var_scratch {A} env (body : Op (option string * World) A) w :
  fault env RmTemp = None →
  (∀ fs0, triple (on_fs (untouched fs0)) body
            (λ _, on_fs (accounted fs0)) (on_fs (accounted fs0))) →
  tmpfs (with_var None
           (try_finally body (tempDir ← get_var; lift (cleanup env tempDir)))
           w).2
  = tmpfs w.
Proof.
  intros Hrm Hbody. unfold with_var.
  pose proof (finally_ends
    (on_fs (untouched (tmpfs w))) (on_fs (accounted (tmpfs w)))
    (λ s, tmpfs s.2 = tmpfs w) body
    (tempDir ← get_var; lift (cleanup env tempDir))
    (Hbody (tmpfs w)) (triple_cleanup (tmpfs w) env Hrm) (None, w)) as H.
  destruct (try_finally _ _ _) as [c s']. cbn [snd] in *.
  apply H. by split.
Qed.

Lemma extractTextFromPDF_restores_tmpfs env pdfBuffer language w :
  fault env RmTemp = None →
  tmpfs (OCRService.extractTextFromPDF env pdfBuffer language w).2 = tmpfs w.
Proof.
  intros Hrm. unfold OCRService.extractTextFromPDF.
  apply with_var_scratch; [done|]. intros fs0.
  apply (triple_catch _ _ _ (on_fs (accounted fs0))).
  - apply extractTextFromPDF_body_accounted.
  - intros e. by apply triple_throw.
Qed.



(** ** What the operations return *)


Lemma yields_spec {S A} (m : Op S A) Φ s a :
  yields m Φ → (m s).1 = Normal a → Φ a.
Proof.
  intros H Hm. specialize (H s I). destruct (m s) as [[a'|e] s']; [|done].
  cbn in Hm. by injection Hm as <-.
Qed.

Lemma yields_ret {S A} (a : A) (Φ : A → Prop) :
  Φ a → yields (mret a : Op S A) Φ.
Proof. intros H. by apply triple_ret. Qed.

Lemma yields_throw {S A} e (Φ : A → Prop) : yields (throw e : Op S A) Φ.
Proof. by apply triple_throw. Qed.

Lemma yields_bind {S A B} (m : Op S A) (k : A → Op S B) (Φ : B → Prop) :
  (∀ a, yields (k a) Φ) → yields (m ≫= k) Φ.
Proof.
  intros Hk. apply (triple_bind _ _ _ (λ _ _, True)); [|exact Hk].
  intros s _. by destruct (m s) as [[a|e] s'].
Qed.

Lemma yields_guard {S B} (c : bool) e (k : Op S B) (Φ : B → Prop) :
  (c = false → yields k Φ) →
  yields ((if c then throw e else mret ());; k) Φ.
Proof.
  intros Hk. destruct c.
  - intros s _. done.
  - apply yields_bind. intros _. by apply Hk.
Qed.

Lemma yields_catch {S A} (m : Op S A) h (Φ : A → Prop) :
  yields m Φ → (∀ e, yields (h e) Φ) → yields (try_catch m h) Φ.
Proof. intros Hm Hh. by apply (triple_catch _ _ _ (λ _, True)). Qed.

Lemma yields_finally {S A} (m : Op S A) f (Φ : A → Prop) :
  yields m Φ → yields (try_finally m f) Φ.
Proof.
  intros Hm s _. unfold try_finally. specialize (Hm s I).
  destruct (m s) as [[a|e] s']; by destruct (f s') as [[[]|e'] s''].
Qed.

Lemma yields_with_var {L A} (init : L) (m : Op (L * World) A)
    (Φ : A → Prop) :
  yields m Φ → yields (with_var init m) Φ.
Proof.
  intros Hm w _. unfold with_var. specialize (Hm (init, w) I).
  by destruct (m (init, w)) as [[a|e] s'].
Qed.

Ltac yields_step :=
  first
    [ apply yields_throw
    | apply yields_with_var | apply yields_finally
    | apply yields_catch; [|intros ?]
    | apply yields_guard; intros ?
    | apply yields_bind; intros ? ].

(** A text that passed the emptiness guards is non-empty and trimmed. *)
Lemma guarded_trim_ok (raw : jsstring) :
  negb (truthy raw) || negb (truthy (trim raw)) = false →
  trim raw ≠ [] ∧ trim (trim raw) = trim raw.
Proof.
  intros [_ H%negb_false_iff%truthy_true]%orb_false_iff.
  split; [done|apply trim_idem].
Qed.

Lemma guarded_response_ok (r : option jsstring) :
  negb (truthy (response_text r)) = false →
  response_text r ≠ [] ∧ trim (response_text r) = response_text r.
Proof.
  intros H%negb_false_iff%truthy_true.
  split; [done|apply response_text_trimmed].
Qed.

Lemma extractTextFromPDF_yields env pdfBuffer language :
  yields (OCRService.extractTextFromPDF env pdfBuffer language)
    (λ r, text r ≠ [] ∧ trim (text r) = text r).
Proof.
  unfold OCRService.extractTextFromPDF. repeat yields_step.
  apply yields_ret. by apply guarded_trim_ok.
Qed.

Lemma extractTextFromImage_yields env imageBuffer language :
  yields (OCRService.extractTextFromImage env imageBuffer language)
    (λ r, text r ≠ [] ∧ trim (text r) = text r).
Proof.
  unfold OCRService.extractTextFromImage. repeat yields_step.
  apply yields_ret. by apply guarded_trim_ok.
Qed.

Lemma analyzeText_yields env text prompt model :
  yields (LLMService.analyzeText env text prompt model)
    (λ r, summary r ≠ [] ∧ trim (summary r) = summary r).
Proof.
  unfold LLMService.analyzeText. cbv zeta. repeat yields_step.
  - apply yields_ret. by apply guarded_response_ok.
  - repeat (destruct (_ && _)); apply yields_throw.
Qed.

Lemma dual_analyzeImage_yields env img ap lang vm tm :
  yields (DualOCRService.analyzeImage env img ap lang vm tm)
    (λ r, summary r ≠ [] ∧ trim (summary r) = summary r).
Proof.
  unfold DualOCRService.analyzeImage. cbv zeta. repeat yields_step.
  - destruct a as [tesseractResult visionResult]. repeat yields_step.
    apply yields_ret. by apply guarded_response_ok.
  - repeat (destruct (_ && _)); apply yields_throw.
Qed.

(** C10. Every successful result of the OCR extraction operations, of
    the text-model analysis and of the dual-OCR orchestration carries a
    text that is non-empty and equal to its own trim. *)
Theorem successful_text_trimmed env w (s : jsstring) :
  successful_text env w s → s ≠ [] ∧ trim s = s.
Proof.
  intros [pdf lang r H|img lang r H|t p model r H|img ap lang vm tm r H].
  - exact (yields_spec _ _ _ _ (extractTextFromPDF_yields env pdf lang) H).
  - exact (yields_spec _ _ _ _ (extractTextFromImage_yields env img lang) H).
  - exact (yields_spec _ _ _ _ (analyzeText_yields env t p model) H).
  - exact (yields_spec _ _ _ _
             (dual_analyzeImage_yields env img ap lang vm tm) H).
Qed.

Lemma successful_text_trimmed_witness :
  lit "{}" ≠ [] ∧ trim (lit "{}") = lit "{}".
Proof.
  refine (successful_text_trimmed
    (sample_env (Normal (lit "INVOICE #123")) (0, Throw backend_down)
       (0, Normal (Some (lit "  {} "))))
    empty_world (lit "{}")
    (st_llm _ _ (lit "INVOICE #123") (lit "List the totals.") None
       (mkLLMResult (lit "{}") 150) _)).
  vm_compute. reflexivity.
Defined.



(** The successful path of the PDF extraction: the text is returned
    trimmed and the scratch directory is gone. *)
Example extractTextFromPDF_success :
  OCRService.extractTextFromPDF
    (sample_env (Normal (lit " INVOICE #123 ")) (0, Throw backend_down)
       (0, Throw backend_down))
    [37; 80; 68; 70] (lit "eng") empty_world
  = (Normal (mkOCRResult (lit "INVOICE #123") 150), empty_world).
Proof. vm_compute. reflexivity. Qed.

(** A renderer that exits with a failure: the operation fails and the
    scratch directory is gone. *)
Example extractTextFromPDF_renderer_fails :
  OCRService.extractTextFromPDF
    (with_fault
       (sample_env (Normal (lit "INVOICE #123")) (0, Throw backend_down)
          (0, Throw backend_down))
       (λ s, match s with
             | Pdftocairo => Some (Error (lit "Command failed: pdftocairo"))
             | _ => None
             end))
    [37; 80; 68; 70] (lit "eng") empty_world
  = (Throw (Error (lit "Failed to extract text from PDF: "
                     ++ lit "Command failed: pdftocairo")),
     empty_world).
Proof. vm_compute. reflexivity. Qed.

(** When the removal itself fails, the failure is swallowed and the
    directory stays, with the PDF and the PNG in it. *)
Example extractTextFromPDF_rm_fails :
  tmpfs (OCRService.extractTextFromPDF
    (with_fault
       (sample_env (Normal (lit "INVOICE #123")) (0, Throw backend_down)
          (0, Throw backend_down))
       (λ s, match s with
             | RmTemp => Some (Error (lit "EBUSY: resource busy or locked"))
             | _ => None
             end))
    [37; 80; 68; 70] (lit "eng") empty_world).2
  !! "doc-intel-k3x9Qa"%string
  = Some (<["page.png"%string := [37; 80; 68; 70]]>
            (<["input.pdf"%string := [37; 80; 68; 70]]> ∅)).
Proof. vm_compute. reflexivity. Qed.


(** ** API-key authentication *)

Lemma VALID_API_KEYS_has keys (k : jsstring) :
  k ∈ AuthMiddleware.VALID_API_KEYS keys ↔ k = cardoc keys ∨ k = mortgage keys.
Proof. unfold AuthMiddleware.VALID_API_KEYS. set_solver. Qed.

(** X1. [authenticate] calls [next()] exactly for a non-empty key that
    equals one of the two configured keys, and then sends nothing; every
    other request (no key, the empty key, an unknown key) gets exactly
    one 401 response and never reaches [next()].  In particular the
    empty key is refused even when a configured key is the empty
    string. *)
Theorem authenticate_admits_iff keys (apiKey : option jsstring) w :
  (default [] apiKey ≠ []
   ∧ (default [] apiKey = cardoc keys ∨ default [] apiKey = mortgage keys)
   ∧ ∃ client, AuthMiddleware.authenticate keys apiKey w
               = (Normal (Next client), w))
  ∨ (¬ (default [] apiKey ≠ []
        ∧ (default [] apiKey = cardoc keys
           ∨ default [] apiKey = mortgage keys))
     ∧ ∃ message code,
         AuthMiddleware.authenticate keys apiKey w
         = (Normal Answered, add_response (401, ErrorBody message code) w)).
Proof.
  unfold AuthMiddleware.authenticate.
  destruct (truthy (default [] apiKey)) eqn:Hk; cbn [negb].
  - apply truthy_true in Hk. case_bool_decide as Hin; cbn [negb].
    + left. apply VALID_API_KEYS_has in Hin. eauto.
    + right. rewrite VALID_API_KEYS_has in Hin. split; [tauto|]. eauto.
  - apply truthy_false in Hk. right. split; [tauto|]. eauto.
Qed.

(** X2. Whenever [authenticate] calls [next()], [req.client] has been
    set: to 'cardoc' when the key is the cardoc key (also when both
    configured keys are equal) and to 'mortgage' otherwise; it is never
    left undefined. *)
Theorem authenticate_attaches_client keys (apiKey : option jsstring) w client :
  (AuthMiddleware.authenticate keys apiKey w).1 = Normal (Next client) →
  client = Some (if bool_decide (default [] apiKey = cardoc keys)
                 then lit "cardoc" else lit "mortgage")
  ∧ (client = Some (lit "mortgage") → default [] apiKey = mortgage keys).
Proof.
  unfold AuthMiddleware.authenticate.
  destruct (truthy (default [] apiKey)); cbn [negb]; [|done].
  case_bool_decide as Hin; cbn [negb]; [|done].
  apply VALID_API_KEYS_has in Hin. cbn.
  repeat case_bool_decide; intros [= <-]; split; try done;
    destruct Hin; done.
Qed.

Lemma authenticate_attaches_client_witness :
  Some (lit "cardoc")
  = Some (if bool_decide (default [] (Some (lit "k-1")) = lit "k-1")
          then lit "cardoc" else lit "mortgage").
Proof.
  refine (proj1 (authenticate_attaches_client
    (mkApiKeys (lit "k-1") (lit "k-2")) (Some (lit "k-1")) empty_world
    (Some (lit "cardoc")) _)).
  vm_compute. reflexivity.
Defined.


(** ** What the services throw *)

Lemma throws_spec {S A} (m : Op S A) Ψ s e :
  throws m Ψ → (m s).1 = Throw e → Ψ e.
Proof. intros H. apply H. Qed.

Lemma throws_throw {S A} e (Ψ : thrown → Prop) :
  Ψ e → throws (throw e : Op S A) Ψ.
Proof. intros H s e' [= <-]. exact H. Qed.

Lemma throws_catch {S A} (m : Op S A) h (Ψ : thrown → Prop) :
  (∀ e, throws (h e) Ψ) → throws (try_catch m h) Ψ.
Proof.
  intros Hh s e. unfold try_catch.
  destruct (m s) as [[a|e'] s']; [done|]. apply Hh.
Qed.

Lemma throws_with_var {L A} (init : L) (m : Op (L * World) A) Ψ :
  throws m Ψ → throws (with_var init m) Ψ.
Proof.
  intros Hm w e. unfold with_var. specialize (Hm (init, w) e).
  destruct (m (init, w)) as [c s']. exact Hm.
Qed.

(** The cleaning [finally] block never throws. *)
Lemma cleanup_returns env (s : option string * World) :
  ∃ s', (tempDir ← get_var; lift (cleanup env tempDir)) s = (Normal (), s').
Proof.
  destruct s as [[dir|] w]; unfold get_var, lift, cleanup, rm; run_ops;
    cbn [fst snd]; [|by eexists].
  destruct (fault env RmTemp); cbn; by eexists.
Qed.

Lemma throws_finally_cleanup {A} env (m : Op (option string * World) A) Ψ :
  throws m Ψ →
  throws (try_finally m (tempDir ← get_var; lift (cleanup env tempDir))) Ψ.
Proof.
  intros Hm s e. unfold try_finally. specialize (Hm s e).
  destruct (m s) as [c s']. destruct (cleanup_returns env s') as [s'' ->].
  exact Hm.
Qed.

Lemma proper_error_literal (prefix : string) (rest : jsstring) :
  lit prefix ≠ [] → proper_error (Error (lit prefix ++ rest)).
Proof.
  intros H. eexists. split; [reflexivity|].
  destruct (lit prefix); [done|discriminate].
Qed.

Ltac proper :=
  repeat match goal with
         | |- throws (if ?c then _ else _) _ => destruct c
         end;
  apply throws_throw;
  first [ apply proper_error_literal; by vm_compute
        | eexists; split; [reflexivity | by vm_compute] ].

(** X3. Every failure of a service operation (dual, hybrid, text
    analysis, vision, magic OCR, OCR of a PDF or an image) is an [Error]
    object with a non-empty message, never a raw backend error or a
    non-error value; so the error handler answers it with status 500,
    code INTERNAL_ERROR and exactly that message, and with the stack
    only when NODE_ENV is 'development'. *)
Theorem service_failures_reach_client env w (e : thrown) :
  service_failure env w e →
  ∃ m, e = Error m ∧ m ≠ []
    ∧ ∀ NODE_ENV stack,
        errorHandler NODE_ENV stack e
        = (500, mkApiError m (lit "INTERNAL_ERROR")
                  (if bool_decide (NODE_ENV = Some (lit "development"))
                   then stack else None)).
Proof.
  intros Hfail.
  assert (proper_error e) as (m & -> & Hm).
  { destruct Hfail as [? ? ? ? ? e H|? ? ? ? e H|? ? ? e H|? ? ? e H
                      |? ? ? e H|? ? e H|? ? e H];
      revert H; apply throws_spec.
    - unfold DualOCRService.analyzeImage. cbv zeta.
      apply throws_catch. intros err. proper.
    - unfold HybridService.analyzeImage. cbv zeta.
      apply throws_catch. intros err. proper.
    - unfold LLMService.analyzeText. cbv zeta.
      apply throws_catch. intros err. proper.
    - unfold VisionService.analyzeImage. cbv zeta.
      apply throws_catch. intros err. proper.
    - unfold MagicOCRService.analyzeImage. cbv zeta.
      apply throws_catch. intros err. proper.
    - unfold OCRService.extractTextFromPDF.
      apply throws_with_var, throws_finally_cleanup, throws_catch.
      intros err. proper.
    - unfold OCRService.extractTextFromImage.
      apply throws_catch. intros err. proper. }
  exists m. split; [done|]. split; [done|]. intros NODE_ENV stack.
  unfold errorHandler. cbn. apply truthy_true in Hm. by rewrite Hm.
Qed.

Lemma service_failures_reach_client_witness :
  ∃ m, Error (lit "Vision model request timed out - try a smaller image or increase timeout")
       = Error m ∧ m ≠ [].
Proof.
  destruct (service_failures_reach_client
    (sample_env (Throw engine_crash) (1200001, Normal (Some (lit "late")))
       (0, Throw backend_down))
    empty_world
    (Error (lit "Vision model request timed out - try a smaller image or increase timeout"))
    (sf_vision
       (sample_env (Throw engine_crash) (1200001, Normal (Some (lit "late")))
          (0, Throw backend_down))
       empty_world [137; 80; 78; 71] (lit "Describe the image.") None
       (Error (lit "Vision model request timed out - try a smaller image or increase timeout"))
       ltac:(vm_compute; reflexivity)))
    as (m & H1 & H2 & _).
  exists m. split; [exact H1 | exact H2].
Defined.

(** X4. Whatever is passed to the error handler, it answers with status
    500, code INTERNAL_ERROR and a non-empty message (the fallback text
    when the value has no message or an empty one), and it includes the
    stack only when NODE_ENV is exactly 'development': not when it is
    unset. *)
Theorem errorHandler_response (NODE_ENV stack : option jsstring) err :
  (errorHandler NODE_ENV stack err).1 = 500
  ∧ error_code (errorHandler NODE_ENV stack err).2 = lit "INTERNAL_ERROR"
  ∧ error_message (errorHandler NODE_ENV stack err).2 ≠ []
  ∧ (thrown_message err = None ∨ thrown_message err = Some [] →
     error_message (errorHandler NODE_ENV stack err).2
     = lit "Internal server error")
  ∧ (NODE_ENV ≠ Some (lit "development") →
     error_details (errorHandler NODE_ENV stack err).2 = None)
  ∧ error_details (errorHandler None stack err).2 = None.
Proof.
  unfold errorHandler. cbn.
  split; [done|]. split; [done|]. split; [|split; [|split]].
  - destruct (thrown_message err) as [[|c m]|]; cbn; by try vm_compute.
  - by intros [-> | ->].
  - intros H. by case_bool_decide.
  - done.
Qed.

(** ** Observations that the services leave alone *)

Section Frames.
Context {X : Type} (f : World → X).
Context (f_tmpfs : ∀ g w, f (set_tmpfs g w) = f w).
Context (f_post : ∀ p w, f (add_post p w) = f w).
Context (f_debug : ∀ name b w, f (add_debug name b w) = f w).

Lemma frame_ret {A} (a : A) : frame f (mret a).
Proof. by intros w. Qed.

Lemma frame_throw {A} e : frame f (throw e : M A).
Proof. by intros w. Qed.

Lemma frame_complete {A} (c : completion A) : frame f (complete c).
Proof. by intros w. Qed.

Lemma frame_bind {A B} (m : M A) (k : A → M B) :
  frame f m → (∀ a, frame f (k a)) → frame f (m ≫= k).
Proof.
  intros Hm Hk w. unfold mbind, Op_bind. specialize (Hm w).
  destruct (m w) as [[a|e] w']; cbn in *; [|done].
  by rewrite Hk.
Qed.

Lemma frame_try_catch {A} (m : M A) (h : thrown → M A) :
  frame f m → (∀ e, frame f (h e)) → frame f (try_catch m h).
Proof.
  intros Hm Hh w. unfold try_catch. specialize (Hm w).
  destruct (m w) as [[a|e] w']; cbn in *; [done|].
  by rewrite Hh.
Qed.

Lemma frame_syscall env s : frame f (syscall env s).
Proof. intros w. unfold syscall. by destruct (fault env s). Qed.

Lemma frame_add_debug name b : frame f (modify (add_debug name b)).
Proof. intros w. apply f_debug. Qed.

Lemma frame_axios_post env req timeout : frame f (axios_post env req timeout).
Proof.
  intros w. unfold axios_post. run_ops.
  destruct (ollama env req) as [lat ans].
  destruct (_ && _); cbn; apply f_post.
Qed.

Lemma frame_mkdtemp env prefix : frame f (mkdtemp env prefix).
Proof.
  apply frame_bind; [apply frame_syscall|]. intros _ w. cbv beta zeta.
  match goal with
  | |- context [tmpfs w !! ?d] => destruct (tmpfs w !! d)
  end; cbn; [done|apply f_tmpfs].
Qed.

Lemma frame_writeFile env s dir name data :
  frame f (writeFile env s dir name data).
Proof.
  apply frame_bind; [apply frame_syscall|]. intros _ w.
  destruct (tmpfs w !! _); cbn; [apply f_tmpfs|done].
Qed.

Lemma frame_readFile env s dir name : frame f (readFile env s dir name).
Proof.
  apply frame_bind; [apply frame_syscall|]. intros _ w.
  by destruct (_ ≫= _).
Qed.

Lemma frame_exec_pdftocairo env dir : frame f (exec_pdftocairo env dir).
Proof.
  apply frame_bind; [apply frame_syscall|]. intros _ w.
  destruct (tmpfs w !! _); cbn; [|done].
  destruct (_ ≫= _); cbn; [apply f_tmpfs|done].
Qed.

Lemma frame_cleanup env tempDir : frame f (cleanup env tempDir).
Proof.
  destruct tempDir as [dir|]; [|by intros w].
  apply frame_try_catch; [|by intros e w].
  apply frame_bind; [apply frame_syscall|]. intros _ w. apply f_tmpfs.
Qed.

(** Bodies with a local variable. *)
Lemma frame_lift {L A} (x : X) (m : M A) :
  frame f m →
  triple (on_world (L := L) (λ w, f w = x)) (lift m)
    (λ _, on_world (λ w, f w = x)) (on_world (λ w, f w = x)).
Proof.
  intros Hm [var w] Hs. unfold lift, on_world in *. cbn [fst snd] in *.
  specialize (Hm w). destruct (m w) as [[a|e] w']; cbn in *; congruence.
Qed.

Lemma frame_set_var {L} (x : X) (v : L) :
  triple (on_world (λ w, f w = x)) (set_var v)
    (λ _, on_world (λ w, f w = x)) (on_world (λ w, f w = x)).
Proof. by intros [var w] Hs. Qed.

Lemma frame_guard {L} (x : X) (c : bool) e :
  triple (on_world (L := L) (λ w, f w = x)) (if c then throw e else mret ())
    (λ _, on_world (λ w, f w = x)) (on_world (λ w, f w = x)).
Proof. destruct c; [by apply triple_throw|by apply triple_ret]. Qed.

(** A body under the cleaning [finally] block. *)
Lemma frame_with_cleanup {A} env (body : Op (option string * World) A) :
  (∀ x, triple (on_world (λ w, f w = x)) body
          (λ _, on_world (λ w, f w = x)) (on_world (λ w, f w = x))) →
  frame f (with_var None
             (try_finally body
                (tempDir ← get_var; lift (cleanup env tempDir)))).
Proof.
  intros Hbody w. unfold with_var, try_finally.
  specialize (Hbody (f w) (None, w) eq_refl).
  destruct (body (None, w)) as [c [var w']].
  assert (f w' = f w) as Hw' by (by destruct c).
  unfold get_var, lift. run_ops. cbn [fst snd].
  pose proof (frame_cleanup env var w') as Hc.
  destruct (cleanup env var w') as [[[]|e] w'']; cbn in *; congruence.
Qed.
End Frames.


Ltac frame_side := intros; reflexivity.

Ltac frame_step :=
  first
    [ apply frame_ret | apply frame_throw | apply frame_complete
    | apply frame_syscall
    | apply frame_add_debug; frame_side
    | apply frame_axios_post; frame_side
    | apply frame_readFile
    | apply frame_mkdtemp; frame_side
    | apply frame_writeFile; frame_side
    | apply frame_exec_pdftocairo; frame_side
    | apply frame_bind; [|intros ?]
    | apply frame_try_catch; [|intros ?]
    | match goal with
      | |- frame _ (if ?c then _ else _) => destruct c
      | |- frame _ (when ?c _) => unfold when; destruct c
      end ].

Ltac frames := unfold when; cbv zeta; repeat frame_step.

Ltac frame_body_step :=
  first
    [ eapply triple_bind;
      [ first [ apply frame_set_var | apply frame_guard
              | apply frame_lift; frames ]
      | intros ? ]
    | apply triple_ret; by intros ?
    | apply triple_throw; by intros ? ].

(** ** The controllers answer once *)

Lemma http_dual_analyzeImage env img ap lang vm tm :
  frame http (DualOCRService.analyzeImage env img ap lang vm tm).
Proof.
  intros w. rewrite dual_run_factored, merged_analysis_world. reflexivity.
Qed.

Lemma http_magic_analyzeImage env img p model :
  frame http (MagicOCRService.analyzeImage env img p model).
Proof. unfold MagicOCRService.analyzeImage. frames. Qed.

Lemma http_analyzeText env text prompt model :
  frame http (LLMService.analyzeText env text prompt model).
Proof. unfold LLMService.analyzeText. frames. Qed.

Lemma http_extractTextFromImage env img lang :
  frame http (OCRService.extractTextFromImage env img lang).
Proof. unfold OCRService.extractTextFromImage. frames. Qed.

Lemma http_extractTextFromPDF env pdf lang :
  frame http (OCRService.extractTextFromPDF env pdf lang).
Proof.
  unfold OCRService.extractTextFromPDF.
  apply frame_with_cleanup; [frame_side|]. intros x.
  apply (triple_catch _ _ _ (on_world (λ w, http w = x))).
  - repeat frame_body_step.
  - intros e. by apply triple_throw.
Qed.

Section Http.
Context (h0 : list (N * Body) * list thrown) (good : N → Body → Prop).

Lemma quiet_frame {A} (m : M A) :
  frame http m → triple (quiet h0) m (λ _, quiet h0) (quiet h0).
Proof.
  intros Hm w Hw. unfold quiet in *. specialize (Hm w).
  destruct (m w) as [[a|e] w']; cbn in *; congruence.
Qed.

Lemma quiet_yields {A} (m : M A) (Φ : A → Prop) :
  frame http m → yields m Φ →
  triple (quiet h0) m (λ a w, quiet h0 w ∧ Φ a) (quiet h0).
Proof.
  intros Hm HΦ w Hw. unfold quiet in *. specialize (Hm w).
  specialize (HΦ w I).
  destruct (m w) as [[a|e] w']; cbn in *; [split|]; congruence.
Qed.

Lemma quiet_answer c b (Pure : Prop) :
  (Pure → good c b) →
  triple (λ w, quiet h0 w ∧ Pure) (res_json c b)
    (λ _, answered h0 good) (quiet h0).
Proof.
  intros Hgood w [Hw HP]. unfold quiet, http in Hw. subst h0.
  exists c, b. split; [reflexivity|auto].
Qed.

Lemma quiet_answer_now c b :
  good c b →
  triple (quiet h0) (res_json c b) (λ _, answered h0 good) (quiet h0).
Proof.
  intros Hgood w Hw. unfold quiet, http in Hw. subst h0.
  exists c, b. split; [reflexivity|done].
Qed.

Lemma quiet_forward e :
  triple (quiet h0) (next e)
    (λ _ w, answered h0 good w ∨ forwarded_one h0 w) (λ _, False).
Proof.
  intros w Hw. unfold quiet, http in Hw. subst h0. right. by exists e.
Qed.

(** The same for bodies with a local variable. *)
Lemma triple_lift_world {L A} (P : World → Prop) (m : M A) Q E :
  triple P m Q E →
  triple (on_world (L := L) P) (lift m) (λ a, on_world (Q a)) (on_world E).
Proof.
  intros Hm [var w] Hs. unfold lift, on_world in *. cbn [fst snd] in *.
  specialize (Hm w Hs). by destruct (m w) as [[a|e] w'].
Qed.

Lemma quiet_set_var {L} (v : L) :
  triple (on_world (quiet h0)) (set_var v)
    (λ _, on_world (quiet h0)) (on_world (quiet h0)).
Proof. by intros [var w] Hs. Qed.

(** A body that answers once or throws without having sent anything,
    under the [catch] that forwards and the cleaning [finally]: the
    controller returns, having answered once or forwarded once. *)
Lemma controller_with_cleanup env (body : Op (option string * World) unit) w :
  triple (on_world (quiet h0)) body
    (λ _, on_world (answered h0 good)) (on_world (quiet h0)) →
  quiet h0 w →
  ∃ w',
    with_var None
      (try_finally (try_catch body (λ error, lift (next error)))
         (tempDir ← get_var; lift (cleanup env tempDir))) w
    = (Normal (), w')
    ∧ (answered h0 good w' ∨ forwarded_one h0 w').
Proof.
  intros Hbody Hw. unfold with_var, try_finally, try_catch.
  specialize (Hbody (None, w) Hw).
  destruct (body (None, w)) as [[[]|e] [var w1]].
  - unfold get_var, lift. run_ops. cbn [fst snd].
    pose proof (frame_cleanup http ltac:(frame_side) env var w1) as Hc.
    destruct (cleanup_returns env (var, w1)) as [s' Hs'].
    unfold get_var, lift in Hs'. revert Hs'. run_ops. cbn [fst snd].
    destruct (cleanup env var w1) as [[[]|e] w2]; [|done]. intros _.
    eexists. split; [reflexivity|]. left.
    unfold on_world, answered in *. cbn [snd] in *. by rewrite Hc.
  - unfold lift at 1. cbn [fst snd next modify].
    unfold get_var, lift. run_ops. cbn [fst snd].
    set (w2 := add_forwarded e w1).
    pose proof (frame_cleanup http ltac:(frame_side) env var w2) as Hc.
    destruct (cleanup_returns env (var, w2)) as [s' Hs'].
    unfold get_var, lift in Hs'. revert Hs'. run_ops. cbn [fst snd].
    destruct (cleanup env var w2) as [[[]|e'] w3]; [|done]. intros _.
    eexists. split; [reflexivity|]. right.
    unfold on_world, quiet, forwarded_one, http in *. cbn [snd] in *.
    exists e. rewrite Hc. subst w2 h0. reflexivity.
Qed.

(** The same without a [finally] block. *)
Lemma controller_plain (body : M unit) w :
  triple (quiet h0) body (λ _, answered h0 good) (quiet h0) →
  quiet h0 w →
  ∃ w',
    try_catch body (λ error, next error) w = (Normal (), w')
    ∧ (answered h0 good w' ∨ forwarded_one h0 w').
Proof.
  intros Hbody Hw. unfold try_catch. specialize (Hbody w Hw).
  destruct (body w) as [[[]|e] w1].
  - eexists. split; [reflexivity|by left].
  - eexists. split; [reflexivity|]. right. exists e.
    unfold quiet, http in *. subst h0. reflexivity.
Qed.
End Http.

Lemma hybrid_analyzeImage_yields env img ap vm tm :
  yields (HybridService.analyzeImage env img ap vm tm)
    (λ r, summary r ≠ [] ∧ trim (summary r) = summary r).
Proof.
  unfold HybridService.analyzeImage. cbv zeta. repeat yields_step.
  - apply yields_ret. by apply guarded_response_ok.
  - repeat (destruct (_ && _)); apply yields_throw.
Qed.

Lemma vision_analyzeImage_yields env img prompt model :
  yields (VisionService.analyzeImage env img prompt model)
    (λ r, summary r ≠ [] ∧ trim (summary r) = summary r).
Proof.
  unfold VisionService.analyzeImage. cbv zeta. repeat yields_step.
  - apply yields_ret. by apply guarded_response_ok.
  - repeat (destruct (_ && _)); apply yields_throw.
Qed.

Lemma magic_analyzeImage_yields env img p model :
  yields (MagicOCRService.analyzeImage env img p model)
    (λ r, summary r ≠ [] ∧ trim (summary r) = summary r).
Proof.
  unfold MagicOCRService.analyzeImage. cbv zeta. repeat yields_step.
  - apply yields_ret. by apply guarded_response_ok.
  - repeat (destruct (_ && _)); apply yields_throw.
Qed.

Lemma well_formed_missing_file :
  well_formed_response 400
    (ErrorBody (lit "No file uploaded") (lit "MISSING_FILE")).
Proof. left. split; [done|]. eexists. by left. Qed.

Lemma well_formed_unsupported fileType :
  well_formed_response 400
    (ErrorBody (lit "Unsupported file type: " ++ fileType)
       (lit "UNSUPPORTED_FILE_TYPE")).
Proof. left. split; [done|]. eexists. by right. Qed.

Lemma well_formed_analysis (a : jsstring) (n : nat) model fileType :
  a ≠ [] ∧ trim a = a → (0 < n)%nat →
  well_formed_response 200 (AnalysisBody a n model fileType).
Proof. intros [Ha Ht] Hn. right. split; [done|]. by exists a, n, model, fileType. Qed.

Lemma length_pos (s : jsstring) : s ≠ [] → (0 < length s)%nat.
Proof. destruct s; [done|]. cbn. lia. Qed.

Ltac quiet_lift h0 :=
  eapply triple_bind;
  [ first
      [ apply quiet_set_var
      | apply (triple_lift_world (quiet h0) _ (λ _, quiet h0) (quiet h0));
        apply quiet_frame; solve [frames] ]
  | intros ? ].

Lemma documentVL_outcome env req w (good : N → Body → Prop) :
  (file req = None →
   good 400 (ErrorBody (lit "No file uploaded") (lit "MISSING_FILE"))) →
  (∀ fileType buffer,
     file req = Some (fileType, buffer) →
     fileType ≠ lit "application/pdf" →
     startsWith (lit "image/") fileType = false →
     good 400 (ErrorBody (lit "Unsupported file type: " ++ fileType)
                 (lit "UNSUPPORTED_FILE_TYPE"))) →
  (∀ fileType buffer (a : jsstring),
     file req = Some (fileType, buffer) →
     a ≠ [] ∧ trim a = a →
     good 200
       (AnalysisBody a (length a)
          (lit "Tesseract + " ++ or_default (x_model req) (lit "gemma3:4b")
             ++ lit " + llama3.2:3b")
          fileType)) →
  ∃ w',
    DocumentVLController.analyzeDocument env req w = (Normal (), w')
    ∧ (answered (http w) good w' ∨ forwarded_one (http w) w').
Proof.
  intros Hmissing Hunsupported Hok.
  unfold DocumentVLController.analyzeDocument.
  apply controller_with_cleanup; [|reflexivity].
  set (h0 := http w). clearbody h0.
  assert (∀ fileType buffer img, file req = Some (fileType, buffer) →
    triple (on_world (L := option string) (quiet h0))
      (dualOCRResult ← lift
         (DualOCRService.analyzeImage env img
            (Some (or_default (x_prompt req)
               (lit "Extract all text and data from this document and return as structured JSON.")))
            (or_default (x_language req) (lit "eng")) (x_model req) None);
       lift (res_json 200
         (AnalysisBody (summary dualOCRResult)
            (length (summary dualOCRResult))
            (lit "Tesseract + " ++ or_default (x_model req) (lit "gemma3:4b")
               ++ lit " + llama3.2:3b")
            fileType)))
      (λ _, on_world (answered h0 good))
      (on_world (quiet h0))) as Hanalyze.
  { intros fileType buffer img Hfile. eapply triple_bind.
    - apply (triple_lift_world (quiet h0) _
               (λ r w, quiet h0 w
                       ∧ (summary r ≠ [] ∧ trim (summary r) = summary r))
               (quiet h0)).
      apply quiet_yields;
        [apply http_dual_analyzeImage | apply dual_analyzeImage_yields].
    - intros r.
      apply (triple_lift_world _ _ (λ _, answered h0 good)
               (quiet h0)).
      apply quiet_answer. intros H. by eapply Hok. }
  destruct (file req) as [[fileType buffer]|] eqn:Hfile; cbv zeta.
  - case_bool_decide; [|destruct (startsWith _ _) eqn:Himage].
    + repeat quiet_lift h0. by eapply Hanalyze.
    + by eapply Hanalyze.
    + apply (triple_lift_world _ _ (λ _, answered h0 good)
               (quiet h0)).
      by eapply quiet_answer_now, Hunsupported.
  - apply (triple_lift_world _ _ (λ _, answered h0 good)
             (quiet h0)).
    by apply quiet_answer_now, Hmissing.
Qed.

Lemma quiet_yields_pure h0 {A} (m : M A) (Φ : A → Prop) (Pure : Prop) :
  frame http m → yields m Φ →
  triple (λ w, quiet h0 w ∧ Pure) m
    (λ a w, quiet h0 w ∧ (Pure ∧ Φ a)) (quiet h0).
Proof.
  intros Hm HΦ w [Hw HP]. unfold quiet in *. specialize (Hm w).
  specialize (HΦ w I).
  destruct (m w) as [[a|e] w']; cbn in *; [split; [|split]|]; congruence.
Qed.

Lemma magicOCR_outcome env req w (good : N → Body → Prop) :
  (file req = None →
   good 400 (ErrorBody (lit "No file uploaded") (lit "MISSING_FILE"))) →
  (∀ fileType buffer,
     file req = Some (fileType, buffer) →
     fileType ≠ lit "application/pdf" →
     startsWith (lit "image/") fileType = false →
     good 400 (ErrorBody (lit "Unsupported file type: " ++ fileType)
                 (lit "UNSUPPORTED_FILE_TYPE"))) →
  (∀ fileType buffer (a : jsstring),
     file req = Some (fileType, buffer) →
     a ≠ [] ∧ trim a = a →
     good 200
       (AnalysisBody a (length a)
          (or_default (x_model req) (lit "gemma3:4b")) fileType)) →
  ∃ w',
    MagicOCRController.analyzeDocument env req w = (Normal (), w')
    ∧ (answered (http w) good w' ∨ forwarded_one (http w) w').
Proof.
  intros Hmissing Hunsupported Hok.
  unfold MagicOCRController.analyzeDocument.
  apply controller_with_cleanup; [|reflexivity].
  set (h0 := http w). clearbody h0.
  assert (∀ fileType buffer img, file req = Some (fileType, buffer) →
    triple (on_world (L := option string) (quiet h0))
      (ocrResult ← lift
         (MagicOCRService.analyzeImage env img
            (Some (or_default (x_prompt req)
               (lit "Extract all text and data from this document and return as structured JSON.")))
            (x_model req));
       lift (res_json 200
         (AnalysisBody (summary ocrResult) (length (summary ocrResult))
            (or_default (x_model req) (lit "gemma3:4b")) fileType)))
      (λ _, on_world (answered h0 good))
      (on_world (quiet h0))) as Hanalyze.
  { intros fileType buffer img Hfile. eapply triple_bind.
    - apply (triple_lift_world (quiet h0) _
               (λ r w, quiet h0 w
                       ∧ (summary r ≠ [] ∧ trim (summary r) = summary r))
               (quiet h0)).
      apply quiet_yields;
        [apply http_magic_analyzeImage | apply magic_analyzeImage_yields].
    - intros r.
      apply (triple_lift_world _ _ (λ _, answered h0 good)
               (quiet h0)).
      apply quiet_answer. intros H. by eapply Hok. }
  destruct (file req) as [[fileType buffer]|] eqn:Hfile; cbv zeta.
  - case_bool_decide; [|destruct (startsWith _ _) eqn:Himage].
    + do 5 quiet_lift h0. by eapply Hanalyze.
    + by eapply Hanalyze.
    + apply (triple_lift_world _ _ (λ _, answered h0 good)
               (quiet h0)).
      by eapply quiet_answer_now, Hunsupported.
  - apply (triple_lift_world _ _ (λ _, answered h0 good)
             (quiet h0)).
    by apply quiet_answer_now, Hmissing.
Qed.

Lemma document_outcome env defaultPrompt req w (good : N → Body → Prop) :
  (file req = None →
   good 400 (ErrorBody (lit "No file uploaded") (lit "MISSING_FILE"))) →
  (∀ fileType buffer,
     file req = Some (fileType, buffer) →
     fileType ≠ lit "application/pdf" →
     startsWith (lit "image/") fileType = false →
     good 400 (ErrorBody (lit "Unsupported file type: " ++ fileType)
                 (lit "UNSUPPORTED_FILE_TYPE"))) →
  (∀ fileType buffer (a t : jsstring),
     file req = Some (fileType, buffer) →
     a ≠ [] ∧ trim a = a → t ≠ [] ∧ trim t = t →
     good 200
       (AnalysisBody a (length t)
          (or_default (x_model req) (lit "llama3.2:3b")) fileType)) →
  ∃ w',
    DocumentController.analyzeDocument env defaultPrompt req w
    = (Normal (), w')
    ∧ (answered (http w) good w' ∨ forwarded_one (http w) w').
Proof.
  intros Hmissing Hunsupported Hok.
  unfold DocumentController.analyzeDocument.
  apply controller_plain; [|reflexivity].
  set (h0 := http w). clearbody h0.
  assert (∀ fileType buffer (extract : M OCRResult),
    file req = Some (fileType, buffer) →
    frame http extract →
    yields extract (λ r, text r ≠ [] ∧ trim (text r) = text r) →
    triple (quiet h0)
      (ocrResult ← extract;
       llmResult ← LLMService.analyzeText env (text ocrResult)
         (or_default (x_prompt req) defaultPrompt) (x_model req);
       res_json 200
         (AnalysisBody (summary llmResult) (length (text ocrResult))
            (or_default (x_model req) (lit "llama3.2:3b")) fileType))
      (λ _, answered h0 good) (quiet h0)) as Hanalyze.
  { intros fileType buffer extract Hfile Hframe Hyields. eapply triple_bind.
    - apply (quiet_yields h0 _ _ Hframe Hyields).
    - intros ocr. eapply triple_bind.
      + apply quiet_yields_pure;
          [apply http_analyzeText | apply analyzeText_yields].
      + intros llm. apply quiet_answer. intros [Hocr Hllm].
        by eapply Hok. }
  destruct (file req) as [[fileType buffer]|] eqn:Hfile; cbv zeta.
  - case_bool_decide; [|destruct (startsWith _ _) eqn:Himage].
    + eapply Hanalyze;
        [done | apply http_extractTextFromPDF
        | apply extractTextFromPDF_yields].
    + eapply Hanalyze;
        [done | apply http_extractTextFromImage
        | apply extractTextFromImage_yields].
    + by eapply quiet_answer_now, Hunsupported.
  - by apply quiet_answer_now, Hmissing.
Qed.

Lemma controllers_outcome env defaultPrompt req w (run : M unit) :
  run = DocumentController.analyzeDocument env defaultPrompt req
  ∨ run = DocumentVLController.analyzeDocument env req
  ∨ run = MagicOCRController.analyzeDocument env req →
  ∃ w', run w = (Normal (), w')
    ∧ (answered (http w) well_formed_response w'
       ∨ forwarded_one (http w) w').
Proof.
  intros [-> | [-> | ->]];
    [apply document_outcome | apply documentVL_outcome
    | apply magicOCR_outcome];
    intros; first [ apply well_formed_missing_file
                  | apply well_formed_unsupported
                  | apply well_formed_analysis;
                    [ done
                    | match goal with
                      | H : ?t ≠ [] ∧ _ |- (0 < length ?t)%nat =>
                          apply length_pos, H
                      end ] ].
Qed.

(** X5. Each analysis controller (document, document-vl, magic-ocr)
    returns without throwing and, on every path, has done exactly one of
    two things: sent one response, or passed one error to [next]; it
    never does both and never neither. *)
Theorem controllers_answer_once env defaultPrompt req w :
  ∀ run : M unit,
    run = DocumentController.analyzeDocument env defaultPrompt req
    ∨ run = DocumentVLController.analyzeDocument env req
    ∨ run = MagicOCRController.analyzeDocument env req →
    ∃ w', run w = (Normal (), w')
      ∧ ((∃ r, responses w' = r :: responses w
               ∧ forwarded w' = forwarded w)
         ∨ (∃ e, responses w' = responses w
                 ∧ forwarded w' = e :: forwarded w)).
Proof.
  intros run Hrun.
  destruct (controllers_outcome env defaultPrompt req w run Hrun)
    as (w' & Hw' & Hdone).
  exists w'. split; [done|].
  destruct Hdone as [(c & b & [= Hr Hf] & _)|(e & [= Hr Hf])]; eauto.
Qed.

Lemma controllers_answer_once_witness :
  ∃ w',
    DocumentVLController.analyzeDocument
      (sample_env (Normal (lit "INVOICE #123")) (0, Throw backend_down)
         (0, Normal (Some (lit "{}"))))
      (mkRequest None None None None) empty_world
    = (Normal (), w').
Proof.
  destruct (controllers_answer_once
    (sample_env (Normal (lit "INVOICE #123")) (0, Throw backend_down)
       (0, Normal (Some (lit "{}"))))
    [] (mkRequest None None None None) empty_world _
    (or_intror (or_introl eq_refl))) as (w' & H & _).
  by exists w'.
Defined.

(** X6. A response of an analysis controller is either a 400 (missing
    file or unsupported type) or a 200 whose analysis is non-empty and
    equal to its trim and whose text length is positive; a failure of
    OCR or of a model is never answered by the controller itself. *)
Theorem controllers_responses_well_formed env defaultPrompt req w c b :
  ∀ run : M unit,
    run = DocumentController.analyzeDocument env defaultPrompt req
    ∨ run = DocumentVLController.analyzeDocument env req
    ∨ run = MagicOCRController.analyzeDocument env req →
    responses (run w).2 = (c, b) :: responses w →
    well_formed_response c b.
Proof.
  intros run Hrun.
  destruct (controllers_outcome env defaultPrompt req w run Hrun)
    as (w' & Hw' & Hdone).
  rewrite Hw'. cbn [snd]. intros Hresp.
  destruct Hdone as [(c' & b' & [= Hr Hf] & Hgood)|(e & [= Hr Hf])].
  - rewrite Hr in Hresp. by injection Hresp as <- <-.
  - rewrite Hr in Hresp. exfalso.
    apply (f_equal length) in Hresp. cbn in Hresp. lia.
Qed.

Lemma controllers_responses_well_formed_witness :
  well_formed_response 400
    (ErrorBody (lit "No file uploaded") (lit "MISSING_FILE")).
Proof.
  refine (controllers_responses_well_formed
    (sample_env (Normal (lit "INVOICE #123")) (0, Throw backend_down)
       (0, Normal (Some (lit "{}"))))
    [] (mkRequest None None None None) empty_world 400
    (ErrorBody (lit "No file uploaded") (lit "MISSING_FILE")) _
    (or_intror (or_introl eq_refl)) _).
  vm_compute. reflexivity.
Defined.

(** ** Uploads *)

Lemma default_allowedMimeTypes :
  allowedMimeTypes None
  = [lit "application/pdf"; lit "image/png"; lit "image/jpeg"].
Proof. reflexivity. Qed.

(** X7. With the default configuration the upload filter accepts only
    the three MIME types application/pdf, image/png and image/jpeg, and
    a file it accepts is always taken to analysis by the three
    controllers: if they answer it at all, they answer with 200, never
    with 400. *)
Theorem default_filter_admits_supported (mimetype : jsstring) :
  fileFilter (allowedMimeTypes None) mimetype = Normal true →
  (mimetype = lit "application/pdf" ∨ mimetype = lit "image/png"
   ∨ mimetype = lit "image/jpeg")
  ∧ ∀ env defaultPrompt buffer prompt model language w (run : M unit) c b,
      run = DocumentController.analyzeDocument env defaultPrompt
              (mkRequest (Some (mimetype, buffer)) prompt model language)
      ∨ run = DocumentVLController.analyzeDocument env
                (mkRequest (Some (mimetype, buffer)) prompt model language)
      ∨ run = MagicOCRController.analyzeDocument env
                (mkRequest (Some (mimetype, buffer)) prompt model language) →
      responses (run w).2 = (c, b) :: responses w → c = 200.
Proof.
  unfold fileFilter. rewrite default_allowedMimeTypes.
  case_bool_decide as Hin; [intros _|done].
  assert (mimetype = lit "application/pdf" ∨ mimetype = lit "image/png"
          ∨ mimetype = lit "image/jpeg") as Hm.
  { rewrite !elem_of_cons in Hin. rewrite elem_of_nil in Hin. tauto. }
  split; [exact Hm|].
  intros env defaultPrompt buffer prompt model language w run c b Hrun.
  assert (∃ w', run w = (Normal (), w')
            ∧ (answered (http w) (λ c _, c = 200) w'
               ∨ forwarded_one (http w) w')) as (w' & -> & Hdone).
  { destruct Hrun as [-> | [-> | ->]];
      [apply document_outcome | apply documentVL_outcome
      | apply magicOCR_outcome]; try done;
      intros fileType buf [= <- <-] Hpdf Himage;
      destruct Hm as [-> | [-> | ->]]; done. }
  cbn [snd]. intros Hresp.
  destruct Hdone as [(c' & b' & [= Hr Hf] & Hgood)|(e & [= Hr Hf])].
  - rewrite Hr in Hresp. by injection Hresp as <- <-.
  - rewrite Hr in Hresp. exfalso.
    apply (f_equal length) in Hresp. cbn in Hresp. lia.
Qed.

Lemma default_filter_admits_supported_witness :
  lit "image/png" = lit "application/pdf" ∨ lit "image/png" = lit "image/png"
  ∨ lit "image/png" = lit "image/jpeg".
Proof.
  refine (proj1 (default_filter_admits_supported (lit "image/png") _)).
  vm_compute. reflexivity.
Defined.

(** X8. A request without a file, or with a file that is neither a PDF
    nor an image, is answered by each controller with one 400 response
    and nothing else happens: no request to the backend, no temporary
    directory, no debug file, no forwarded error. *)
Theorem rejected_uploads_touch_nothing env defaultPrompt req w (run : M unit) :
  run = DocumentController.analyzeDocument env defaultPrompt req
  ∨ run = DocumentVLController.analyzeDocument env req
  ∨ run = MagicOCRController.analyzeDocument env req →
  file req = None
  ∨ (∃ fileType buffer,
       file req = Some (fileType, buffer)
       ∧ fileType ≠ lit "application/pdf"
       ∧ startsWith (lit "image/") fileType = false) →
  ∃ message code,
    (code = lit "MISSING_FILE" ∨ code = lit "UNSUPPORTED_FILE_TYPE")
    ∧ run w = (Normal (), add_response (400, ErrorBody message code) w).
Proof.
  intros Hrun [Hfile|(fileType & buffer & Hfile & Hpdf & Himage)].
  - exists (lit "No file uploaded"), (lit "MISSING_FILE").
    split; [by left|].
    destruct Hrun as [-> | [-> | ->]];
      unfold DocumentController.analyzeDocument,
        DocumentVLController.analyzeDocument,
        MagicOCRController.analyzeDocument;
      rewrite Hfile; reflexivity.
  - exists (lit "Unsupported file type: " ++ fileType),
      (lit "UNSUPPORTED_FILE_TYPE").
    split; [by right|].
    destruct Hrun as [-> | [-> | ->]];
      unfold DocumentController.analyzeDocument,
        DocumentVLController.analyzeDocument,
        MagicOCRController.analyzeDocument;
      rewrite Hfile; cbv zeta; rewrite bool_decide_eq_false_2, Himage by done;
      reflexivity.
Qed.

Lemma rejected_uploads_touch_nothing_witness :
  ∃ message code,
    (code = lit "MISSING_FILE" ∨ code = lit "UNSUPPORTED_FILE_TYPE")
    ∧ MagicOCRController.analyzeDocument
        (sample_env (Normal (lit "INVOICE #123")) (0, Throw backend_down)
           (0, Throw backend_down))
        (mkRequest (Some (lit "text/plain", [104; 105])) None None None)
        empty_world
      = (Normal (),
         add_response (400, ErrorBody message code) empty_world).
Proof.
  refine (rejected_uploads_touch_nothing
    (sample_env (Normal (lit "INVOICE #123")) (0, Throw backend_down)
       (0, Throw backend_down))
    [] (mkRequest (Some (lit "text/plain", [104; 105])) None None None)
    empty_world _ (or_intror (or_intror eq_refl)) _).
  right. exists (lit "text/plain"), [104; 105].
  split; [reflexivity|]. split; [by vm_compute|reflexivity].
Defined.

(** ** The document controller and the temporary directory *)

Lemma keeps_analyzeText env text prompt model :
  keeps_tmpfs (LLMService.analyzeText env text prompt model).
Proof. unfold LLMService.analyzeText. keeps. Qed.

Lemma keeps_extractTextFromImage env img lang :
  keeps_tmpfs (OCRService.extractTextFromImage env img lang).
Proof. unfold OCRService.extractTextFromImage. keeps. Qed.

(** X9. Provided the removal call itself does not fail, the document
    controller (OCR, then text analysis) leaves the temporary directory
    tree as it found it, whatever the request and whatever fails. *)
Theorem document_controller_restores_tmpfs env defaultPrompt req w :
  fault env RmTemp = None →
  tmpfs (DocumentController.analyzeDocument env defaultPrompt req w).2
  = tmpfs w.
Proof.
  intros Hrm. revert w.
  change (keeps_tmpfs (DocumentController.analyzeDocument env defaultPrompt req)).
  unfold DocumentController.analyzeDocument.
  apply keeps_try_catch; [|intros e; apply keeps_next].
  destruct (file req) as [[fileType buffer]|]; [|apply keeps_res_json].
  cbv zeta. case_bool_decide; [|destruct (startsWith _ _)].
  - apply keeps_bind.
    + intros w. by apply extractTextFromPDF_restores_tmpfs.
    + intros ocr. apply keeps_bind; [apply keeps_analyzeText|].
      intros llm. apply keeps_res_json.
  - apply keeps_bind; [apply keeps_extractTextFromImage|].
    intros ocr. apply keeps_bind; [apply keeps_analyzeText|].
    intros llm. apply keeps_res_json.
  - apply keeps_res_json.
Qed.

Lemma document_controller_restores_tmpfs_witness :
  tmpfs (DocumentController.analyzeDocument
           (sample_env (Normal (lit "INVOICE #123")) (0, Throw backend_down)
              (0, Normal (Some (lit "{}"))))
           (lit "Summarise.")
           (mkRequest (Some (lit "application/pdf", [37; 80; 68; 70]))
              None None None)
           empty_world).2
  = tmpfs empty_world.
Proof.
  refine (document_controller_restores_tmpfs
    (sample_env (Normal (lit "INVOICE #123")) (0, Throw backend_down)
       (0, Normal (Some (lit "{}"))))
    (lit "Summarise.")
    (mkRequest (Some (lit "application/pdf", [37; 80; 68; 70]))
       None None None)
    empty_world _).
  reflexivity.
Defined.

(** ** Requests and outcome of a dual run *)

Lemma dual_run_world env img ap lang vm tm w :
  (DualOCRService.analyzeImage env img ap lang vm tm w).2
  = add_post (dual_text_request env img ap lang vm tm w)
      (add_post (dual_vision_request env img vm) w).
Proof. by rewrite dual_run_factored, merged_analysis_world. Qed.

(** X10. Every dual run posts exactly two requests to the backend, the
    vision request with the image first and the text request second,
    and changes nothing else in the world; no request is repeated. *)
Theorem dual_run_posts_two_requests env img ap lang vm tm w :
  (DualOCRService.analyzeImage env img ap lang vm tm w).2
  = add_post (dual_text_request env img ap lang vm tm w)
      (add_post (dual_vision_request env img vm) w).
Proof. apply dual_run_world. Qed.

Lemma dual_run_outcome env img ap lang vm tm w :
  (DualOCRService.analyzeImage env img ap lang vm tm w).1
  = match ollama env (dual_text_request env img ap lang vm tm w) with
    | (latency, answer) =>
        if (0 <? ollama_timeout (config env))
           && (ollama_timeout (config env) <? latency)
        then Throw (Error (lit "Dual OCR processing request timed out"))
        else match answer with
             | Normal r =>
                 if truthy (response_text r)
                 then Normal (mkLLMResult (response_text r) (elapsed env))
                 else Throw (Error (lit "Failed to process with dual OCR: "
                                      ++ lit "Text model returned empty analysis"))
             | Throw error =>
                 if isAxiosError error && code_is error ECONNABORTED
                 then Throw (Error (lit "Dual OCR processing request timed out"))
                 else if isAxiosError error && status_is error 404
                 then Throw (Error (lit "Model not found - ensure both vision and text models are available"))
                 else Throw (Error (lit "Failed to process with dual OCR: "
                                      ++ message_or_unknown error))
             end
  end.
Proof.
  rewrite dual_run_factored. unfold merged_analysis, dual_text_request.
  run_ops. rewrite combineOCRResults_truthy. cbn [negb].
  destruct (ollama env _) as [lat ans].
  destruct (_ && _); cbn; [done|].
  destruct ans as [r|e]; cbn.
  - by destruct (truthy (response_text r)).
  - by repeat (destruct (_ && _)).
Qed.

(** X11. A dual run succeeds whenever the text model answers in time
    with text that is not blank, whatever happened to the two
    extraction branches (also when both failed or the vision branch
    timed out); its summary is the trimmed answer. *)
Theorem dual_run_succeeds_with_text_model env img ap lang vm tm w r :
  ¬ exceeds_timeout env (dual_text_request env img ap lang vm tm w)
      (ollama_timeout (config env)) →
  (ollama env (dual_text_request env img ap lang vm tm w)).2 = Normal r →
  response_text r ≠ [] →
  (DualOCRService.analyzeImage env img ap lang vm tm w).1
  = Normal (mkLLMResult (response_text r) (elapsed env)).
Proof.
  intros Hto%exceeds_timeout_false Hans Hr%truthy_true.
  rewrite dual_run_outcome.
  destruct (ollama env _) as [lat ans]. cbn [fst snd] in *.
  by rewrite Hto, Hans, Hr.
Qed.

Lemma dual_run_succeeds_with_text_model_witness :
  (DualOCRService.analyzeImage
     (sample_env (Throw engine_crash) (90000, Normal (Some (lit "late")))
        (10, Normal (Some (lit " {} "))))
     [137; 80; 78; 71] None (lit "eng") None None empty_world).1
  = Normal (mkLLMResult (response_text (Some (lit " {} "))) 150).
Proof.
  refine (dual_run_succeeds_with_text_model
    (sample_env (Throw engine_crash) (90000, Normal (Some (lit "late")))
       (10, Normal (Some (lit " {} "))))
    [137; 80; 78; 71] None (lit "eng") None None empty_world
    (Some (lit " {} ")) _ _ _).
  - intros [_ H]. vm_compute in H. discriminate.
  - vm_compute. reflexivity.
  - vm_compute. discriminate.
Defined.

(** X12. A dual run fails with the time-out failure whenever the call
    of the text model exceeds [config.ollama.timeout], whatever the two
    extraction branches did. *)
Theorem dual_text_model_timeout env img ap lang vm tm w :
  exceeds_timeout env (dual_text_request env img ap lang vm tm w)
    (ollama_timeout (config env)) →
  (DualOCRService.analyzeImage env img ap lang vm tm w).1
  = Throw (Error (lit "Dual OCR processing request timed out")).
Proof.
  intros Hto%exceeds_timeout_true. rewrite dual_run_outcome.
  destruct (ollama env _) as [lat ans]. cbn [fst snd] in *.
  by rewrite Hto.
Qed.

Lemma dual_text_model_timeout_witness :
  (DualOCRService.analyzeImage
     (sample_env (Normal (lit "INVOICE #123")) (10, Normal (Some (lit "x")))
        (60001, Normal (Some (lit "{}"))))
     [137; 80; 78; 71] None (lit "eng") None None empty_world).1
  = Throw (Error (lit "Dual OCR processing request timed out")).
Proof.
  refine (dual_text_model_timeout
    (sample_env (Normal (lit "INVOICE #123")) (10, Normal (Some (lit "x")))
       (60001, Normal (Some (lit "{}"))))
    [137; 80; 78; 71] None (lit "eng") None None empty_world _).
  split; vm_compute; reflexivity.
Defined.

(** ** The hybrid and magic-OCR services *)

(** X13. When the vision model of the hybrid service answers in time
    with text that is blank, the service fails at once: the vision
    request is the only request posted, the text model is never called,
    and the failure names the empty vision text. *)
Theorem hybrid_empty_vision_fails_fast env img ap vm tm w optimizedImage r :
  sharp_toBuffer env img HybridService.resizeOptions HybridService.jpegOptions
  = Normal optimizedImage →
  ¬ exceeds_timeout env
      (mkPost (or_default vm (lit "gemma3:4b"))
         (lit "Extract all text from this image. Return only the raw text without any formatting or additional comments.")
         [base64 env optimizedImage])
      (ollama_visionTimeout (config env)) →
  (ollama env
     (mkPost (or_default vm (lit "gemma3:4b"))
        (lit "Extract all text from this image. Return only the raw text without any formatting or additional comments.")
        [base64 env optimizedImage])).2 = Normal r →
  response_text r = [] →
  HybridService.analyzeImage env img ap vm tm w
  = (Throw (Error (lit "Failed to process with hybrid approach: "
                     ++ lit "Vision model returned empty text - image may be blank, corrupted, or model failed")),
     add_post
       (mkPost (or_default vm (lit "gemma3:4b"))
          (lit "Extract all text from this image. Return only the raw text without any formatting or additional comments.")
          [base64 env optimizedImage])
       w).
Proof.
  intros Hsharp Hto%exceeds_timeout_false Hans Hr.
  unfold HybridService.analyzeImage. run_ops. rewrite Hsharp.
  destruct (ollama env _) as [lat ans]. cbn [fst snd] in *.
  rewrite Hto, Hans. cbn. by rewrite Hr.
Qed.

Lemma hybrid_empty_vision_fails_fast_witness :
  text_model_calls
    (HybridService.analyzeImage
       (sample_env (Throw engine_crash) (10, Normal (Some [32; 10]))
          (10, Normal (Some (lit "{}"))))
       [137; 80; 78; 71] None None None empty_world).2 = [].
Proof.
  rewrite (hybrid_empty_vision_fails_fast
    (sample_env (Throw engine_crash) (10, Normal (Some [32; 10]))
       (10, Normal (Some (lit "{}"))))
    [137; 80; 78; 71] None None None empty_world [137; 80; 78; 71]
    (Some [32; 10])).
  - reflexivity.
  - reflexivity.
  - intros [_ H]. vm_compute in H. discriminate.
  - reflexivity.
  - reflexivity.
Defined.

(** X14. When sharp cannot produce the optimised image, the hybrid and
    the magic-OCR service fail without posting any request: the world
    is unchanged and the failure carries sharp's message. *)
Theorem undecodable_image_posts_nothing env img ap vm tm w e :
  sharp_toBuffer env img HybridService.resizeOptions HybridService.jpegOptions
  = Throw e →
  isAxiosError e = false →
  HybridService.analyzeImage env img ap vm tm w
  = (Throw (Error (lit "Failed to process with hybrid approach: "
                     ++ message_or_unknown e)), w)
  ∧ MagicOCRService.analyzeImage env img ap vm w
    = (Throw (Error (lit "Failed to extract text with Magic OCR model: "
                       ++ message_or_unknown e)), w).
Proof.
  intros Hsharp Haxios. split.
  - unfold HybridService.analyzeImage. run_ops. rewrite Hsharp. cbn.
    by rewrite Haxios.
  - unfold MagicOCRService.analyzeImage, MagicOCRService.resizeOptions,
      MagicOCRService.jpegOptions.
    unfold HybridService.resizeOptions, HybridService.jpegOptions in Hsharp.
    run_ops. rewrite Hsharp. cbn. by rewrite Haxios.
Qed.

(** X15. The successful path of the hybrid service: the vision request
    carries the base64 text of the optimised image (not of the
    original), the text request carries the instruction, the line
    "Document text:" and the trimmed vision text, and the summary is the
    trimmed answer of the text model. *)
Theorem hybrid_success env img ap vm tm w optimizedImage r1 r2 :
  sharp_toBuffer env img HybridService.resizeOptions HybridService.jpegOptions
  = Normal optimizedImage →
  ¬ exceeds_timeout env
      (mkPost (or_default vm (lit "gemma3:4b"))
         (lit "Extract all text from this image. Return only the raw text without any formatting or additional comments.")
         [base64 env optimizedImage])
      (ollama_visionTimeout (config env)) →
  (ollama env
     (mkPost (or_default vm (lit "gemma3:4b"))
        (lit "Extract all text from this image. Return only the raw text without any formatting or additional comments.")
        [base64 env optimizedImage])).2 = Normal r1 →
  response_text r1 ≠ [] →
  ¬ exceeds_timeout env
      (mkPost (or_default tm (ollama_model (config env)))
         (or_default ap
            (lit "Analyze the following document text and extract key information as structured JSON. Return only valid JSON without markdown formatting.")
          ++ nl ++ nl ++ lit "Document text:" ++ nl ++ response_text r1)
         [])
      (ollama_timeout (config env)) →
  (ollama env
     (mkPost (or_default tm (ollama_model (config env)))
        (or_default ap
           (lit "Analyze the following document text and extract key information as structured JSON. Return only valid JSON without markdown formatting.")
         ++ nl ++ nl ++ lit "Document text:" ++ nl ++ response_text r1)
        [])).2 = Normal r2 →
  response_text r2 ≠ [] →
  HybridService.analyzeImage env img ap vm tm w
  = (Normal (mkLLMResult (response_text r2) (elapsed env)),
     add_post
       (mkPost (or_default tm (ollama_model (config env)))
          (or_default ap
             (lit "Analyze the following document text and extract key information as structured JSON. Return only valid JSON without markdown formatting.")
           ++ nl ++ nl ++ lit "Document text:" ++ nl ++ response_text r1)
          [])
       (add_post
          (mkPost (or_default vm (lit "gemma3:4b"))
             (lit "Extract all text from this image. Return only the raw text without any formatting or additional comments.")
             [base64 env optimizedImage])
          w)).
Proof.
  intros Hsharp Hto1%exceeds_timeout_false Hans1 Hr1%truthy_true
    Hto2%exceeds_timeout_false Hans2 Hr2%truthy_true.
  unfold HybridService.analyzeImage. run_ops. rewrite Hsharp.
  destruct (ollama env (mkPost (or_default vm _) _ _)) as [lat1 ans1].
  cbn [fst snd] in *. rewrite Hto1, Hans1. cbn. rewrite Hr1. cbn.
  destruct (ollama env _) as [lat2 ans2].
  cbn [fst snd] in *. rewrite Hto2, Hans2. cbn. by rewrite Hr2.
Qed.

Lemma undecodable_image_posts_nothing_witness :
  (HybridService.analyzeImage
     (with_sharp
        (sample_env (Throw engine_crash) (10, Normal (Some (lit "x")))
           (10, Normal (Some (lit "{}"))))
        (λ _ _ _, Throw (Error (lit "Input buffer contains unsupported image format"))))
     [1; 2; 3] None None None empty_world).2 = empty_world.
Proof.
  pose proof (proj1 (undecodable_image_posts_nothing
    (with_sharp
       (sample_env (Throw engine_crash) (10, Normal (Some (lit "x")))
          (10, Normal (Some (lit "{}"))))
       (λ _ _ _, Throw (Error (lit "Input buffer contains unsupported image format"))))
    [1; 2; 3] None None None empty_world
    (Error (lit "Input buffer contains unsupported image format"))
    eq_refl eq_refl)) as H.
  by rewrite H.
Defined.

Lemma hybrid_success_witness :
  (HybridService.analyzeImage
     (sample_env (Throw engine_crash) (10, Normal (Some (lit "INVOICE #123")))
        (10, Normal (Some (lit " {} "))))
     [137; 80; 78; 71] None None None empty_world).1
  = Normal (mkLLMResult (response_text (Some (lit " {} "))) 150).
Proof.
  rewrite (hybrid_success
    (sample_env (Throw engine_crash) (10, Normal (Some (lit "INVOICE #123")))
       (10, Normal (Some (lit " {} "))))
    [137; 80; 78; 71] None None None empty_world [137; 80; 78; 71]
    (Some (lit "INVOICE #123")) (Some (lit " {} "))).
  - reflexivity.
  - reflexivity.
  - intros [_ H]. vm_compute in H. discriminate.
  - reflexivity.
  - vm_compute. discriminate.
  - intros [_ H]. vm_compute in H. discriminate.
  - reflexivity.
  - vm_compute. discriminate.
Defined.

(** X16. Every successful result of the hybrid, the vision and the
    magic-OCR service carries a summary that is non-empty and equal to
    its own trim. *)
Theorem vision_services_results_trimmed env w (r : LLMResult) :
  (∃ img ap vm tm, (HybridService.analyzeImage env img ap vm tm w).1 = Normal r)
  ∨ (∃ img prompt model,
       (VisionService.analyzeImage env img prompt model w).1 = Normal r)
  ∨ (∃ img p model,
       (MagicOCRService.analyzeImage env img p model w).1 = Normal r) →
  summary r ≠ [] ∧ trim (summary r) = summary r.
Proof.
  intros [(img & ap & vm & tm & H)|[(img & p & model & H)|(img & p & model & H)]].
  - exact (yields_spec _ _ _ _ (hybrid_analyzeImage_yields env img ap vm tm) H).
  - exact (yields_spec _ _ _ _ (vision_analyzeImage_yields env img p model) H).
  - exact (yields_spec _ _ _ _ (magic_analyzeImage_yields env img p model) H).
Qed.

Lemma vision_services_results_trimmed_witness :
  lit "INVOICE #123" ≠ [] ∧ trim (lit "INVOICE #123") = lit "INVOICE #123".
Proof.
  refine (vision_services_results_trimmed
    (sample_env (Throw engine_crash)
       (10, Normal (Some (lit "  INVOICE #123 ")))
       (10, Normal (Some (lit "{}"))))
    empty_world (mkLLMResult (lit "INVOICE #123") 150) _).
  right. right. exists [137; 80; 78; 71], None, None.
  vm_compute. reflexivity.
Defined.

(** ** The text-model adapter *)

(** X17. [analyzeText] posts exactly one request and changes nothing
    else: a request without image, to the requested model or else the
    configured one, whose prompt is the instruction, a blank line and
    the text. *)
Theorem analyzeText_posts_one_request env text prompt model w :
  (LLMService.analyzeText env text prompt model w).2
  = add_post
      (mkPost (or_default model (ollama_model (config env)))
         (prompt ++ nl ++ nl ++ text) [])
      w.
Proof.
  unfold LLMService.analyzeText. run_ops.
  destruct (ollama env _) as [lat ans].
  destruct (_ && _); cbn; [done|].
  destruct ans as [r|e]; cbn.
  - by destruct (truthy (response_text r)).
  - by repeat (destruct (_ && _)).
Qed.

(** X18. When the backend answers a text analysis with status 404 (in
    time, and not as an aborted connection), the failure names the model
    that was requested: the one given, or the configured one when none
    (or the empty string) was given. *)
Theorem analyzeText_model_not_found env text prompt model w code msg :
  ¬ exceeds_timeout env
      (mkPost (or_default model (ollama_model (config env)))
         (prompt ++ nl ++ nl ++ text) [])
      (ollama_timeout (config env)) →
  (ollama env
     (mkPost (or_default model (ollama_model (config env)))
        (prompt ++ nl ++ nl ++ text) [])).2
  = Throw (AxiosError code (Some 404) msg) →
  code ≠ Some ECONNABORTED →
  (LLMService.analyzeText env text prompt model w).1
  = Throw (Error (lit "Model '"
                    ++ or_default model (ollama_model (config env))
                    ++ lit "' not found - please pull it with 'ollama pull "
                    ++ or_default model (ollama_model (config env))
                    ++ lit "'")).
Proof.
  intros Hto%exceeds_timeout_false Hans Hcode.
  unfold LLMService.analyzeText. run_ops.
  destruct (ollama env _) as [lat ans]. cbn [fst snd] in *.
  rewrite Hto, Hans. cbn.
  destruct code as [c|]; cbn; [|done].
  case_bool_decide; [congruence|done].
Qed.

Lemma analyzeText_model_not_found_witness :
  (LLMService.analyzeText
     (sample_env (Throw engine_crash) (0, Throw backend_down)
        (10, Throw (AxiosError (Some (lit "ERR_BAD_REQUEST")) (Some 404)
                      (lit "Request failed with status code 404"))))
     (lit "INVOICE #123") (lit "Summarise.") None empty_world).1
  = Throw (Error (lit "Model 'llama3.2:3b' not found - please pull it with 'ollama pull llama3.2:3b'")).
Proof.
  refine (analyzeText_model_not_found
    (sample_env (Throw engine_crash) (0, Throw backend_down)
       (10, Throw (AxiosError (Some (lit "ERR_BAD_REQUEST")) (Some 404)
                     (lit "Request failed with status code 404"))))
    (lit "INVOICE #123") (lit "Summarise.") None empty_world
    (Some (lit "ERR_BAD_REQUEST")) (lit "Request failed with status code 404")
    _ _ _).
  - intros [_ H]. vm_compute in H. discriminate.
  - reflexivity.
  - vm_compute. discriminate.
Defined.

(** X19. A text analysis whose backend call exceeds
    [config.ollama.timeout], or is aborted by axios with code
    ECONNABORTED, fails with the time-out failure, also when the aborted
    call carries a 404 status: the time-out test comes first. *)
Theorem analyzeText_timeout env text prompt model w :
  exceeds_timeout env
    (mkPost (or_default model (ollama_model (config env)))
       (prompt ++ nl ++ nl ++ text) [])
    (ollama_timeout (config env))
  ∨ (∃ status msg,
       (ollama env
          (mkPost (or_default model (ollama_model (config env)))
             (prompt ++ nl ++ nl ++ text) [])).2
       = Throw (AxiosError (Some ECONNABORTED) status msg)) →
  (LLMService.analyzeText env text prompt model w).1
  = Throw (Error (lit "LLM request timed out - try a shorter document or increase timeout")).
Proof.
  intros H. unfold LLMService.analyzeText. run_ops.
  destruct (ollama env _) as [lat ans] eqn:E.
  destruct ((0 <? ollama_timeout (config env))
            && (ollama_timeout (config env) <? lat)) eqn:Hto; cbn; [done|].
  destruct H as [H|(status & msg & H)].
  - apply exceeds_timeout_true in H. rewrite ?E in H. cbn in H. congruence.
  - rewrite ?E in H. cbn in H. subst ans. cbn.
    by rewrite bool_decide_eq_true_2.
Qed.

Lemma analyzeText_timeout_witness :
  (LLMService.analyzeText
     (sample_env (Throw engine_crash) (0, Throw backend_down)
        (60001, Normal (Some (lit "{}"))))
     (lit "INVOICE #123") (lit "Summarise.") None empty_world).1
  = Throw (Error (lit "LLM request timed out - try a shorter document or increase timeout")).
Proof.
  refine (analyzeText_timeout
    (sample_env (Throw engine_crash) (0, Throw backend_down)
       (60001, Normal (Some (lit "{}"))))
    (lit "INVOICE #123") (lit "Summarise.") None empty_world _).
  left. split; vm_compute; reflexivity.
Defined.

(** ** What trimming removes *)

Lemma dropWhile_split {A} (p : A → bool) (l : list A) :
  ∃ a, l = a ++ dropWhile p l ∧ Forall (λ x, p x = true) a.
Proof.
  induction l as [|x l (a & Hl & Ha)]; [by exists []|].
  cbn. destruct (p x) eqn:Hx.
  - exists (x :: a). split; [by rewrite Hl at 1|by constructor].
  - by exists [].
Qed.

Lemma dropWhile_nil {A} (p : A → bool) (l : list A) :
  dropWhile p l = [] ↔ Forall (λ x, p x = true) l.
Proof.
  induction l as [|x l IH]; cbn; [done|].
  destruct (p x) eqn:Hx.
  - rewrite IH. split; [by constructor|by inversion 1].
  - split; [done|]. inversion 1. congruence.
Qed.

(** [s.trim()] is [s] without a prefix and a suffix of white space. *)
Lemma trim_split s :
  ∃ a b, s = a ++ trim s ++ b
    ∧ Forall (λ c, is_white_space c = true) a
    ∧ Forall (λ c, is_white_space c = true) b.
Proof.
  destruct (dropWhile_split is_white_space s) as (a & Hs & Ha).
  destruct (dropWhile_split is_white_space (rev (trimStart s)))
    as (b & Hr & Hb).
  exists a, (rev b). split; [|split; [done|]].
  - rewrite Hs at 1. f_equal. unfold trim, trimEnd.
    rewrite <- rev_app_distr, <- Hr. by rewrite rev_involutive.
  - by apply List.Forall_rev.
Qed.

(** [s.trim()] is empty exactly when [s] consists of white space. *)
Lemma trim_nil s :
  trim s = [] ↔ Forall (λ c, is_white_space c = true) s.
Proof.
  split.
  - intros Ht. destruct (trim_split s) as (a & b & Hs & Ha & Hb).
    rewrite Hs, Ht. by apply Forall_app.
  - intros Hs%dropWhile_nil. unfold trim, trimStart. by rewrite Hs.
Qed.

Lemma extractTextFromImage_returns env img lang w raw :
  debug_saveFiles (config env) = false →
  recognize env img lang = Normal raw →
  trim raw ≠ [] →
  OCRService.extractTextFromImage env img lang w
  = (Normal (mkOCRResult (trim raw) (elapsed env)), w).
Proof.
  intros Hdebug Hrec Ht.
  assert (raw ≠ []) as Hraw by (by intros ->).
  apply truthy_true in Ht, Hraw.
  unfold OCRService.extractTextFromImage. run_ops.
  by rewrite Hrec, Hdebug, Ht, Hraw.
Qed.

(** X20. With the debug dump off, the OCR of an image succeeds exactly
    when the text of the engine has a character that is not white space:
    then the result is that text without the white space around it (the
    inside is kept as it is); a text of white space only, or the empty
    text, fails.  The world is left unchanged in both cases. *)
Theorem extractTextFromImage_iff env img lang w raw :
  debug_saveFiles (config env) = false →
  recognize env img lang = Normal raw →
  (Forall (λ c, is_white_space c = true) raw →
   OCRService.extractTextFromImage env img lang w
   = (Throw (Error (lit "Failed to extract text from image: "
                      ++ lit "No text extracted from image")), w))
  ∧ (¬ Forall (λ c, is_white_space c = true) raw →
     ∃ a b,
       OCRService.extractTextFromImage env img lang w
       = (Normal (mkOCRResult (trim raw) (elapsed env)), w)
       ∧ raw = a ++ trim raw ++ b
       ∧ Forall (λ c, is_white_space c = true) a
       ∧ Forall (λ c, is_white_space c = true) b).
Proof.
  intros Hdebug Hrec. split.
  - intros Hws%trim_nil. unfold OCRService.extractTextFromImage. run_ops.
    rewrite Hrec, Hws. cbn. by rewrite orb_true_r.
  - intros Hws. destruct (trim_split raw) as (a & b & Hs & Ha & Hb).
    exists a, b. split; [|done].
    apply extractTextFromImage_returns; [done..|].
    by rewrite trim_nil.
Qed.

Lemma extractTextFromImage_iff_witness :
  OCRService.extractTextFromImage
    (sample_env (Normal [32; 10; 9]) (0, Throw backend_down)
       (0, Throw backend_down))
    [137; 80; 78; 71] (lit "eng") empty_world
  = (Throw (Error (lit "Failed to extract text from image: "
                     ++ lit "No text extracted from image")), empty_world).
Proof.
  refine (proj1 (extractTextFromImage_iff
    (sample_env (Normal [32; 10; 9]) (0, Throw backend_down)
       (0, Throw backend_down))
    [137; 80; 78; 71] (lit "eng") empty_world [32; 10; 9] _ _) _).
  - reflexivity.
  - reflexivity.
  - repeat constructor.
Defined.

Lemma analyzeText_returns env text prompt model w r :
  ¬ exceeds_timeout env
      (mkPost (or_default model (ollama_model (config env)))
         (prompt ++ nl ++ nl ++ text) [])
      (ollama_timeout (config env)) →
  (ollama env
     (mkPost (or_default model (ollama_model (config env)))
        (prompt ++ nl ++ nl ++ text) [])).2 = Normal r →
  response_text r ≠ [] →
  LLMService.analyzeText env text prompt model w
  = (Normal (mkLLMResult (response_text r) (elapsed env)),
     add_post
       (mkPost (or_default model (ollama_model (config env)))
          (prompt ++ nl ++ nl ++ text) [])
       w).
Proof.
  intros Hto%exceeds_timeout_false Hans Hr%truthy_true.
  unfold LLMService.analyzeText. run_ops.
  destruct (ollama env _) as [lat ans]. cbn [fst snd] in *.
  rewrite Hto, Hans. cbn. by rewrite Hr.
Qed.

(** X21. The document controller on an image, with the debug dump off:
    when the OCR text has a character that is not white space and the
    text model answers in time with text that is not blank, the
    controller posts one request (the x-prompt header or the default
    prompt, a blank line, the trimmed OCR text; to the x-model header or
    the configured model) and answers 200 with the trimmed answer and,
    as text length, the length of the trimmed OCR text. *)
Theorem document_controller_image env defaultPrompt req w fileType buffer
    raw r :
  file req = Some (fileType, buffer) →
  fileType ≠ lit "application/pdf" →
  startsWith (lit "image/") fileType = true →
  debug_saveFiles (config env) = false →
  recognize env buffer (or_default (x_language req) (lit "eng")) = Normal raw →
  trim raw ≠ [] →
  ¬ exceeds_timeout env
      (mkPost (or_default (x_model req) (ollama_model (config env)))
         (or_default (x_prompt req) defaultPrompt ++ nl ++ nl ++ trim raw) [])
      (ollama_timeout (config env)) →
  (ollama env
     (mkPost (or_default (x_model req) (ollama_model (config env)))
        (or_default (x_prompt req) defaultPrompt ++ nl ++ nl ++ trim raw)
        [])).2 = Normal r →
  response_text r ≠ [] →
  DocumentController.analyzeDocument env defaultPrompt req w
  = (Normal (),
     add_response
       (200,
        AnalysisBody (response_text r) (length (trim raw))
          (or_default (x_model req) (lit "llama3.2:3b")) fileType)
       (add_post
          (mkPost (or_default (x_model req) (ollama_model (config env)))
             (or_default (x_prompt req) defaultPrompt ++ nl ++ nl ++ trim raw)
             [])
          w)).
Proof.
  intros Hfile Hpdf Himage Hdebug Hrec Ht Hto Hans Hr.
  unfold DocumentController.analyzeDocument. rewrite Hfile. cbv zeta.
  rewrite bool_decide_eq_false_2, Himage by done.
  unfold try_catch, mbind, Op_bind.
  rewrite (extractTextFromImage_returns env buffer _ w raw) by done.
  cbn [text].
  by rewrite (analyzeText_returns env (trim raw) _ (x_model req) w r).
Qed.

Lemma document_controller_image_witness :
  (DocumentController.analyzeDocument
     (sample_env (Normal (lit " INVOICE #123 ")) (0, Throw backend_down)
        (10, Normal (Some (lit " {} "))))
     (lit "Summarise.")
     (mkRequest (Some (lit "image/png", [137; 80; 78; 71])) None None None)
     empty_world).1
  = Normal ().
Proof.
  rewrite (document_controller_image
    (sample_env (Normal (lit " INVOICE #123 ")) (0, Throw backend_down)
       (10, Normal (Some (lit " {} "))))
    (lit "Summarise.")
    (mkRequest (Some (lit "image/png", [137; 80; 78; 71])) None None None)
    empty_world (lit "image/png") [137; 80; 78; 71] (lit " INVOICE #123 ")
    (Some (lit " {} "))).
  - reflexivity.
  - reflexivity.
  - vm_compute. discriminate.
  - reflexivity.
  - reflexivity.
  - reflexivity.
  - vm_compute. discriminate.
  - intros [_ H]. vm_compute in H. discriminate.
  - reflexivity.
  - vm_compute. discriminate.
Defined.

(** ** Rasterization in the controllers *)

(** The world after a successful rasterization: the scratch directory
    holds the PDF and the PNG of its first page. *)
Lemma rasterize_succeeds {A} env prefix buffer png
    (k : Buffer → Op (option string * World) A) w :
  fault env Mkdtemp = None → fault env WritePdf = None →
  fault env Pdftocairo = None → fault env ReadPng = None →
  tmpfs w !! (prefix +:+ mkdtemp_suffix env)%string = None →
  pdftocairo env buffer = Some png →
  (dir ← lift (mkdtemp env prefix);
   set_var (Some dir);;
   lift (writeFile env WritePdf dir "input.pdf" buffer);;
   lift (exec_pdftocairo env dir);;
   imageBuffer ← lift (readFile env ReadPng dir "page.png");
   k imageBuffer) (None, w)
  = k png
      (Some (prefix +:+ mkdtemp_suffix env)%string,
       set_tmpfs
         (insert (prefix +:+ mkdtemp_suffix env)%string
            (<["page.png"%string := png]>
               (<["input.pdf"%string := buffer]> ∅)))
         w).
Proof.
  intros H1 H2 H3 H4 Hfresh Hpng.
  unfold lift, mkdtemp, set_var, writeFile, exec_pdftocairo, readFile.
  run_ops. cbn [fst snd]. rewrite H1. cbn. rewrite Hfresh. cbn.
  rewrite H2. cbn. rewrite lookup_insert_eq. cbn.
  rewrite H3. cbn. rewrite lookup_insert_eq. cbn.
  rewrite lookup_insert_eq. cbn. rewrite Hpng. cbn.
  rewrite H4. cbn. rewrite lookup_insert_eq. cbn.
  rewrite lookup_insert_eq. cbn.
  f_equal. f_equal. unfold set_tmpfs. cbn. destruct w. cbn.
  by rewrite !insert_insert_eq.
Qed.

(** A renderer that exits with a failure, or that writes no page: the
    body throws with the scratch directory recorded. *)
Lemma rasterize_fails {A} env prefix buffer
    (k : Buffer → Op (option string * World) A) w :
  fault env Mkdtemp = None → fault env WritePdf = None →
  tmpfs w !! (prefix +:+ mkdtemp_suffix env)%string = None →
  is_Some (fault env Pdftocairo) ∨ pdftocairo env buffer = None →
  ∃ e,
    (dir ← lift (mkdtemp env prefix);
     set_var (Some dir);;
     lift (writeFile env WritePdf dir "input.pdf" buffer);;
     lift (exec_pdftocairo env dir);;
     imageBuffer ← lift (readFile env ReadPng dir "page.png");
     k imageBuffer) (None, w)
    = (Throw e,
       (Some (prefix +:+ mkdtemp_suffix env)%string,
        set_tmpfs
          (insert (prefix +:+ mkdtemp_suffix env)%string
             (<["input.pdf"%string := buffer]> ∅))
          w)).
Proof.
  intros H1 H2 Hfresh Hfail.
  assert (∀ w0 : World,
    set_tmpfs
      (insert (prefix +:+ mkdtemp_suffix env)%string
         (<["input.pdf"%string := buffer]> ∅))
      (set_tmpfs (insert (prefix +:+ mkdtemp_suffix env)%string ∅) w0)
    = set_tmpfs
        (insert (prefix +:+ mkdtemp_suffix env)%string
           (<["input.pdf"%string := buffer]> ∅)) w0) as Hw.
  { intros []. unfold set_tmpfs. cbn. by rewrite insert_insert_eq. }
  unfold lift, mkdtemp, set_var, writeFile, exec_pdftocairo, readFile.
  run_ops. cbn [fst snd]. rewrite H1. cbn. rewrite Hfresh. cbn.
  rewrite H2. cbn. rewrite lookup_insert_eq. cbn.
  destruct (fault env Pdftocairo) as [e|] eqn:H3; cbn.
  - exists e. by rewrite Hw.
  - destruct Hfail as [[? [=]]|Hpng].
    rewrite lookup_insert_eq. cbn. rewrite lookup_insert_eq. cbn.
    rewrite Hpng. cbn.
    destruct (fault env ReadPng) as [e|]; cbn.
    + exists e. by rewrite Hw.
    + rewrite lookup_insert_eq. cbn. rewrite lookup_insert_ne by done.
      rewrite lookup_empty. eexists. by rewrite Hw.
Qed.

Lemma cleanup_removes env dir files w :
  fault env RmTemp = None →
  tmpfs w !! dir = None →
  (tempDir ← get_var; lift (cleanup env tempDir))
    (Some dir, set_tmpfs (insert dir files) w)
  = (Normal (), (Some dir, w)).
Proof.
  intros Hrm Hfresh. unfold get_var, lift, cleanup, rm. run_ops.
  cbn [fst snd]. rewrite Hrm. cbn. f_equal. f_equal.
  destruct w. unfold set_tmpfs. cbn in *.
  by rewrite delete_insert_eq, delete_id.
Qed.

(** X22. When the renderer exits with a failure or writes no page, the
    document-vl and magic-ocr controllers pass one error to [next],
    send no response, post no request to the backend and (the removal
    working) leave the temporary directory tree and everything else as
    they found it. *)
Theorem rasterization_failure_forwarded env req w buffer (run : M unit) :
  (run = DocumentVLController.analyzeDocument env req
   ∧ tmpfs w !! ("doc-intel-vl-" +:+ mkdtemp_suffix env)%string = None)
  ∨ (run = MagicOCRController.analyzeDocument env req
     ∧ tmpfs w !! ("doc-intel-magic-" +:+ mkdtemp_suffix env)%string = None) →
  file req = Some (lit "application/pdf", buffer) →
  fault env Mkdtemp = None → fault env WritePdf = None →
  fault env RmTemp = None →
  is_Some (fault env Pdftocairo) ∨ pdftocairo env buffer = None →
  ∃ e, run w = (Normal (), add_forwarded e w).
Proof.
  intros Hrun Hfile H1 H2 Hrm Hfail.
  destruct Hrun as [[-> Hfresh]|[-> Hfresh]].
  - unfold DocumentVLController.analyzeDocument. rewrite Hfile. cbv zeta.
    rewrite bool_decide_eq_true_2 by done.
    unfold with_var, try_finally, try_catch.
    edestruct (rasterize_fails (A := ()) env "doc-intel-vl-" buffer)
      as [e He]; [done..|]. rewrite He. clear He.
    exists e. unfold lift at 1. cbn [fst snd next modify].
    change (add_forwarded e (set_tmpfs ?f w))
      with (set_tmpfs f (add_forwarded e w)).
    by rewrite cleanup_removes.
  - unfold MagicOCRController.analyzeDocument. rewrite Hfile. cbv zeta.
    rewrite bool_decide_eq_true_2 by done.
    unfold with_var, try_finally, try_catch.
    edestruct (rasterize_fails (A := ()) env "doc-intel-magic-" buffer)
      as [e He]; [done..|]. rewrite He. clear He.
    exists e. unfold lift at 1. cbn [fst snd next modify].
    change (add_forwarded e (set_tmpfs ?f w))
      with (set_tmpfs f (add_forwarded e w)).
    by rewrite cleanup_removes.
Qed.

Lemma dual_text_request_world env img ap lang vm tm w w' :
  dual_text_request env img ap lang vm tm w
  = dual_text_request env img ap lang vm tm w'.
Proof.
  unfold dual_text_request.
  by rewrite !branch_text_tesseract, !branch_text_vision.
Qed.

(** What the document-vl controller does once it holds the image. *)
Lemma documentVL_analyze env req fileType img (var : option string) w :
  ∃ w1,
    (dualOCRResult ← lift (L := option string)
       (DualOCRService.analyzeImage env img
          (Some (or_default (x_prompt req)
             (lit "Extract all text and data from this document and return as structured JSON.")))
          (or_default (x_language req) (lit "eng")) (x_model req) None);
     lift (res_json 200
       (AnalysisBody (summary dualOCRResult) (length (summary dualOCRResult))
          (lit "Tesseract + " ++ or_default (x_model req) (lit "gemma3:4b")
             ++ lit " + llama3.2:3b")
          fileType))) (var, w)
    = (match (DualOCRService.analyzeImage env img
                (Some (or_default (x_prompt req)
                   (lit "Extract all text and data from this document and return as structured JSON.")))
                (or_default (x_language req) (lit "eng")) (x_model req) None
                w).1 with
       | Normal _ => Normal ()
       | Throw e => Throw e
       end, (var, w1))
    ∧ tmpfs w1 = tmpfs w ∧ debug_sink w1 = debug_sink w
    ∧ forwarded w1 = forwarded w
    ∧ posts w1
      = dual_text_request env img
          (Some (or_default (x_prompt req)
             (lit "Extract all text and data from this document and return as structured JSON.")))
          (or_default (x_language req) (lit "eng")) (x_model req) None w
        :: dual_vision_request env img (x_model req) :: posts w.
Proof.
  unfold lift. run_ops. cbn [fst snd].
  pose proof (dual_run_world env img
    (Some (or_default (x_prompt req)
       (lit "Extract all text and data from this document and return as structured JSON.")))
    (or_default (x_language req) (lit "eng")) (x_model req) None w) as Hw.
  destruct (DualOCRService.analyzeImage _ _ _ _ _ _ w) as [[r|e] w0];
    cbn [fst snd] in *; subst w0; eexists; (split; [reflexivity|done]).
Qed.

(** X23. For an uploaded image the document-vl controller posts
    exactly the two requests of the dual run on the uploaded bytes: the
    vision request to the x-model header (or gemma3:4b), then the text
    request, always to the configured text model, whose prompt starts
    with the x-prompt header (or the controller's default).  Nothing is
    written to the temporary tree or the debug sink. *)
Theorem documentVL_image_requests env req w fileType buffer :
  file req = Some (fileType, buffer) →
  fileType ≠ lit "application/pdf" →
  startsWith (lit "image/") fileType = true →
  ∃ w' rest,
    DocumentVLController.analyzeDocument env req w = (Normal (), w')
    ∧ posts w'
      = mkPost (ollama_model (config env))
          (or_default (x_prompt req)
             (lit "Extract all text and data from this document and return as structured JSON.")
           ++ rest) []
        :: mkPost (or_default (x_model req) (lit "gemma3:4b"))
             (lit "Extract all text from this image. Return only the raw text without any formatting or additional comments.")
             [base64 env buffer]
        :: posts w
    ∧ tmpfs w' = tmpfs w ∧ debug_sink w' = debug_sink w.
Proof.
  intros Hfile Hpdf Himage.
  unfold DocumentVLController.analyzeDocument. rewrite Hfile. cbv zeta.
  rewrite bool_decide_eq_false_2, Himage by done.
  unfold with_var, try_finally, try_catch.
  destruct (documentVL_analyze env req fileType buffer None w)
    as (w1 & -> & Hfs & Hdbg & Hfw & Hposts).
  assert (or_default (Some (or_default (x_prompt req)
            (lit "Extract all text and data from this document and return as structured JSON.")))
            (lit "Analyze the following document text and extract key information as structured JSON. Return only valid JSON without markdown formatting.")
          = or_default (x_prompt req)
              (lit "Extract all text and data from this document and return as structured JSON."))
    as Hprompt.
  { destruct (x_prompt req) as [[|c p]|]; reflexivity. }
  unfold dual_text_request, dual_vision_request in Hposts.
  rewrite Hprompt in Hposts. cbn [or_default] in Hposts.
  destruct (DualOCRService.analyzeImage _ _ _ _ _ _ w).1;
    cbn; eexists; eexists; (split; [reflexivity|]); cbn;
    (split; [exact Hposts|done]).
Qed.

Lemma documentVL_image_requests_witness :
  ∃ w',
    DocumentVLController.analyzeDocument
      (sample_env (Normal (lit "INVOICE #123")) (0, Throw backend_down)
         (0, Normal (Some (lit "{}"))))
      (mkRequest (Some (lit "image/png", [137; 80; 78; 71])) None None None)
      empty_world
    = (Normal (), w').
Proof.
  destruct (documentVL_image_requests
    (sample_env (Normal (lit "INVOICE #123")) (0, Throw backend_down)
       (0, Normal (Some (lit "{}"))))
    (mkRequest (Some (lit "image/png", [137; 80; 78; 71])) None None None)
    empty_world (lit "image/png") [137; 80; 78; 71])
    as (w' & rest & H & _).
  - reflexivity.
  - vm_compute. discriminate.
  - reflexivity.
  - by exists w'.
Defined.

Lemma cleanup_at env dir w :
  fault env RmTemp = None →
  (tempDir ← get_var; lift (cleanup env tempDir)) (Some dir, w)
  = (Normal (), (Some dir, set_tmpfs (delete dir) w)).
Proof.
  intros Hrm. unfold get_var, lift, cleanup, rm. run_ops.
  cbn [fst snd]. by rewrite Hrm.
Qed.

Lemma lift_syscall_ok {L A} env sc (k : Op (L * World) A) st :
  fault env sc = None → (lift (syscall env sc);; k) st = k st.
Proof.
  intros H. unfold lift, syscall. run_ops. rewrite H. by destruct st.
Qed.

Lemma lift_syscall_fails {L A} env sc e (k : Op (L * World) A) st :
  fault env sc = Some e → (lift (syscall env sc);; k) st = (Throw e, st).
Proof.
  intros H. unfold lift, syscall. run_ops. rewrite H. by destruct st.
Qed.

Lemma lift_modify {L A} (f : World → World) (k : Op (L * World) A) st :
  (lift (modify f);; k) st = k (st.1, f st.2).
Proof. reflexivity. Qed.

(** X24. For an uploaded PDF, when every system call works, the
    scratch directory name is new and the renderer writes a page, the
    document-vl controller analyses the rendered PNG of the first page:
    that PNG (not the PDF) is in the vision request and in the debug
    sink, the text request follows, and at the end the scratch
    directory is gone. *)
Theorem documentVL_pdf_requests env req w buffer png :
  file req = Some (lit "application/pdf", buffer) →
  (∀ s, fault env s = None) →
  tmpfs w !! ("doc-intel-vl-" +:+ mkdtemp_suffix env)%string = None →
  pdftocairo env buffer = Some png →
  ∃ w' textRequest,
    DocumentVLController.analyzeDocument env req w = (Normal (), w')
    ∧ posts w'
      = textRequest
        :: mkPost (or_default (x_model req) (lit "gemma3:4b"))
             (lit "Extract all text from this image. Return only the raw text without any formatting or additional comments.")
             [base64 env png]
        :: posts w
    ∧ is_text_request textRequest = true
    ∧ debug_sink w'
      = (("converted-" +:+ timestamp env +:+ ".png")%string, png)
        :: debug_sink w
    ∧ tmpfs w' = tmpfs w.
Proof.
  intros Hfile Hfault Hfresh Hpng.
  unfold DocumentVLController.analyzeDocument. rewrite Hfile. cbv zeta.
  rewrite bool_decide_eq_true_2 by done.
  unfold with_var, try_finally, try_catch.
  rewrite (rasterize_succeeds env "doc-intel-vl-" buffer png) by done.
  rewrite !lift_syscall_ok, lift_modify by done. cbn [fst snd].
  match goal with
  | |- context [mbind _ (lift (DualOCRService.analyzeImage _ _ _ _ _ _)) (?v, ?w0)] =>
      destruct (documentVL_analyze env req (lit "application/pdf") png v w0)
        as (w1 & Hrun & Hfs & Hdbg & Hfw & Hposts)
  end.
  rewrite Hrun. clear Hrun.
  cbn [tmpfs debug_sink posts add_debug set_tmpfs] in Hfs, Hdbg, Hposts.
  destruct (DualOCRService.analyzeImage _ _ _ _ _ _ _).1 as [r|e];
    [|unfold lift at 1; cbn [fst snd next modify]];
    rewrite cleanup_at by done; cbn [fst snd];
    eexists; eexists; (split; [reflexivity|]);
    cbn; rewrite Hposts, Hdbg, Hfs;
    (split; [reflexivity|]); (split; [reflexivity|]);
    (split; [reflexivity|]);
    by rewrite delete_insert_eq, delete_id.
Qed.

Lemma documentVL_pdf_requests_witness :
  ∃ w',
    DocumentVLController.analyzeDocument
      (sample_env (Normal (lit "INVOICE #123")) (0, Throw backend_down)
         (0, Normal (Some (lit "{}"))))
      (mkRequest (Some (lit "application/pdf", [37; 80; 68; 70]))
         None None None)
      empty_world
    = (Normal (), w').
Proof.
  destruct (documentVL_pdf_requests
    (sample_env (Normal (lit "INVOICE #123")) (0, Throw backend_down)
       (0, Normal (Some (lit "{}"))))
    (mkRequest (Some (lit "application/pdf", [37; 80; 68; 70]))
       None None None)
    empty_world [37; 80; 68; 70] [37; 80; 68; 70])
    as (w' & t & H & _).
  - reflexivity.
  - reflexivity.
  - reflexivity.
  - reflexivity.
  - by exists w'.
Defined.

(** X25. In the document-vl controller the debug copy of the rendered
    page is part of the request: when creating the debug directory or
    writing the copy fails (everything before having worked), the
    request fails with that error passed to [next]; no request is
    posted to the backend, nothing is written to the debug sink, and
    the scratch directory is removed. *)
Theorem documentVL_debug_failure_fails_request env req w buffer png e :
  file req = Some (lit "application/pdf", buffer) →
  fault env Mkdtemp = None → fault env WritePdf = None →
  fault env Pdftocairo = None → fault env ReadPng = None →
  fault env RmTemp = None →
  tmpfs w !! ("doc-intel-vl-" +:+ mkdtemp_suffix env)%string = None →
  pdftocairo env buffer = Some png →
  fault env MkdirDebug = Some e
  ∨ (fault env MkdirDebug = None ∧ fault env WriteDebug = Some e) →
  DocumentVLController.analyzeDocument env req w
  = (Normal (), add_forwarded e w).
Proof.
  intros Hfile H1 H2 H3 H4 Hrm Hfresh Hpng Hdebug.
  unfold DocumentVLController.analyzeDocument. rewrite Hfile. cbv zeta.
  rewrite bool_decide_eq_true_2 by done.
  unfold with_var, try_finally, try_catch.
  rewrite (rasterize_succeeds env "doc-intel-vl-" buffer png) by done.
  destruct Hdebug as [Hmk|[Hmk Hwr]].
  - rewrite (lift_syscall_fails env MkdirDebug e) by done.
    unfold lift at 1. cbn [fst snd next modify].
    change (add_forwarded e (set_tmpfs ?f w))
      with (set_tmpfs f (add_forwarded e w)).
    by rewrite cleanup_removes.
  - rewrite lift_syscall_ok by done.
    rewrite (lift_syscall_fails env WriteDebug e) by done.
    unfold lift at 1. cbn [fst snd next modify].
    change (add_forwarded e (set_tmpfs ?f w))
      with (set_tmpfs f (add_forwarded e w)).
    by rewrite cleanup_removes.
Qed.

Lemma documentVL_debug_failure_fails_request_witness :
  DocumentVLController.analyzeDocument
    (with_fault
       (sample_env (Normal (lit "INVOICE #123")) (0, Throw backend_down)
          (0, Normal (Some (lit "{}"))))
       (λ s, match s with
             | WriteDebug => Some (Error (lit "ENOSPC: no space left on device"))
             | _ => None
             end))
    (mkRequest (Some (lit "application/pdf", [37; 80; 68; 70]))
       None None None)
    empty_world
  = (Normal (),
     add_forwarded (Error (lit "ENOSPC: no space left on device"))
       empty_world).
Proof.
  refine (documentVL_debug_failure_fails_request
    (with_fault
       (sample_env (Normal (lit "INVOICE #123")) (0, Throw backend_down)
          (0, Normal (Some (lit "{}"))))
       (λ s, match s with
             | WriteDebug => Some (Error (lit "ENOSPC: no space left on device"))
             | _ => None
             end))
    (mkRequest (Some (lit "application/pdf", [37; 80; 68; 70]))
       None None None)
    empty_world [37; 80; 68; 70] [37; 80; 68; 70]
    (Error (lit "ENOSPC: no space left on device"))
    _ _ _ _ _ _ _ _ _); try reflexivity.
  right. split; reflexivity.
Defined.

Lemma rasterization_failure_forwarded_witness :
  ∃ e,
    MagicOCRController.analyzeDocument
      (with_pdftocairo
         (sample_env (Normal (lit "INVOICE #123")) (0, Throw backend_down)
            (0, Normal (Some (lit "{}"))))
         (λ _, None))
      (mkRequest (Some (lit "application/pdf", [37; 80; 68; 70]))
         None None None)
      empty_world
    = (Normal (), add_forwarded e empty_world).
Proof.
  refine (rasterization_failure_forwarded
    (with_pdftocairo
       (sample_env (Normal (lit "INVOICE #123")) (0, Throw backend_down)
          (0, Normal (Some (lit "{}"))))
       (λ _, None))
    (mkRequest (Some (lit "application/pdf", [37; 80; 68; 70]))
       None None None)
    empty_world [37; 80; 68; 70] _ _ _ _ _ _ _); try reflexivity.
  - right. split; reflexivity.
  - by right.
Defined.

(** ** OCR of a PDF *)

(** X26. With the debug dump off, when the system calls work, the
    scratch directory name is new and the renderer writes a page, the
    OCR of a PDF recognises the rendered PNG of the first page (not the
    PDF bytes): it returns the trimmed text of that page, or fails with
    "No text extracted from PDF image" when the page holds white space
    only; either way the world, and so the temporary tree, is left as it
    was found. *)
Theorem extractTextFromPDF_recognises_page env pdfBuffer language w png raw :
  debug_saveFiles (config env) = false →
  fault env Mkdtemp = None → fault env WritePdf = None →
  fault env Pdftocairo = None → fault env ReadPng = None →
  fault env RmTemp = None →
  tmpfs w !! ("doc-intel-" +:+ mkdtemp_suffix env)%string = None →
  pdftocairo env pdfBuffer = Some png →
  recognize env png language = Normal raw →
  OCRService.extractTextFromPDF env pdfBuffer language w
  = (if truthy (trim raw)
     then Normal (mkOCRResult (trim raw) (elapsed env))
     else Throw (Error (lit "Failed to extract text from PDF: "
                          ++ lit "No text extracted from PDF image")),
     w).
Proof.
  intros Hdebug H1 H2 H3 H4 Hrm Hfresh Hpng Hrec.
  unfold OCRService.extractTextFromPDF. rewrite Hdebug. unfold when.
  unfold with_var, try_finally, try_catch.
  set (fin := (tempDir ← get_var; lift (cleanup env tempDir))).
  change ((lift (mret ());; ?k) (None, w)) with (k (None, w)).
  rewrite (rasterize_succeeds env "doc-intel-" pdfBuffer png) by done.
  unfold lift, complete. run_ops. cbn [fst snd]. rewrite Hrec.
  destruct (truthy (trim raw)) eqn:Ht.
  - assert (truthy raw = true) as ->.
    { apply truthy_true. intros ->. by vm_compute in Ht. }
    cbn [negb orb fst snd]. subst fin. by rewrite cleanup_removes.
  - rewrite orb_true_r. cbn [fst snd]. subst fin.
    by rewrite cleanup_removes.
Qed.

Lemma extractTextFromPDF_recognises_page_witness :
  OCRService.extractTextFromPDF
    (sample_env (Normal [32; 10; 9]) (0, Throw backend_down)
       (0, Throw backend_down))
    [37; 80; 68; 70] (lit "eng") empty_world
  = (Throw (Error (lit "Failed to extract text from PDF: "
                     ++ lit "No text extracted from PDF image")),
     empty_world).
Proof.
  refine (extractTextFromPDF_recognises_page
    (sample_env (Normal [32; 10; 9]) (0, Throw backend_down)
       (0, Throw backend_down))
    [37; 80; 68; 70] (lit "eng") empty_world [37; 80; 68; 70] [32; 10; 9]
    _ _ _ _ _ _ _ _ _); reflexivity.
Defined.

(** ** Further request shapes and failures *)

(** X27. When a dual run is given no instruction, or the empty one,
    the request to the text model starts with the default instruction
    of the service. *)
Theorem dual_default_instruction env img ap lang vm tm w :
  ap = None ∨ ap = Some [] →
  ∃ rest,
    text_model_calls (DualOCRService.analyzeImage env img ap lang vm tm w).2
    = mkPost (or_default tm (ollama_model (config env)))
        (lit "Analyze the following document text and extract key information as structured JSON. Return only valid JSON without markdown formatting."
         ++ rest) []
      :: text_model_calls w.
Proof. apply dual_prompt_default_instruction. Qed.

Lemma dual_default_instruction_witness :
  ∃ rest,
    text_model_calls
      (DualOCRService.analyzeImage
         (sample_env (Normal (lit "INVOICE #123")) (0, Throw backend_down)
            (0, Normal (Some (lit "{}"))))
         [137; 80; 78; 71] (Some []) (lit "eng") None None empty_world).2
    = mkPost
        (or_default None
           (ollama_model
              (config
                 (sample_env (Normal (lit "INVOICE #123"))
                    (0, Throw backend_down) (0, Normal (Some (lit "{}")))))))
        (lit "Analyze the following document text and extract key information as structured JSON. Return only valid JSON without markdown formatting."
         ++ rest) []
      :: text_model_calls empty_world.
Proof.
  apply (dual_default_instruction
    (sample_env (Normal (lit "INVOICE #123")) (0, Throw backend_down)
       (0, Normal (Some (lit "{}"))))
    [137; 80; 78; 71] (Some []) (lit "eng") None None empty_world).
  by right.
Defined.

(** X28. The vision service sends the caller's prompt and the image as
    uploaded (not preconditioned) in exactly one request, and a 404
    answer of the backend (in time, not an aborted connection) is
    reported as a missing model, naming the model requested or else
    gemma3:4b. *)
Theorem vision_request_and_missing_model env img prompt model w code msg :
  ¬ exceeds_timeout env
      (mkPost (or_default model (lit "gemma3:4b")) prompt [base64 env img])
      (ollama_visionTimeout (config env)) →
  (ollama env
     (mkPost (or_default model (lit "gemma3:4b")) prompt [base64 env img])).2
  = Throw (AxiosError code (Some 404) msg) →
  code ≠ Some ECONNABORTED →
  VisionService.analyzeImage env img prompt model w
  = (Throw (Error (lit "Vision model '" ++ or_default model (lit "gemma3:4b")
                     ++ lit "' not found - please pull it with 'ollama pull "
                     ++ or_default model (lit "gemma3:4b") ++ lit "'")),
     add_post
       (mkPost (or_default model (lit "gemma3:4b")) prompt [base64 env img])
       w).
Proof.
  intros Hto%exceeds_timeout_false Hans Hcode.
  unfold VisionService.analyzeImage. run_ops.
  destruct (ollama env _) as [lat ans]. cbn [fst snd] in *.
  rewrite Hto, Hans. cbn.
  destruct code as [c|]; cbn; [|done].
  case_bool_decide; [congruence|done].
Qed.

Lemma vision_request_and_missing_model_witness :
  (VisionService.analyzeImage
     (sample_env (Throw engine_crash)
        (10, Throw (AxiosError (Some (lit "ERR_BAD_REQUEST")) (Some 404)
                      (lit "Request failed with status code 404")))
        (0, Throw backend_down))
     [137; 80; 78; 71] (lit "Describe the image.") None empty_world).1
  = Throw (Error (lit "Vision model 'gemma3:4b' not found - please pull it with 'ollama pull gemma3:4b'")).
Proof.
  rewrite (vision_request_and_missing_model
    (sample_env (Throw engine_crash)
       (10, Throw (AxiosError (Some (lit "ERR_BAD_REQUEST")) (Some 404)
                     (lit "Request failed with status code 404")))
       (0, Throw backend_down))
    [137; 80; 78; 71] (lit "Describe the image.") None empty_world
    (Some (lit "ERR_BAD_REQUEST"))
    (lit "Request failed with status code 404")).
  - reflexivity.
  - intros [_ H]. vm_compute in H. discriminate.
  - reflexivity.
  - vm_compute. discriminate.
Defined.

(** X29. The magic-OCR service never sends the caller's prompt: once
    sharp has produced the optimised image it posts exactly one request,
    with the fixed prompt "Extract the text in the image." and the
    optimised image, whatever prompt it was given. *)
Theorem magic_request_ignores_prompt env img p model w optimizedBuffer :
  sharp_toBuffer env img MagicOCRService.resizeOptions
    MagicOCRService.jpegOptions
  = Normal optimizedBuffer →
  (MagicOCRService.analyzeImage env img p model w).2
  = add_post
      (mkPost (or_default model (lit "gemma3:4b"))
         (lit "Extract the text in the image.") [base64 env optimizedBuffer])
      w.
Proof.
  intros Hsharp. unfold MagicOCRService.analyzeImage. run_ops.
  rewrite Hsharp. destruct (ollama env _) as [lat ans].
  destruct (_ && _); cbn; [done|].
  destruct ans as [r|e]; cbn.
  - by destruct (truthy (response_text r)).
  - by repeat (destruct (_ && _)).
Qed.

Lemma magic_request_ignores_prompt_witness :
  posts
    (MagicOCRService.analyzeImage
       (sample_env (Throw engine_crash) (10, Normal (Some (lit "INVOICE")))
          (0, Throw backend_down))
       [137; 80; 78; 71] (Some (lit "Translate to French.")) None
       empty_world).2
  = [mkPost (lit "gemma3:4b") (lit "Extract the text in the image.")
       [[137; 80; 78; 71]]].
Proof.
  rewrite (magic_request_ignores_prompt
    (sample_env (Throw engine_crash) (10, Normal (Some (lit "INVOICE")))
       (0, Throw backend_down))
    [137; 80; 78; 71] (Some (lit "Translate to French.")) None empty_world
    [137; 80; 78; 71]); reflexivity.
Defined.
